(** * EdgeNPU software stack: instruction codec, layer compiler and
      execution state machine, embedded from the C sources.

    Sources embedded (paths relative to [software/]):
    - [firmware/include/npu_fw_inst.h]   : 64-bit instruction format
    - [firmware/include/npu_fw_regs.h]   : register map, PE-array geometry
    - [firmware/include/npu_fw_types.h]  : status codes, descriptors
    - [firmware/runtime/npu_layer_exec.c]: layer-to-instruction lowering
    - [firmware/runtime/npu_runtime_fw.c]: firmware runtime
    - [firmware/boot/npu_boot.c]         : reset and boot sequence
    - [driver/src/npu_driver.c]          : host driver
    - [runtime/src/npu_runtime.c]        : host model loader

    C unsigned integers of width [w] are values of [Z] in [0, 2^w) and
    every operation writes its wrap-around out. *)

From Stdlib Require Import ZArith List Bool Lia Floats.SpecFloat.
Import ListNotations.
Local Open Scope Z_scope.

(** ** Machine integers *)

Module CInt.

Definition u8  (x : Z) : Z := x mod 2 ^ 8.
Definition u16 (x : Z) : Z := x mod 2 ^ 16.
Definition u32 (x : Z) : Z := x mod 2 ^ 32.
Definition u64 (x : Z) : Z := x mod 2 ^ 64.

(** [x << n] on a [uint64_t] / [uint32_t] operand. *)
Definition shl64 (x n : Z) : Z := u64 (Z.shiftl x n).
Definition shl32 (x n : Z) : Z := u32 (Z.shiftl x n).

Definition is_u8  (x : Z) : Prop := 0 <= x < 2 ^ 8.
Definition is_u16 (x : Z) : Prop := 0 <= x < 2 ^ 16.
Definition is_u32 (x : Z) : Prop := 0 <= x < 2 ^ 32.
Definition is_u64 (x : Z) : Prop := 0 <= x < 2 ^ 64.
Definition is_i8  (x : Z) : Prop := - 2 ^ 7 <= x < 2 ^ 7.
Definition is_i32 (x : Z) : Prop := - 2 ^ 31 <= x < 2 ^ 31.

(** C [for (uint32_t i = 0; i < n; i++) body(i)] as a left fold over
    the successive values of the counter. *)
Definition for_loop {S : Type} (n : Z) (body : Z -> S -> S) (s : S) : S :=
  fold_left (fun acc i => body (Z.of_nat i) acc) (seq 0 (Z.to_nat n)) s.

End CInt.
Import CInt.

(** ** npu_fw_inst.h : instruction format

    [63:56] opcode, [55:48] flags, [47:0] operands. *)

Module Inst.

Definition OP_NOP            : Z := 0x00.
Definition OP_HALT           : Z := 0x01.
Definition OP_SYNC           : Z := 0x02.
Definition OP_WAIT_DMA       : Z := 0x03.
Definition OP_DMA_LOAD_W     : Z := 0x10.
Definition OP_DMA_LOAD_A     : Z := 0x11.
Definition OP_DMA_STORE      : Z := 0x12.
Definition OP_CLEAR_ACC      : Z := 0x26.
Definition OP_LOAD_WEIGHT    : Z := 0x27.
Definition OP_COMPUTE        : Z := 0x28.
Definition OP_DRAIN          : Z := 0x29.
Definition OP_MAXPOOL        : Z := 0x50.
Definition OP_AVGPOOL        : Z := 0x51.
Definition OP_GLOBAL_AVGPOOL : Z := 0x52.
Definition OP_ADD            : Z := 0x60.

Definition FLAG_LAST  : Z := Z.shiftl 1 0.
Definition FLAG_IRQ   : Z := Z.shiftl 1 1.
Definition FLAG_CHAIN : Z := Z.shiftl 1 2.
Definition FLAG_ASYNC : Z := Z.shiftl 1 3.
Definition FLAG_RELU  : Z := Z.shiftl 1 4.
Definition FLAG_BIAS  : Z := Z.shiftl 1 5.
Definition FLAG_QUANT : Z := Z.shiftl 1 6.
Definition FLAG_ACCUM : Z := Z.shiftl 1 7.

Definition OPERAND_MASK : Z := 0xFFFFFFFFFFFF.

(** [#define MAKE_INST(op, fl, ops)
      ((uint64_t)(op) << 56 | (uint64_t)(fl) << 48
        | ((uint64_t)(ops) & 0xFFFFFFFFFFFFULL))] *)
Definition MAKE_INST (op fl ops : Z) : Z :=
  Z.lor (Z.lor (shl64 (u64 op) 56) (shl64 (u64 fl) 48))
        (Z.land (u64 ops) OPERAND_MASK).

Definition INST_NOP : Z := MAKE_INST OP_NOP 0 0.
Definition INST_HALT : Z := MAKE_INST OP_HALT FLAG_LAST 0.
Definition INST_SYNC : Z := MAKE_INST OP_SYNC 0 0.
Definition INST_WAIT_DMA : Z := MAKE_INST OP_WAIT_DMA 0 0.

(** Operand packing shared by the three DMA builders:
    [(uint64_t)(src) | ((uint64_t)(dst) << 24) | ((uint64_t)(len) << 40)]. *)
Definition dma_operands (src dst len : Z) : Z :=
  Z.lor (Z.lor (u64 src) (shl64 (u64 dst) 24)) (shl64 (u64 len) 40).

Definition INST_DMA_LOAD_W (src dst len : Z) : Z :=
  MAKE_INST OP_DMA_LOAD_W 0 (dma_operands src dst len).
Definition INST_DMA_LOAD_A (src dst len : Z) : Z :=
  MAKE_INST OP_DMA_LOAD_A 0 (dma_operands src dst len).
Definition INST_DMA_STORE (src dst len : Z) : Z :=
  MAKE_INST OP_DMA_STORE 0 (dma_operands src dst len).

Definition INST_CLEAR_ACC : Z := MAKE_INST OP_CLEAR_ACC 0 0.
Definition INST_LOAD_WEIGHT (addr count : Z) : Z :=
  MAKE_INST OP_LOAD_WEIGHT 0 (Z.lor (u64 addr) (shl64 (u64 count) 24)).
Definition INST_COMPUTE (flags : Z) : Z := MAKE_INST OP_COMPUTE flags 0.
Definition INST_DRAIN (addr : Z) : Z := MAKE_INST OP_DRAIN 0 (u64 addr).

(** Decoder helpers.  [npu_inst_t] is a union of the raw word with the
    bit-fields [operands:48], [flags:8], [opcode:8], allocated from the
    least significant bit upwards (the layout the header's format comment
    documents), so each accessor is a shift and a mask of the raw word. *)
Definition inst_get_opcode (inst : Z) : Z := Z.land (Z.shiftr inst 56) 0xFF.
Definition inst_get_flags (inst : Z) : Z := Z.land (Z.shiftr inst 48) 0xFF.
Definition inst_get_operands (inst : Z) : Z := Z.land inst OPERAND_MASK.

Definition inst_is_last (inst : Z) : bool :=
  negb (Z.land (inst_get_flags inst) FLAG_LAST =? 0).
Definition inst_needs_irq (inst : Z) : bool :=
  negb (Z.land (inst_get_flags inst) FLAG_IRQ =? 0).

End Inst.
Import Inst.

(** ** Memory-mapped device

    Stores to registers and to the device buffers are the observable
    effects of the code: they are recorded in program order (most recent
    first).  The value a register load returns is chosen by the
    hardware, modelled by an oracle indexed by the number of loads made
    so far.  The delay routines busy-wait; only the time they spend is
    kept. *)

Module Device.

Inductive dev_event : Type :=
| EvRegWrite (addr val : Z)
| EvStore64 (addr val : Z)
| EvStore8 (addr val : Z)
| EvMemcpy (dst : Z) (bytes : list Z).

Record device : Type := mkDevice {
  dev_log : list dev_event;
  dev_reads : nat;
  dev_clock_us : Z;
  dev_oracle : nat -> Z -> Z
}.

Definition dev_write32 (addr val : Z) (d : device) : device :=
  mkDevice (EvRegWrite addr (u32 val) :: dev_log d)
           (dev_reads d) (dev_clock_us d) (dev_oracle d).

Definition dev_read32 (addr : Z) (d : device) : Z * device :=
  (u32 (dev_oracle d (dev_reads d) addr),
   mkDevice (dev_log d) (S (dev_reads d)) (dev_clock_us d) (dev_oracle d)).

Definition dev_store64 (addr val : Z) (d : device) : device :=
  mkDevice (EvStore64 addr (u64 val) :: dev_log d)
           (dev_reads d) (dev_clock_us d) (dev_oracle d).

Definition dev_store8 (addr val : Z) (d : device) : device :=
  mkDevice (EvStore8 addr (u8 val) :: dev_log d)
           (dev_reads d) (dev_clock_us d) (dev_oracle d).

Definition dev_memcpy (dst : Z) (bytes : list Z) (d : device) : device :=
  mkDevice (EvMemcpy dst bytes :: dev_log d)
           (dev_reads d) (dev_clock_us d) (dev_oracle d).

Definition dev_delay_us (us : Z) (d : device) : device :=
  mkDevice (dev_log d) (dev_reads d) (dev_clock_us d + us) (dev_oracle d).

(** [REG32(addr) |= mask] and [REG32(addr) &= ~mask]: a load followed by
    a store. *)
Definition dev_set32 (addr mask : Z) (d : device) : device :=
  let '(v, d1) := dev_read32 addr d in
  dev_write32 addr (Z.lor v mask) d1.

Definition dev_clr32 (addr mask : Z) (d : device) : device :=
  let '(v, d1) := dev_read32 addr d in
  dev_write32 addr (Z.land v (Z.lnot mask)) d1.

(** Value a register holds after the logged stores, if any wrote it. *)
Fixpoint last_reg_write (addr : Z) (log : list dev_event) : option Z :=
  match log with
  | [] => None
  | EvRegWrite a v :: rest =>
      if a =? addr then Some v else last_reg_write addr rest
  | _ :: rest => last_reg_write addr rest
  end.

(** A host-side array handed to the device code through a pointer: the
    address it starts at and the element found at each index (the
    pointer carries no length).  [None] stands for [NULL]. *)
Record host_buf : Type := mkHostBuf { hb_addr : Z; hb_elem : Z -> Z }.

Definition buf_of_list (a : Z) (l : list Z) : host_buf :=
  mkHostBuf a (fun i => nth (Z.to_nat i) l 0).

(** Little-endian loads from a byte array. *)
Definition le16 (b : Z -> Z) (off : Z) : Z :=
  Z.lor (u8 (b off)) (Z.shiftl (u8 (b (off + 1))) 8).
Definition le32 (b : Z -> Z) (off : Z) : Z :=
  Z.lor (le16 b off) (Z.shiftl (le16 b (off + 2)) 16).
Definition le64 (b : Z -> Z) (off : Z) : Z :=
  Z.lor (le32 b off) (Z.shiftl (le32 b (off + 4)) 32).

Definition host_ptr : Type := option host_buf.

(** Little-endian bytes of a 16- and a 32-bit value. *)
Definition bytes16 (x : Z) : list Z := [u8 x; u8 (Z.shiftr x 8)].
Definition bytes32 (x : Z) : list Z :=
  bytes16 x ++ bytes16 (Z.shiftr x 16).
Definition bytes64 (x : Z) : list Z :=
  bytes32 x ++ bytes32 (Z.shiftr x 32).

(** The stores that copy [count] 64-bit words (resp. [size] bytes) of a
    host array to the device address [base], as the log shows them:
    most recent first. *)
Definition word_copy_events (base : Z) (elem : Z -> Z) (count : Z)
  : list dev_event :=
  rev (map (fun i => EvStore64 (base + 8 * Z.of_nat i) (u64 (elem (Z.of_nat i))))
           (seq 0 (Z.to_nat count))).
Definition byte_copy_events (base : Z) (elem : Z -> Z) (size : Z)
  : list dev_event :=
  rev (map (fun i => EvStore8 (base + Z.of_nat i) (u8 (elem (Z.of_nat i))))
           (seq 0 (Z.to_nat size))).

(** The device with further events in its log. *)
Definition dev_logged (evs : list dev_event) (d : device) : device :=
  mkDevice (evs ++ dev_log d) (dev_reads d) (dev_clock_us d) (dev_oracle d).

End Device.
Import Device.

(** ** npu_fw_regs.h *)

Module Regs.

Definition NPU_BASE            : Z := 0x40000000.
Definition NPU_INST_BUF_BASE   : Z := 0x40100000.
Definition NPU_WEIGHT_BUF_BASE : Z := 0x40200000.
Definition NPU_ACT_BUF_BASE    : Z := 0x40300000.

Definition REG_CTRL       : Z := NPU_BASE + 0x000.
Definition REG_STATUS     : Z := NPU_BASE + 0x004.
Definition REG_IRQ_EN     : Z := NPU_BASE + 0x008.
Definition REG_IRQ_STATUS : Z := NPU_BASE + 0x00C.
Definition REG_VERSION    : Z := NPU_BASE + 0x010.
Definition REG_CONFIG     : Z := NPU_BASE + 0x014.
Definition REG_ERROR_CODE : Z := NPU_BASE + 0x018.

Definition CTRL_ENABLE : Z := Z.shiftl 1 0.
Definition CTRL_START  : Z := Z.shiftl 1 1.
Definition CTRL_RESET  : Z := Z.shiftl 1 2.
Definition CTRL_ABORT  : Z := Z.shiftl 1 3.

Definition STATUS_BUSY  : Z := Z.shiftl 1 0.
Definition STATUS_DONE  : Z := Z.shiftl 1 1.
Definition STATUS_ERROR : Z := Z.shiftl 1 2.
Definition STATUS_IDLE  : Z := Z.shiftl 1 3.

Definition IRQ_DONE      : Z := Z.shiftl 1 0.
Definition IRQ_ERROR     : Z := Z.shiftl 1 1.
Definition IRQ_DMA_DONE  : Z := Z.shiftl 1 2.
Definition IRQ_DMA_ERROR : Z := Z.shiftl 1 3.

Definition REG_INST_BASE : Z := NPU_BASE + 0x100.
Definition REG_INST_SIZE : Z := NPU_BASE + 0x104.
Definition REG_INST_PTR  : Z := NPU_BASE + 0x108.

Definition REG_WEIGHT_BASE : Z := NPU_BASE + 0x200.
Definition REG_WEIGHT_SIZE : Z := NPU_BASE + 0x204.

Definition REG_ACT_IN_BASE  : Z := NPU_BASE + 0x300.
Definition REG_ACT_IN_SIZE  : Z := NPU_BASE + 0x304.
Definition REG_ACT_OUT_BASE : Z := NPU_BASE + 0x308.
Definition REG_ACT_OUT_SIZE : Z := NPU_BASE + 0x30C.

Definition REG_DMA_CTRL       : Z := NPU_BASE + 0x400.
Definition REG_DMA_STATUS     : Z := NPU_BASE + 0x404.
Definition REG_DMA_SRC        : Z := NPU_BASE + 0x408.
Definition REG_DMA_DST        : Z := NPU_BASE + 0x40C.
Definition REG_DMA_LEN        : Z := NPU_BASE + 0x410.
Definition REG_DMA_SRC_STRIDE : Z := NPU_BASE + 0x414.
Definition REG_DMA_DST_STRIDE : Z := NPU_BASE + 0x418.

Definition DMA_CTRL_START        : Z := Z.shiftl 1 0.
Definition DMA_CTRL_IRQ_EN       : Z := Z.shiftl 1 2.
Definition DMA_CTRL_2D_MODE      : Z := Z.shiftl 1 3.
Definition DMA_CTRL_CH_SEL_SHIFT : Z := 4.

Definition DMA_STATUS_BUSY  : Z := Z.shiftl 1 0.
Definition DMA_STATUS_DONE  : Z := Z.shiftl 1 1.
Definition DMA_STATUS_ERROR : Z := Z.shiftl 1 2.

Definition DMA_CH_WEIGHT  : Z := 0.
Definition DMA_CH_ACT_IN  : Z := 1.
Definition DMA_CH_ACT_OUT : Z := 2.

Definition REG_PERF_CTRL      : Z := NPU_BASE + 0x600.
Definition REG_PERF_CYCLES_LO : Z := NPU_BASE + 0x604.
Definition REG_PERF_CYCLES_HI : Z := NPU_BASE + 0x608.
Definition REG_PERF_INST_CNT  : Z := NPU_BASE + 0x60C.
Definition REG_PERF_MAC_LO    : Z := NPU_BASE + 0x610.
Definition REG_PERF_MAC_HI    : Z := NPU_BASE + 0x614.
Definition REG_PERF_STALL_CNT : Z := NPU_BASE + 0x618.

Definition PERF_CTRL_ENABLE : Z := Z.shiftl 1 0.
Definition PERF_CTRL_RESET  : Z := Z.shiftl 1 1.

Definition REG_LAYER_TYPE        : Z := NPU_BASE + 0x700.
Definition REG_LAYER_IN_CH       : Z := NPU_BASE + 0x704.
Definition REG_LAYER_OUT_CH      : Z := NPU_BASE + 0x708.
Definition REG_LAYER_IN_H        : Z := NPU_BASE + 0x70C.
Definition REG_LAYER_IN_W        : Z := NPU_BASE + 0x710.
Definition REG_LAYER_OUT_H       : Z := NPU_BASE + 0x714.
Definition REG_LAYER_OUT_W       : Z := NPU_BASE + 0x718.
Definition REG_LAYER_KERNEL      : Z := NPU_BASE + 0x71C.
Definition REG_LAYER_STRIDE      : Z := NPU_BASE + 0x720.
Definition REG_LAYER_PADDING     : Z := NPU_BASE + 0x724.
Definition REG_LAYER_ACT_TYPE    : Z := NPU_BASE + 0x728.
Definition REG_LAYER_POOL_TYPE   : Z := NPU_BASE + 0x72C.
Definition REG_LAYER_QUANT_SCALE : Z := NPU_BASE + 0x730.
Definition REG_LAYER_QUANT_ZERO  : Z := NPU_BASE + 0x734.

Definition POOL_TYPE_MAX        : Z := 1.
Definition POOL_TYPE_AVG        : Z := 2.
Definition POOL_TYPE_GLOBAL_AVG : Z := 3.

(** Hardware configuration (from RTL parameters). *)
Definition NPU_PE_ROWS          : Z := 16.
Definition NPU_PE_COLS          : Z := 16.
Definition NPU_INST_BUF_ENTRIES : Z := 1024.

(** Bits and registers used by the boot code only. *)
Definition DMA_CTRL_ABORT    : Z := Z.shiftl 1 1.
Definition REG_PE_CTRL       : Z := NPU_BASE + 0x500.
Definition PE_CTRL_CLEAR_ACC : Z := Z.shiftl 1 1.

End Regs.
Import Regs.

(** ** Firmware: npu_fw_types.h *)

Module Fw.

Inductive fw_status_t : Type :=
| FW_OK
| FW_ERROR
| FW_ERROR_INVALID_PARAM
| FW_ERROR_TIMEOUT
| FW_ERROR_BUSY
| FW_ERROR_HW_FAULT
| FW_ERROR_DMA
| FW_ERROR_OVERFLOW
| FW_ERROR_INVALID_OP
| FW_ERROR_NOT_READY.

Definition fw_status_eqb (a b : fw_status_t) : bool :=
  match a, b with
  | FW_OK, FW_OK | FW_ERROR, FW_ERROR
  | FW_ERROR_INVALID_PARAM, FW_ERROR_INVALID_PARAM
  | FW_ERROR_TIMEOUT, FW_ERROR_TIMEOUT | FW_ERROR_BUSY, FW_ERROR_BUSY
  | FW_ERROR_HW_FAULT, FW_ERROR_HW_FAULT | FW_ERROR_DMA, FW_ERROR_DMA
  | FW_ERROR_OVERFLOW, FW_ERROR_OVERFLOW
  | FW_ERROR_INVALID_OP, FW_ERROR_INVALID_OP
  | FW_ERROR_NOT_READY, FW_ERROR_NOT_READY => true
  | _, _ => false
  end.

Inductive npu_state_t : Type :=
| NPU_STATE_RESET
| NPU_STATE_INIT
| NPU_STATE_IDLE
| NPU_STATE_LOADING
| NPU_STATE_RUNNING
| NPU_STATE_DRAINING
| NPU_STATE_DONE
| NPU_STATE_ERROR.

Definition is_running (s : npu_state_t) : bool :=
  match s with NPU_STATE_RUNNING => true | _ => false end.

Inductive layer_type_t : Type :=
| LAYER_CONV2D
| LAYER_DWCONV2D
| LAYER_FC
| LAYER_MAXPOOL
| LAYER_AVGPOOL
| LAYER_GLOBAL_AVGPOOL
| LAYER_ADD
| LAYER_CONCAT
| LAYER_SOFTMAX
| LAYER_BATCHNORM
| LAYER_RESHAPE.

Definition layer_type_val (t : layer_type_t) : Z :=
  match t with
  | LAYER_CONV2D => 0 | LAYER_DWCONV2D => 1 | LAYER_FC => 2
  | LAYER_MAXPOOL => 3 | LAYER_AVGPOOL => 4 | LAYER_GLOBAL_AVGPOOL => 5
  | LAYER_ADD => 6 | LAYER_CONCAT => 7 | LAYER_SOFTMAX => 8
  | LAYER_BATCHNORM => 9 | LAYER_RESHAPE => 10
  end.

Inductive activation_type_t : Type :=
| ACT_NONE
| ACT_RELU
| ACT_RELU6
| ACT_SIGMOID
| ACT_TANH
| ACT_LEAKY_RELU
| ACT_SWISH
| ACT_GELU.

Definition activation_val (a : activation_type_t) : Z :=
  match a with
  | ACT_NONE => 0 | ACT_RELU => 1 | ACT_RELU6 => 2 | ACT_SIGMOID => 3
  | ACT_TANH => 4 | ACT_LEAKY_RELU => 5 | ACT_SWISH => 6 | ACT_GELU => 7
  end.

(** [tensor_desc_t]; the shape fields [n], [c], [h], [w] are named
    [dim_n] .. [dim_w] here. *)
Record tensor_desc_t : Type := mkTensor {
  addr : Z;          (* uint32_t *)
  dim_n : Z;         (* uint16_t *)
  dim_c : Z;         (* uint16_t *)
  dim_h : Z;         (* uint16_t *)
  dim_w : Z;         (* uint16_t *)
  dtype : Z;         (* uint8_t  *)
  layout : Z;        (* uint8_t  *)
  zero_point : Z;    (* int8_t   *)
  scale : Z          (* int32_t  *)
}.

Definition tensor_wf (t : tensor_desc_t) : Prop :=
  is_u32 (addr t) /\ is_u16 (dim_n t) /\ is_u16 (dim_c t) /\
  is_u16 (dim_h t) /\ is_u16 (dim_w t) /\ is_u8 (dtype t) /\
  is_u8 (layout t) /\ is_i8 (zero_point t) /\ is_i32 (scale t).

Record layer_desc_t : Type := mkLayer {
  type : layer_type_t;
  activation : activation_type_t;
  input : tensor_desc_t;
  output : tensor_desc_t;
  weight : tensor_desc_t;
  bias : tensor_desc_t;
  kernel_h : Z;      (* uint8_t, as are all fields below but the last four *)
  kernel_w : Z;
  stride_h : Z;
  stride_w : Z;
  pad_top : Z;
  pad_bottom : Z;
  pad_left : Z;
  pad_right : Z;
  dilation_h : Z;
  dilation_w : Z;
  groups : Z;
  pool_h : Z;
  pool_w : Z;
  pool_stride_h : Z;
  pool_stride_w : Z;
  output_scale : Z;        (* int32_t *)
  output_zero_point : Z;   (* int8_t  *)
  weight_zero_point : Z;   (* int8_t  *)
  shift_bits : Z;          (* uint8_t *)
  round_mode : Z           (* uint8_t *)
}.

Definition layer_wf (l : layer_desc_t) : Prop :=
  tensor_wf (input l) /\ tensor_wf (output l) /\
  tensor_wf (weight l) /\ tensor_wf (bias l) /\
  is_u8 (kernel_h l) /\ is_u8 (kernel_w l) /\
  is_u8 (stride_h l) /\ is_u8 (stride_w l) /\
  is_u8 (pad_top l) /\ is_u8 (pad_bottom l) /\
  is_u8 (pad_left l) /\ is_u8 (pad_right l) /\
  is_u8 (dilation_h l) /\ is_u8 (dilation_w l) /\ is_u8 (groups l) /\
  is_u8 (pool_h l) /\ is_u8 (pool_w l) /\
  is_u8 (pool_stride_h l) /\ is_u8 (pool_stride_w l) /\
  is_i32 (output_scale l) /\ is_i8 (output_zero_point l) /\
  is_i8 (weight_zero_point l) /\ is_u8 (shift_bits l) /\
  is_u8 (round_mode l).

Definition MODEL_MAGIC   : Z := 0x4E505545.
Definition MODEL_VERSION : Z := 0x0100.

Record model_header_t : Type := mkHeader {
  magic : Z;           (* uint32_t *)
  version : Z;         (* uint16_t *)
  num_layers : Z;      (* uint16_t *)
  weight_size : Z;     (* uint32_t *)
  hdr_inst_count : Z;  (* uint32_t inst_count *)
  input_size : Z;      (* uint32_t *)
  output_size : Z;     (* uint32_t *)
  workspace_size : Z;  (* uint32_t *)
  checksum : Z         (* uint32_t *)
}.

(** [sizeof(model_header_t)]: 4 + 2 + 2 + 6 * 4 bytes, no padding. *)
Definition sizeof_model_header_t : Z := 32.

(** [dma_desc_t]; its [length] field is named [xfer_length]. *)
Record dma_desc_t : Type := mkDma {
  src_addr : Z;
  dst_addr : Z;
  xfer_length : Z;
  src_stride : Z;
  dst_stride : Z;
  width : Z;
  height : Z;
  channel : Z;
  flags : Z
}.

Definition DMA_FLAG_2D    : Z := Z.shiftl 1 0.
Definition DMA_FLAG_IRQ   : Z := Z.shiftl 1 1.
Definition DMA_FLAG_CHAIN : Z := Z.shiftl 1 2.

(** C [float] is IEEE-754 binary32. *)
Definition float32 : Type := spec_float.
Definition f32_prec : Z := 24.
Definition f32_emax : Z := 128.
Definition f32_zero : float32 := S754_zero false.
Definition f32_of_Z (x : Z) : float32 := binary_normalize f32_prec f32_emax x 0 false.
Definition f32_div (a b : float32) : float32 := SFdiv f32_prec f32_emax a b.
Definition f32_mul (a b : float32) : float32 := SFmul f32_prec f32_emax a b.

Record perf_stats_t : Type := mkPerf {
  total_cycles : Z;       (* uint64_t *)
  compute_cycles : Z;     (* uint64_t *)
  dma_cycles : Z;         (* uint64_t *)
  stall_cycles : Z;       (* uint64_t *)
  mac_ops : Z;            (* uint64_t *)
  layers_executed : Z;    (* uint32_t *)
  dma_transfers : Z;      (* uint32_t *)
  pe_utilization : float32;
  memory_bandwidth : float32
}.

Definition perf_zero : perf_stats_t :=
  mkPerf 0 0 0 0 0 0 0 f32_zero f32_zero.

(** [fw_context_t]; a callback is kept as an opaque handle. *)
Record fw_context_t : Type := mkCtx {
  state : npu_state_t;
  last_error : fw_status_t;
  inst_ptr : Z;
  inst_count : Z;
  loop_count : Z;
  loop_start : Z;
  weight_ptr : Z;
  act_in_ptr : Z;
  act_out_ptr : Z;
  current_layer : Z;
  total_layers : Z;
  perf : perf_stats_t;
  done_callback : option nat;
  error_callback : option nat
}.

(** [memset(&g_ctx, 0, sizeof(fw_context_t))]. *)
Definition ctx_zero : fw_context_t :=
  mkCtx NPU_STATE_RESET FW_OK 0 0 0 0 0 0 0 0 0 perf_zero None None.

Definition TENSOR_SIZE (t : tensor_desc_t) : Z :=
  u32 (u32 (u32 (u32 (dim_n t) * dim_c t) * dim_h t) * dim_w t).

Definition TENSOR_BYTES (t : tensor_desc_t) : Z :=
  u32 (TENSOR_SIZE t * (if dtype t =? 0 then 1 else 2)).

(** ** Firmware: npu_runtime_fw.h, npu_runtime_fw.c *)

Record runtime_config_t : Type := mkConfig {
  inst_buf_addr : Z;
  inst_buf_size : Z;
  weight_buf_addr : Z;
  weight_buf_size : Z;
  act_buf_addr : Z;
  act_buf_size : Z;
  enable_irq : bool;
  enable_perf : bool
}.

(** The file-scope state [g_ctx], [g_config], [g_initialized] together
    with the device.  [fdiv_log] is ghost state: the integer operands
    (numerator, denominator) of every floating-point division evaluated
    so far, most recent first. *)
Record machine : Type := mkMachine {
  g_ctx : fw_context_t;
  g_config : runtime_config_t;
  g_initialized : bool;
  dev : device;
  fdiv_log : list (Z * Z)
}.

Definition with_ctx (f : fw_context_t -> fw_context_t) (m : machine) : machine :=
  mkMachine (f (g_ctx m)) (g_config m) (g_initialized m) (dev m) (fdiv_log m).
Definition with_dev (f : device -> device) (m : machine) : machine :=
  mkMachine (g_ctx m) (g_config m) (g_initialized m) (f (dev m)) (fdiv_log m).
Definition with_config (c : runtime_config_t) (m : machine) : machine :=
  mkMachine (g_ctx m) c (g_initialized m) (dev m) (fdiv_log m).
Definition with_initialized (b : bool) (m : machine) : machine :=
  mkMachine (g_ctx m) (g_config m) b (dev m) (fdiv_log m).
Definition log_fdiv (num den : Z) (m : machine) : machine :=
  mkMachine (g_ctx m) (g_config m) (g_initialized m) (dev m)
            ((num, den) :: fdiv_log m).

Definition set_state (v : npu_state_t) (c : fw_context_t) : fw_context_t :=
  mkCtx v (last_error c) (inst_ptr c) (inst_count c) (loop_count c)
        (loop_start c) (weight_ptr c) (act_in_ptr c) (act_out_ptr c)
        (current_layer c) (total_layers c) (perf c)
        (done_callback c) (error_callback c).
Definition set_last_error (v : fw_status_t) (c : fw_context_t) : fw_context_t :=
  mkCtx (state c) v (inst_ptr c) (inst_count c) (loop_count c)
        (loop_start c) (weight_ptr c) (act_in_ptr c) (act_out_ptr c)
        (current_layer c) (total_layers c) (perf c)
        (done_callback c) (error_callback c).
Definition set_inst_ptr (v : Z) (c : fw_context_t) : fw_context_t :=
  mkCtx (state c) (last_error c) v (inst_count c) (loop_count c)
        (loop_start c) (weight_ptr c) (act_in_ptr c) (act_out_ptr c)
        (current_layer c) (total_layers c) (perf c)
        (done_callback c) (error_callback c).
Definition set_inst_count (v : Z) (c : fw_context_t) : fw_context_t :=
  mkCtx (state c) (last_error c) (inst_ptr c) v (loop_count c)
        (loop_start c) (weight_ptr c) (act_in_ptr c) (act_out_ptr c)
        (current_layer c) (total_layers c) (perf c)
        (done_callback c) (error_callback c).
Definition set_current_layer (v : Z) (c : fw_context_t) : fw_context_t :=
  mkCtx (state c) (last_error c) (inst_ptr c) (inst_count c) (loop_count c)
        (loop_start c) (weight_ptr c) (act_in_ptr c) (act_out_ptr c)
        v (total_layers c) (perf c)
        (done_callback c) (error_callback c).
Definition set_total_layers (v : Z) (c : fw_context_t) : fw_context_t :=
  mkCtx (state c) (last_error c) (inst_ptr c) (inst_count c) (loop_count c)
        (loop_start c) (weight_ptr c) (act_in_ptr c) (act_out_ptr c)
        (current_layer c) v (perf c)
        (done_callback c) (error_callback c).
Definition set_perf (v : perf_stats_t) (c : fw_context_t) : fw_context_t :=
  mkCtx (state c) (last_error c) (inst_ptr c) (inst_count c) (loop_count c)
        (loop_start c) (weight_ptr c) (act_in_ptr c) (act_out_ptr c)
        (current_layer c) (total_layers c) v
        (done_callback c) (error_callback c).

(** Computations over the machine.  [None] means that the polling loops
    were still running when the fuel given to them ran out. *)
Definition M (A : Type) : Type := machine -> option (A * machine).

Definition ret {A : Type} (a : A) : M A := fun m => Some (a, m).
Definition bind {A B : Type} (x : M A) (f : A -> M B) : M B :=
  fun m => match x m with
           | None => None
           | Some (a, m') => f a m'
           end.
Definition modify (f : machine -> machine) : M unit :=
  fun m => Some (tt, f m).
Definition gets {A : Type} (f : machine -> A) : M A :=
  fun m => Some (f m, m).

Declare Scope fw_scope.
Delimit Scope fw_scope with fw.
Notation "x <- c1 ;; c2" := (bind c1 (fun x => c2))
  (at level 61, c1 at next level, right associativity) : fw_scope.
Notation "c1 ;;; c2" := (bind c1 (fun _ => c2))
  (at level 61, right associativity) : fw_scope.
Local Open Scope fw_scope.

Definition REG_READ (a : Z) : M Z :=
  fun m => let '(v, d) := dev_read32 a (dev m) in
           Some (v, with_dev (fun _ => d) m).
Definition REG_WRITE (a v : Z) : M unit := modify (with_dev (dev_write32 a v)).
Definition REG_SET (a mask : Z) : M unit := modify (with_dev (dev_set32 a mask)).
Definition REG_CLR (a mask : Z) : M unit := modify (with_dev (dev_clr32 a mask)).
Definition delay_us (us : Z) : M unit := modify (with_dev (dev_delay_us us)).

Definition poll_interval : Z := 10.

(** The [while (elapsed < timeout_us || timeout_us == 0)] loop of
    [wait_status], one iteration per unit of fuel. *)
Fixpoint wait_status_loop (fuel : nat) (mask expected timeout_us elapsed : Z)
  : M fw_status_t :=
  match fuel with
  | O => fun _ => None
  | S fuel' =>
      if (elapsed <? timeout_us) || (timeout_us =? 0) then
        status <- REG_READ REG_STATUS ;;
        if Z.land status mask =? expected then ret FW_OK
        else if negb (Z.land status STATUS_ERROR =? 0) then
          modify (with_ctx (set_last_error FW_ERROR_HW_FAULT)) ;;;
          modify (with_ctx (set_state NPU_STATE_ERROR)) ;;;
          ret FW_ERROR_HW_FAULT
        else
          delay_us poll_interval ;;;
          wait_status_loop fuel' mask expected timeout_us
                           (u32 (elapsed + poll_interval))
      else ret FW_ERROR_TIMEOUT
  end.

Definition wait_status (fuel : nat) (mask expected timeout_us : Z)
  : M fw_status_t :=
  wait_status_loop fuel mask expected timeout_us 0.

Definition set_pe_utilization (u : float32) (p : perf_stats_t) : perf_stats_t :=
  mkPerf (total_cycles p) (compute_cycles p) (dma_cycles p) (stall_cycles p)
         (mac_ops p) (layers_executed p) (dma_transfers p) u
         (memory_bandwidth p).
Definition set_compute_cycles (v : Z) (p : perf_stats_t) : perf_stats_t :=
  mkPerf (total_cycles p) v (dma_cycles p) (stall_cycles p)
         (mac_ops p) (layers_executed p) (dma_transfers p) (pe_utilization p)
         (memory_bandwidth p).
Definition set_counters (tot mac stall layers : Z) (p : perf_stats_t)
  : perf_stats_t :=
  mkPerf tot (compute_cycles p) (dma_cycles p) stall mac layers
         (dma_transfers p) (pe_utilization p) (memory_bandwidth p).
Definition set_dma_transfers (v : Z) (p : perf_stats_t) : perf_stats_t :=
  mkPerf (total_cycles p) (compute_cycles p) (dma_cycles p) (stall_cycles p)
         (mac_ops p) (layers_executed p) v (pe_utilization p)
         (memory_bandwidth p).

(** [(float)compute / (float)total * 100.0f]; the operands of the
    division are logged. *)
Definition utilization_pct (compute total : Z) : M float32 :=
  modify (log_fdiv compute total) ;;;
  ret (f32_mul (f32_div (f32_of_Z compute) (f32_of_Z total)) (f32_of_Z 100)).

(** The two halves of a 64-bit counter are read high half first. *)
Definition update_perf_stats : M unit :=
  chi <- REG_READ REG_PERF_CYCLES_HI ;;
  clo <- REG_READ REG_PERF_CYCLES_LO ;;
  mhi <- REG_READ REG_PERF_MAC_HI ;;
  mlo <- REG_READ REG_PERF_MAC_LO ;;
  stall <- REG_READ REG_PERF_STALL_CNT ;;
  layers <- REG_READ REG_PERF_INST_CNT ;;
  let total := Z.lor (shl64 chi 32) clo in
  let mac := Z.lor (shl64 mhi 32) mlo in
  modify (with_ctx (fun c => set_perf (set_counters total mac stall layers (perf c)) c)) ;;;
  if total >? 0 then
    let compute := u64 (total - stall) in
    modify (with_ctx (fun c => set_perf (set_compute_cycles compute (perf c)) c)) ;;;
    u <- utilization_pct compute total ;;
    modify (with_ctx (fun c => set_perf (set_pe_utilization u (perf c)) c))
  else ret tt.

Definition npu_rt_dma_is_busy : M bool :=
  st <- REG_READ REG_DMA_STATUS ;;
  ret (negb (Z.land st DMA_STATUS_BUSY =? 0)).

Fixpoint dma_wait_loop (fuel : nat) (timeout_us elapsed : Z) : M fw_status_t :=
  match fuel with
  | O => fun _ => None
  | S fuel' =>
      if (elapsed <? timeout_us) || (timeout_us =? 0) then
        status <- REG_READ REG_DMA_STATUS ;;
        if negb (Z.land status DMA_STATUS_DONE =? 0) then ret FW_OK
        else if negb (Z.land status DMA_STATUS_ERROR =? 0) then ret FW_ERROR_DMA
        else
          delay_us poll_interval ;;;
          dma_wait_loop fuel' timeout_us (u32 (elapsed + poll_interval))
      else ret FW_ERROR_TIMEOUT
  end.

Definition npu_rt_dma_wait (fuel : nat) (timeout_us : Z) : M fw_status_t :=
  dma_wait_loop fuel timeout_us 0.

Definition npu_rt_dma_start (fuel : nat) (desc : option dma_desc_t)
  : M fw_status_t :=
  match desc with
  | None => ret FW_ERROR_INVALID_PARAM
  | Some desc =>
      busy <- npu_rt_dma_is_busy ;;
      status <- (if busy then npu_rt_dma_wait fuel 100000 else ret FW_OK) ;;
      if negb (fw_status_eqb status FW_OK) then ret status
      else
        REG_WRITE REG_DMA_SRC (src_addr desc) ;;;
        REG_WRITE REG_DMA_DST (dst_addr desc) ;;;
        REG_WRITE REG_DMA_LEN (xfer_length desc) ;;;
        (if negb (Z.land (flags desc) DMA_FLAG_2D =? 0) then
           REG_WRITE REG_DMA_SRC_STRIDE (src_stride desc) ;;;
           REG_WRITE REG_DMA_DST_STRIDE (dst_stride desc)
         else ret tt) ;;;
        let ctrl0 := DMA_CTRL_START in
        let ctrl1 := Z.lor ctrl0 (shl32 (channel desc) DMA_CTRL_CH_SEL_SHIFT) in
        let ctrl2 := if negb (Z.land (flags desc) DMA_FLAG_2D =? 0)
                     then Z.lor ctrl1 DMA_CTRL_2D_MODE else ctrl1 in
        let ctrl3 := if negb (Z.land (flags desc) DMA_FLAG_IRQ =? 0)
                     then Z.lor ctrl2 DMA_CTRL_IRQ_EN else ctrl2 in
        REG_WRITE REG_DMA_CTRL ctrl3 ;;;
        modify (with_ctx (fun c =>
          set_perf (set_dma_transfers (u32 (dma_transfers (perf c) + 1)) (perf c)) c)) ;;;
        ret FW_OK
  end.

Definition npu_rt_init (config : option runtime_config_t) : M fw_status_t :=
  match config with
  | None => ret FW_ERROR_INVALID_PARAM
  | Some config =>
      modify (with_config config) ;;;
      modify (with_ctx (fun _ => ctx_zero)) ;;;
      modify (with_ctx (set_state NPU_STATE_INIT)) ;;;
      REG_WRITE REG_INST_BASE (inst_buf_addr config) ;;;
      REG_WRITE REG_WEIGHT_BASE (weight_buf_addr config) ;;;
      REG_WRITE REG_ACT_IN_BASE (act_buf_addr config) ;;;
      REG_WRITE REG_ACT_OUT_BASE (u32 (act_buf_addr config + act_buf_size config / 2)) ;;;
      (if enable_irq config
       then REG_WRITE REG_IRQ_EN (Z.lor (Z.lor IRQ_DONE IRQ_ERROR) IRQ_DMA_DONE)
       else REG_WRITE REG_IRQ_EN 0) ;;;
      (if enable_perf config
       then REG_WRITE REG_PERF_CTRL (Z.lor PERF_CTRL_ENABLE PERF_CTRL_RESET)
       else ret tt) ;;;
      modify (with_ctx (set_state NPU_STATE_IDLE)) ;;;
      modify (with_initialized true) ;;;
      ret FW_OK
  end.

Definition npu_rt_load_instructions (instructions : host_ptr) (count : Z)
  : M fw_status_t :=
  initialized <- gets g_initialized ;;
  if negb initialized then ret FW_ERROR_NOT_READY
  else match instructions with
  | None => ret FW_ERROR_INVALID_PARAM
  | Some instructions =>
      if count =? 0 then ret FW_ERROR_INVALID_PARAM
      else if count >? NPU_INST_BUF_ENTRIES then ret FW_ERROR_OVERFLOW
      else
        modify (for_loop count (fun i =>
          with_dev (dev_store64 (NPU_INST_BUF_BASE + 8 * i)
                                (hb_elem instructions i)))) ;;;
        REG_WRITE REG_INST_SIZE count ;;;
        REG_WRITE REG_INST_PTR 0 ;;;
        modify (with_ctx (set_inst_count count)) ;;;
        modify (with_ctx (set_inst_ptr 0)) ;;;
        ret FW_OK
  end.

Definition zero_dma_desc : dma_desc_t := mkDma 0 0 0 0 0 0 0 0 0.

Definition npu_rt_load_weights (fuel : nat) (weights : host_ptr)
  (size offset : Z) : M fw_status_t :=
  initialized <- gets g_initialized ;;
  if negb initialized then ret FW_ERROR_NOT_READY
  else match weights with
  | None => ret FW_ERROR_INVALID_PARAM
  | Some weights =>
      cfg <- gets g_config ;;
      if size =? 0 then ret FW_ERROR_INVALID_PARAM
      else if u32 (offset + size) >? weight_buf_size cfg then ret FW_ERROR_OVERFLOW
      else if size >? 1024 then
        let desc := mkDma (u32 (hb_addr weights))
                          (u32 (NPU_WEIGHT_BUF_BASE + offset))
                          size 0 0 0 0 DMA_CH_WEIGHT 0 in
        status <- npu_rt_dma_start fuel (Some desc) ;;
        if negb (fw_status_eqb status FW_OK) then ret status
        else npu_rt_dma_wait fuel 1000000
      else
        let dst := u32 (NPU_WEIGHT_BUF_BASE + offset) in
        modify (for_loop size (fun i =>
          with_dev (dev_store8 (dst + i) (hb_elem weights i)))) ;;;
        REG_WRITE REG_WEIGHT_SIZE size ;;;
        ret FW_OK
  end.

Definition npu_rt_load_input (fuel : nat) (input : host_ptr) (size : Z)
  : M fw_status_t :=
  initialized <- gets g_initialized ;;
  if negb initialized then ret FW_ERROR_NOT_READY
  else match input with
  | None => ret FW_ERROR_INVALID_PARAM
  | Some input =>
      cfg <- gets g_config ;;
      if size =? 0 then ret FW_ERROR_INVALID_PARAM
      else if size >? act_buf_size cfg / 2 then ret FW_ERROR_OVERFLOW
      else
        let desc := mkDma (u32 (hb_addr input)) NPU_ACT_BUF_BASE
                          size 0 0 0 0 DMA_CH_ACT_IN 0 in
        status <- npu_rt_dma_start fuel (Some desc) ;;
        if negb (fw_status_eqb status FW_OK) then ret status
        else
          status <- npu_rt_dma_wait fuel 1000000 ;;
          if negb (fw_status_eqb status FW_OK) then ret status
          else
            REG_WRITE REG_ACT_IN_SIZE size ;;;
            ret FW_OK
  end.

(** Header fields as laid out in memory (little-endian target). *)
Definition read_model_header (b : Z -> Z) : model_header_t :=
  mkHeader (le32 b 0) (le16 b 4) (le16 b 6) (le32 b 8) (le32 b 12)
           (le32 b 16) (le32 b 20) (le32 b 24) (le32 b 28).

Definition npu_rt_load_model (fuel : nat) (model_data : host_ptr)
  (model_size : Z) : M fw_status_t :=
  initialized <- gets g_initialized ;;
  if negb initialized then ret FW_ERROR_NOT_READY
  else match model_data with
  | None => ret FW_ERROR_INVALID_PARAM
  | Some model_data =>
      if model_size <? sizeof_model_header_t then ret FW_ERROR_INVALID_PARAM
      else
        let header := read_model_header (hb_elem model_data) in
        if negb (magic header =? MODEL_MAGIC) then ret FW_ERROR_INVALID_PARAM
        else if version header >? MODEL_VERSION then ret FW_ERROR_INVALID_PARAM
        else
          modify (with_ctx (set_total_layers (num_layers header))) ;;;
          modify (with_ctx (set_inst_count (hdr_inst_count header))) ;;;
          let data := sizeof_model_header_t in
          let insts := mkHostBuf (u32 (hb_addr model_data + data))
                         (fun i => le64 (hb_elem model_data) (data + 8 * i)) in
          status <- npu_rt_load_instructions (Some insts) (hdr_inst_count header) ;;
          if negb (fw_status_eqb status FW_OK) then ret status
          else
            let data := data + u32 (hdr_inst_count header * 8) in
            let wts := mkHostBuf (u32 (hb_addr model_data + data))
                         (fun i => hb_elem model_data (data + i)) in
            npu_rt_load_weights fuel (Some wts) (weight_size header) 0
  end.

Definition npu_rt_start : M fw_status_t :=
  initialized <- gets g_initialized ;;
  if negb initialized then ret FW_ERROR_NOT_READY
  else
    c <- gets g_ctx ;;
    if is_running (state c) then ret FW_ERROR_BUSY
    else
      REG_WRITE REG_INST_PTR 0 ;;;
      modify (with_ctx (set_inst_ptr 0)) ;;;
      modify (with_ctx (set_current_layer 0)) ;;;
      REG_WRITE REG_IRQ_STATUS 0xFFFFFFFF ;;;
      modify (with_ctx (set_state NPU_STATE_RUNNING)) ;;;
      REG_SET REG_CTRL CTRL_START ;;;
      ret FW_OK.

Definition npu_rt_stop (fuel : nat) : M fw_status_t :=
  initialized <- gets g_initialized ;;
  if negb initialized then ret FW_ERROR_NOT_READY
  else
    REG_SET REG_CTRL CTRL_ABORT ;;;
    status <- wait_status fuel STATUS_IDLE STATUS_IDLE 10000 ;;
    REG_CLR REG_CTRL CTRL_ABORT ;;;
    modify (with_ctx (set_state NPU_STATE_IDLE)) ;;;
    ret status.

Definition npu_rt_wait (fuel : nat) (timeout_us : Z) : M fw_status_t :=
  initialized <- gets g_initialized ;;
  if negb initialized then ret FW_ERROR_NOT_READY
  else
    status <- wait_status fuel (Z.lor STATUS_DONE STATUS_ERROR) STATUS_DONE
                          timeout_us ;;
    (if fw_status_eqb status FW_OK then
       modify (with_ctx (set_state NPU_STATE_DONE)) ;;;
       update_perf_stats
     else ret tt) ;;;
    ret status.

Definition npu_rt_get_state : M npu_state_t := gets (fun m => state (g_ctx m)).
Definition npu_rt_get_error : M fw_status_t := gets (fun m => last_error (g_ctx m)).

(** [npu_rt_get_perf]: the caller's [stats] pointer receives a copy of
    [g_ctx.perf]; [None] is the [NULL] pointer. *)
Definition npu_rt_get_perf (stats : option unit)
  : M (fw_status_t * option perf_stats_t) :=
  match stats with
  | None => ret (FW_ERROR_INVALID_PARAM, None)
  | Some _ =>
      update_perf_stats ;;;
      p <- gets (fun m => perf (g_ctx m)) ;;
      ret (FW_OK, Some p)
  end.

Definition npu_rt_reset_perf : M unit :=
  REG_WRITE REG_PERF_CTRL PERF_CTRL_RESET ;;;
  delay_us 10 ;;;
  REG_WRITE REG_PERF_CTRL PERF_CTRL_ENABLE ;;;
  modify (with_ctx (set_perf perf_zero)).

Definition npu_rt_deinit (fuel : nat) : M unit :=
  initialized <- gets g_initialized ;;
  if negb initialized then ret tt
  else
    npu_rt_stop fuel ;;;
    REG_WRITE REG_IRQ_EN 0 ;;;
    modify (with_ctx (fun _ => ctx_zero)) ;;;
    modify (with_initialized false).

Definition npu_rt_is_done : M bool :=
  initialized <- gets g_initialized ;;
  if negb initialized then ret false
  else
    st <- REG_READ REG_STATUS ;;
    ret (negb (Z.land st STATUS_DONE =? 0)).

(** [npu_rt_read_output]: the requested size is cut down to what
    [REG_ACT_OUT_SIZE] reports, then the output is moved by DMA from the
    address [REG_ACT_OUT_BASE] holds. *)
Definition npu_rt_read_output (fuel : nat) (output : host_ptr) (size : Z)
  : M fw_status_t :=
  initialized <- gets g_initialized ;;
  if negb initialized then ret FW_ERROR_NOT_READY
  else match output with
  | None => ret FW_ERROR_INVALID_PARAM
  | Some output =>
      if size =? 0 then ret FW_ERROR_INVALID_PARAM
      else
        out_size <- REG_READ REG_ACT_OUT_SIZE ;;
        let size := if size >? out_size then out_size else size in
        src <- REG_READ REG_ACT_OUT_BASE ;;
        let desc := mkDma src (u32 (hb_addr output)) size 0 0 0 0
                          DMA_CH_ACT_OUT 0 in
        status <- npu_rt_dma_start fuel (Some desc) ;;
        if negb (fw_status_eqb status FW_OK) then ret status
        else npu_rt_dma_wait fuel 1000000
  end.

(** ** Firmware: npu_layer_exec.c *)

Definition configure_layer_regs (layer : layer_desc_t) : M unit :=
  REG_WRITE REG_LAYER_TYPE (layer_type_val (type layer)) ;;;
  REG_WRITE REG_LAYER_IN_CH (dim_c (input layer)) ;;;
  REG_WRITE REG_LAYER_OUT_CH (dim_c (output layer)) ;;;
  REG_WRITE REG_LAYER_IN_H (dim_h (input layer)) ;;;
  REG_WRITE REG_LAYER_IN_W (dim_w (input layer)) ;;;
  REG_WRITE REG_LAYER_OUT_H (dim_h (output layer)) ;;;
  REG_WRITE REG_LAYER_OUT_W (dim_w (output layer)) ;;;
  REG_WRITE REG_LAYER_KERNEL (Z.lor (Z.shiftl (kernel_h layer) 8) (kernel_w layer)) ;;;
  REG_WRITE REG_LAYER_STRIDE (Z.lor (Z.shiftl (stride_h layer) 8) (stride_w layer)) ;;;
  REG_WRITE REG_LAYER_PADDING
    (Z.lor (Z.lor (Z.lor (Z.shiftl (pad_top layer) 24)
                         (Z.shiftl (pad_bottom layer) 16))
                  (Z.shiftl (pad_left layer) 8))
           (pad_right layer)) ;;;
  REG_WRITE REG_LAYER_ACT_TYPE (activation_val (activation layer)) ;;;
  REG_WRITE REG_LAYER_QUANT_SCALE (output_scale layer) ;;;
  REG_WRITE REG_LAYER_QUANT_ZERO (output_zero_point layer).

Definition get_activation_flags (act : activation_type_t) : Z :=
  match act with
  | ACT_RELU | ACT_RELU6 => FLAG_RELU
  | _ => 0
  end.

(** The local instruction buffer of a layer routine.  Every
    [inst_buf[inst_idx++] = v] is kept, in program order, as the pair of
    the index stored to and the value; the array itself has
    [CONV_INST_BUF_LEN] (resp. [POOL_INST_BUF_LEN]) entries, so a store
    is inside it exactly when its index is below that length.  A store
    outside the array is undefined behaviour in C: it is kept here so
    that it can be seen, and the list of stores is what the C array
    holds only as long as [stores_in_bounds] is true of it. *)
Record emit_state : Type := mkEmit {
  stores : list (Z * Z);
  inst_idx : Z
}.

Definition CONV_INST_BUF_LEN : Z := 256.
Definition POOL_INST_BUF_LEN : Z := 32.

Definition emit_init : emit_state := mkEmit [] 0.

Definition emit (v : Z) (s : emit_state) : emit_state :=
  mkEmit (stores s ++ [(inst_idx s, v)]) (u32 (inst_idx s + 1)).

(** The instructions stored, in order. *)
Definition emitted (s : emit_state) : list Z := map snd (stores s).

(** No store fell outside an array of [len] entries. *)
Definition stores_in_bounds (len : Z) (s : emit_state) : bool :=
  forallb (fun p => (0 <=? fst p) && (fst p <? len)) (stores s).

(** Storing a list of instructions one after the other. *)
Definition emit_all (l : list Z) (s : emit_state) : emit_state :=
  fold_left (fun acc v => emit v acc) l s.

(** Inner loop of [npu_rt_exec_conv], over the input-channel tiles. *)
Definition conv_ic_loop (layer : layer_desc_t) (ic_tiles oc_count : Z)
  (s : emit_state) : emit_state :=
  for_loop ic_tiles (fun ic_t s =>
    let s := emit (INST_LOAD_WEIGHT 0 oc_count) s in
    let flags := if ic_t =? u32 (ic_tiles - 1)
                 then get_activation_flags (activation layer) else 0 in
    emit (INST_COMPUTE flags) s) s.

(** Body of the outer loop, for output-channel tile [oc_t]. *)
Definition conv_oc_body (layer : layer_desc_t) (oc_tiles ic_tiles : Z)
  (oc_t : Z) (s : emit_state) : emit_state :=
  let in_ch := dim_c (input layer) in
  let out_ch := dim_c (output layer) in
  let out_h := dim_h (output layer) in
  let out_w := dim_w (output layer) in
  let k_h := kernel_h layer in
  let k_w := kernel_w layer in
  let tile_oc := NPU_PE_COLS in
  let oc_start := u32 (oc_t * tile_oc) in
  let oc_end := if u32 (oc_start + tile_oc) >? out_ch
                then out_ch else u32 (oc_start + tile_oc) in
  let oc_count := u32 (oc_end - oc_start) in
  let weight_offset := u32 (oc_start * in_ch * k_h * k_w) in
  let weight_size := u32 (oc_count * in_ch * k_h * k_w) in
  let s := emit (INST_DMA_LOAD_W (u32 (addr (weight layer) + weight_offset))
                                 0 weight_size) s in
  let s := emit INST_WAIT_DMA s in
  let s := conv_ic_loop layer ic_tiles oc_count s in
  let out_offset := u32 (oc_start * out_h * out_w) in
  let s := emit (INST_DRAIN (u32 (addr (output layer) + out_offset))) s in
  if oc_t <? u32 (oc_tiles - 1) then emit INST_CLEAR_ACC s else s.

Definition conv_oc_tiles (layer : layer_desc_t) : Z :=
  u32 (u32 (dim_c (output layer) + NPU_PE_COLS - 1) / NPU_PE_COLS).
Definition conv_ic_tiles (layer : layer_desc_t) : Z :=
  u32 (u32 (dim_c (input layer) + NPU_PE_ROWS - 1) / NPU_PE_ROWS).

(** "Build instruction sequence" part of [npu_rt_exec_conv]. *)
Definition conv_build (layer : layer_desc_t) : emit_state :=
  let s := emit INST_CLEAR_ACC emit_init in
  let oc_tiles := conv_oc_tiles layer in
  let ic_tiles := conv_ic_tiles layer in
  let s := for_loop oc_tiles (conv_oc_body layer oc_tiles ic_tiles) s in
  emit INST_HALT s.

(** A convolution descriptor with the given channel counts, shape and
    activation, used to run the lowering on concrete inputs: 3x3 kernel,
    stride 1, padding 1, int8 NCHW tensors. *)
Definition conv_layer (ty : layer_type_t) (act : activation_type_t)
  (in_ch in_h in_w out_ch out_h out_w : Z) : layer_desc_t :=
  mkLayer ty act
    (mkTensor 0x0000 1 in_ch in_h in_w 0 0 0 1)
    (mkTensor 0x8000 1 out_ch out_h out_w 0 0 0 1)
    (mkTensor 0x1000 out_ch in_ch 3 3 0 0 0 1)
    (mkTensor 0x7000 1 out_ch 1 1 0 0 0 1)
    3 3 1 1 1 1 1 1 1 1 1
    0 0 0 0
    1 0 0 0 0.

(** *** The sequence as the specification describes it

    One block per output-channel tile: weight DMA load, DMA wait, one
    load-weight/compute pair per input-channel tile with the activation
    flags [fl] on the last pair only, drain, and a clear-accumulator
    unless the tile is the last one. *)
Definition tile_oc_count (layer : layer_desc_t) (oc_t : Z) : Z :=
  let out_ch := dim_c (output layer) in
  let oc_start := u32 (oc_t * NPU_PE_COLS) in
  let oc_end := if u32 (oc_start + NPU_PE_COLS) >? out_ch
                then out_ch else u32 (oc_start + NPU_PE_COLS) in
  u32 (oc_end - oc_start).

Definition tile_pairs (fl : Z) (ic_tiles : nat) (oc_count : Z) : list Z :=
  flat_map (fun ic_t =>
    [ INST_LOAD_WEIGHT 0 oc_count;
      INST_COMPUTE (if Nat.eqb (S ic_t) ic_tiles then fl else 0) ])
    (seq 0 ic_tiles).

Definition tile_block (layer : layer_desc_t) (fl : Z) (oc_tiles ic_tiles : nat)
  (oc_t : nat) : list Z :=
  let oc_start := u32 (Z.of_nat oc_t * NPU_PE_COLS) in
  let oc_count := tile_oc_count layer (Z.of_nat oc_t) in
  let kk_in := fun x => x * dim_c (input layer) * kernel_h layer * kernel_w layer in
  [ INST_DMA_LOAD_W (u32 (addr (weight layer) + u32 (kk_in oc_start))) 0
                    (u32 (kk_in oc_count));
    INST_WAIT_DMA ]
  ++ tile_pairs fl ic_tiles oc_count
  ++ [ INST_DRAIN (u32 (addr (output layer)
                        + u32 (oc_start * dim_h (output layer)
                                        * dim_w (output layer)))) ]
  ++ (if Nat.ltb (S oc_t) oc_tiles then [INST_CLEAR_ACC] else []).

Definition conv_sequence_spec (layer : layer_desc_t) (fl : Z)
  (oc_tiles ic_tiles : nat) : list Z :=
  [INST_CLEAR_ACC]
  ++ flat_map (tile_block layer fl oc_tiles ic_tiles) (seq 0 oc_tiles)
  ++ [INST_HALT].

(** Number of instructions the convolution lowering stores. *)
Definition conv_inst_count (layer : layer_desc_t) : Z :=
  let n := conv_oc_tiles layer in
  let k := conv_ic_tiles layer in
  2 + n * (3 + 2 * k) + Z.max 0 (n - 1).



Definition conv_32x32_relu : layer_desc_t :=
  conv_layer LAYER_CONV2D ACT_RELU 32 8 8 32 8 8.

(** "Load and execute instructions": the tail shared by every layer
    routine.  The array handed over is the local buffer, read as the
    stores left it; this is the C array as long as every store was
    inside it ([stores_in_bounds]). *)
Definition load_and_execute (fuel : nat) (s : emit_state) : M fw_status_t :=
  status <- npu_rt_load_instructions (Some (buf_of_list 0 (emitted s)))
                                     (inst_idx s) ;;
  if negb (fw_status_eqb status FW_OK) then ret status
  else
    status <- npu_rt_start ;;
    if negb (fw_status_eqb status FW_OK) then ret status
    else npu_rt_wait fuel 0.

Definition npu_rt_exec_conv (fuel : nat) (layer : option layer_desc_t)
  : M fw_status_t :=
  match layer with
  | None => ret FW_ERROR_INVALID_PARAM
  | Some layer =>
      configure_layer_regs layer ;;;
      load_and_execute fuel (conv_build layer)
  end.

Definition set_input (t : tensor_desc_t) (l : layer_desc_t) : layer_desc_t :=
  mkLayer (type l) (activation l) t (output l) (weight l) (bias l)
    (kernel_h l) (kernel_w l) (stride_h l) (stride_w l)
    (pad_top l) (pad_bottom l) (pad_left l) (pad_right l)
    (dilation_h l) (dilation_w l) (groups l)
    (pool_h l) (pool_w l) (pool_stride_h l) (pool_stride_w l)
    (output_scale l) (output_zero_point l) (weight_zero_point l)
    (shift_bits l) (round_mode l).
Definition set_output (t : tensor_desc_t) (l : layer_desc_t) : layer_desc_t :=
  mkLayer (type l) (activation l) (input l) t (weight l) (bias l)
    (kernel_h l) (kernel_w l) (stride_h l) (stride_w l)
    (pad_top l) (pad_bottom l) (pad_left l) (pad_right l)
    (dilation_h l) (dilation_w l) (groups l)
    (pool_h l) (pool_w l) (pool_stride_h l) (pool_stride_w l)
    (output_scale l) (output_zero_point l) (weight_zero_point l)
    (shift_bits l) (round_mode l).
(** Assignment of [type], the kernel, the strides and the paddings. *)
Definition set_conv_params (t : layer_type_t) (kh kw sh sw pt pb pl pr : Z)
  (l : layer_desc_t) : layer_desc_t :=
  mkLayer t (activation l) (input l) (output l) (weight l) (bias l)
    kh kw sh sw pt pb pl pr
    (dilation_h l) (dilation_w l) (groups l)
    (pool_h l) (pool_w l) (pool_stride_h l) (pool_stride_w l)
    (output_scale l) (output_zero_point l) (weight_zero_point l)
    (shift_bits l) (round_mode l).
Definition set_chw (c h w : Z) (t : tensor_desc_t) : tensor_desc_t :=
  mkTensor (addr t) (dim_n t) c h w (dtype t) (layout t) (zero_point t) (scale t).
Definition set_hw (h w : Z) (t : tensor_desc_t) : tensor_desc_t :=
  mkTensor (addr t) (dim_n t) (dim_c t) h w (dtype t) (layout t)
           (zero_point t) (scale t).

(** The local [fc_as_conv] of [npu_rt_exec_fc] once all its fields are
    assigned.  [input.c] is a [uint16_t]: the product is truncated to
    16 bits by the assignment. *)
Definition fc_as_conv (layer : layer_desc_t) : layer_desc_t :=
  let l := set_conv_params LAYER_CONV2D 1 1 1 1 0 0 0 0 layer in
  let c' := u16 (dim_c (input layer) * dim_h (input layer) * dim_w (input layer)) in
  let l := set_input (set_chw c' 1 1 (input l)) l in
  set_output (set_hw 1 1 (output l)) l.

Definition npu_rt_exec_fc (fuel : nat) (layer : option layer_desc_t)
  : M fw_status_t :=
  match layer with
  | None => ret FW_ERROR_INVALID_PARAM
  | Some layer => npu_rt_exec_conv fuel (Some (fc_as_conv layer))
  end.

(** The reshaping as the specification words it: a 1x1, stride-1,
    unpadded convolution whose input channel count is the flattened
    channel x height x width of the original input and whose input and
    output are 1x1 in space.  Every other field is kept. *)
Definition fc_as_conv_spec (layer : layer_desc_t) : layer_desc_t :=
  mkLayer LAYER_CONV2D (activation layer)
    (mkTensor (addr (input layer)) (dim_n (input layer))
       (dim_c (input layer) * dim_h (input layer) * dim_w (input layer)) 1 1
       (dtype (input layer)) (layout (input layer))
       (zero_point (input layer)) (scale (input layer)))
    (mkTensor (addr (output layer)) (dim_n (output layer))
       (dim_c (output layer)) 1 1
       (dtype (output layer)) (layout (output layer))
       (zero_point (output layer)) (scale (output layer)))
    (weight layer) (bias layer)
    1 1 1 1 0 0 0 0
    (dilation_h layer) (dilation_w layer) (groups layer)
    (pool_h layer) (pool_w layer) (pool_stride_h layer) (pool_stride_w layer)
    (output_scale layer) (output_zero_point layer) (weight_zero_point layer)
    (shift_bits layer) (round_mode layer).

Definition pool_build (layer : layer_desc_t) : emit_state :=
  let s := emit_init in
  let in_size := TENSOR_BYTES (input layer) in
  let s := emit (INST_DMA_LOAD_A (addr (input layer)) 0 in_size) s in
  let s := emit INST_WAIT_DMA s in
  let pool_op := match type layer with
                 | LAYER_GLOBAL_AVGPOOL => OP_GLOBAL_AVGPOOL
                 | LAYER_MAXPOOL => OP_MAXPOOL
                 | _ => OP_AVGPOOL
                 end in
  let s := emit (MAKE_INST pool_op 0
             (Z.lor (Z.lor (Z.lor (u64 (pool_h layer))
                                  (shl64 (u64 (pool_w layer)) 8))
                           (shl64 (u64 (pool_stride_h layer)) 16))
                    (shl64 (u64 (pool_stride_w layer)) 24))) s in
  let out_size := TENSOR_BYTES (output layer) in
  let s := emit (INST_DMA_STORE 0 (addr (output layer)) out_size) s in
  let s := emit INST_WAIT_DMA s in
  emit INST_HALT s.

Definition npu_rt_exec_pool (fuel : nat) (layer : option layer_desc_t)
  : M fw_status_t :=
  match layer with
  | None => ret FW_ERROR_INVALID_PARAM
  | Some layer =>
      configure_layer_regs layer ;;;
      REG_WRITE REG_LAYER_POOL_TYPE
        (match type layer with
         | LAYER_MAXPOOL => POOL_TYPE_MAX
         | LAYER_GLOBAL_AVGPOOL => POOL_TYPE_GLOBAL_AVG
         | _ => POOL_TYPE_AVG
         end) ;;;
      load_and_execute fuel (pool_build layer)
  end.

Definition ELTWISE_INST_BUF_LEN : Z := 32.

Definition eltwise_build (layer : layer_desc_t) (input2 : tensor_desc_t)
  : emit_state :=
  let s := emit_init in
  let in_size := TENSOR_BYTES (input layer) in
  let s := emit (INST_DMA_LOAD_A (addr (input layer)) 0 in_size) s in
  let s := emit INST_WAIT_DMA s in
  let s := emit (INST_DMA_LOAD_A (addr input2) in_size in_size) s in
  let s := emit INST_WAIT_DMA s in
  let s := emit (MAKE_INST OP_ADD (get_activation_flags (activation layer)) 0) s in
  let out_size := TENSOR_BYTES (output layer) in
  let s := emit (INST_DMA_STORE 0 (addr (output layer)) out_size) s in
  let s := emit INST_WAIT_DMA s in
  emit INST_HALT s.

Definition npu_rt_exec_eltwise (fuel : nat) (layer : option layer_desc_t)
  (input2 : option tensor_desc_t) : M fw_status_t :=
  match layer, input2 with
  | Some layer, Some input2 =>
      configure_layer_regs layer ;;;
      load_and_execute fuel (eltwise_build layer input2)
  | _, _ => ret FW_ERROR_INVALID_PARAM
  end.

Definition npu_rt_exec_layer (fuel : nat) (layer : option layer_desc_t)
  : M fw_status_t :=
  match layer with
  | None => ret FW_ERROR_INVALID_PARAM
  | Some l =>
      match type l with
      | LAYER_CONV2D | LAYER_DWCONV2D => npu_rt_exec_conv fuel layer
      | LAYER_FC => npu_rt_exec_fc fuel layer
      | LAYER_MAXPOOL | LAYER_AVGPOOL | LAYER_GLOBAL_AVGPOOL =>
          npu_rt_exec_pool fuel layer
      | _ => ret FW_ERROR_INVALID_OP
      end
  end.

(** *** Observing the polling loops *)

(** Status word the [k]-th next load of [REG_STATUS] returns. *)
Definition status_at (m : machine) (k : nat) : Z :=
  u32 (dev_oracle (dev m) (dev_reads (dev m) + k)%nat REG_STATUS).

(** The machine after [k] polls that each loaded the status register
    once and then waited [poll_interval] microseconds. *)
Definition advance (k : nat) (m : machine) : machine :=
  with_dev (fun d => mkDevice (dev_log d) (dev_reads d + k)%nat
                       (dev_clock_us d + poll_interval * Z.of_nat k)
                       (dev_oracle d)) m.

(** The two exits of the loop in [npu_rt_wait]: done set with error
    clear, and error set. *)
Definition shows_done (st : Z) : bool :=
  Z.land st (Z.lor STATUS_DONE STATUS_ERROR) =? STATUS_DONE.
Definition shows_error (st : Z) : bool :=
  negb (Z.land st STATUS_ERROR =? 0).

(** A poll of [wait_status] that neither matches the expected status nor
    shows an error. *)
Definition poll_pending (mask expected st : Z) : Prop :=
  (Z.land st mask =? expected) = false /\ (Z.land st STATUS_ERROR =? 0) = true.

(** The machine right after one more load of the status register. *)
Definition after_poll (m : machine) : machine :=
  with_dev (fun d => mkDevice (dev_log d) (S (dev_reads d))
                       (dev_clock_us d) (dev_oracle d)) m.

(** The first [k] polls of [npu_rt_wait] show neither done nor error. *)
Definition first_polls_pending (m : machine) (k : nat) : Prop :=
  forall j, (j < k)%nat ->
    shows_done (status_at m j) = false /\ shows_error (status_at m j) = false.

(** Number of polls after which a non-zero timeout expires:
    [timeout_us / 10] rounded up. *)
Definition polls_until_timeout (timeout_us : Z) : Z :=
  (timeout_us + poll_interval - 1) / poll_interval.

(** *** Observing a statistics read

    Values the next loads of the cycle and stall counters return: the
    loads [update_perf_stats] makes first, second and fifth. *)
Definition cycles_read (m : machine) : Z :=
  Z.lor (shl64 (u32 (dev_oracle (dev m) (dev_reads (dev m))
                       REG_PERF_CYCLES_HI)) 32)
        (u32 (dev_oracle (dev m) (S (dev_reads (dev m))) REG_PERF_CYCLES_LO)).
Definition stall_read (m : machine) : Z :=
  u32 (dev_oracle (dev m) (S (S (S (S (dev_reads (dev m)))))) REG_PERF_STALL_CNT).

(** *** Concrete inputs used to run the firmware *)

(** A firmware model image: header with the given magic and version,
    one layer, one [HALT] instruction, four weight bytes. *)
Definition model_image (mg ver : Z) : host_buf :=
  buf_of_list 0x20000000
    (bytes32 mg ++ bytes16 ver ++ bytes16 1 ++ bytes32 4 ++ bytes32 1
     ++ bytes32 16 ++ bytes32 16 ++ bytes32 0 ++ bytes32 0
     ++ bytes64 INST_HALT ++ [1; 2; 3; 4]).

Definition model_image_size : Z := 44.



Definition conv_256x256 : layer_desc_t :=
  conv_layer LAYER_CONV2D ACT_NONE 256 14 14 256 14 14.


(** A fully-connected layer over a 512 x 16 x 16 input, 10 outputs. *)
Definition fc_512x16x16 : layer_desc_t :=
  conv_layer LAYER_FC ACT_NONE 512 16 16 10 1 1.

(** A fully-connected layer over a 64 x 4 x 4 input, 10 outputs. *)
Definition fc_64x4x4 : layer_desc_t :=
  conv_layer LAYER_FC ACT_RELU 64 4 4 10 1 1.

Definition default_config : runtime_config_t :=
  mkConfig NPU_INST_BUF_BASE 8192 NPU_WEIGHT_BUF_BASE 262144
           NPU_ACT_BUF_BASE 262144 false false.

(** A device on which every load of a register returns [v]. *)
Definition const_device (v : Z) : device := mkDevice [] 0 0 (fun _ _ => v).

(** The machine before [npu_rt_init]: zeroed globals. *)
Definition blank_machine (d : device) : machine :=
  mkMachine ctx_zero (mkConfig 0 0 0 0 0 0 false false) false d [].

(** The machine a call leaves behind (the machine itself if the call is
    still polling when its fuel runs out). *)
Definition after {A : Type} (x : M A) (m : machine) : machine :=
  match x m with
  | Some (_, m') => m'
  | None => m
  end.

(** The runtime after [npu_rt_init(&default_config)], and after a
    following [npu_rt_start()], on a device whose register loads always
    return [v]. *)
Definition initialized_machine (v : Z) : machine :=
  after (npu_rt_init (Some default_config)) (blank_machine (const_device v)).
Definition running_machine (v : Z) : machine :=
  after npu_rt_start (initialized_machine v).

(** The initialized runtime on a device whose cycle counter reads 100
    and whose stall counter reads 50 during the first statistics read
    (the first six register loads), and whose counters all read 0 from
    then on, as after a counter reset. *)
Definition machine_counters_then_reset : machine :=
  after (npu_rt_init (Some default_config))
    (blank_machine
       (mkDevice [] 0 0
          (fun n a =>
             if (n <? 6)%nat then
               if a =? REG_PERF_CYCLES_LO then 100
               else if a =? REG_PERF_STALL_CNT then 50 else 0
             else 0))).

End Fw.

(** ** Firmware boot: npu_boot.c

    The boot code only talks to the device.  Its delay routine spins
    for a number of cycles, counted in [nops]; its polling loop is
    bounded by a poll count, so every routine here returns. *)

Module Boot.

Import Fw (fw_status_t(..), fw_status_eqb).

Definition BOOT_TIMEOUT_CYCLES : Z := 100000.
Definition RESET_DELAY_CYCLES  : Z := 1000.

Record boot_state : Type := mkBoot {
  bdev : device;
  nops : Z
}.

Definition B (A : Type) : Type := boot_state -> A * boot_state.

Definition ret {A : Type} (a : A) : B A := fun s => (a, s).
Definition bind {A C : Type} (x : B A) (f : A -> B C) : B C :=
  fun s => let '(a, s') := x s in f a s'.

Declare Scope boot_scope.
Delimit Scope boot_scope with boot.
Notation "x <- c1 ;; c2" := (bind c1 (fun x => c2))
  (at level 61, c1 at next level, right associativity) : boot_scope.
Notation "c1 ;;; c2" := (bind c1 (fun _ => c2))
  (at level 61, right associativity) : boot_scope.
Local Open Scope boot_scope.

Definition REG_READ (a : Z) : B Z :=
  fun s => let '(v, d) := dev_read32 a (bdev s) in (v, mkBoot d (nops s)).
Definition REG_WRITE (a v : Z) : B unit :=
  fun s => (tt, mkBoot (dev_write32 a v (bdev s)) (nops s)).
Definition REG_SET (a mask : Z) : B unit :=
  fun s => (tt, mkBoot (dev_set32 a mask (bdev s)) (nops s)).
Definition REG_CLR (a mask : Z) : B unit :=
  fun s => (tt, mkBoot (dev_clr32 a mask (bdev s)) (nops s)).

Definition delay_cycles (cycles : Z) : B unit :=
  fun s => (tt, mkBoot (bdev s) (nops s + cycles)).

(** The loop [while (count < timeout) { ...; count++; }] of
    [wait_for_idle], by the number of polls it has left. *)
Fixpoint wait_for_idle_loop (remaining : nat) : B fw_status_t :=
  match remaining with
  | O => ret FW_ERROR_TIMEOUT
  | S remaining' =>
      status <- REG_READ REG_STATUS ;;
      if negb (Z.land status STATUS_IDLE =? 0) then ret FW_OK
      else if negb (Z.land status STATUS_ERROR =? 0) then ret FW_ERROR_HW_FAULT
      else wait_for_idle_loop remaining'
  end.

Definition wait_for_idle (timeout : Z) : B fw_status_t :=
  wait_for_idle_loop (Z.to_nat timeout).

Definition verify_hardware : B fw_status_t :=
  version <- REG_READ REG_VERSION ;;
  config <- REG_READ REG_CONFIG ;;
  if (version =? 0) || (version =? 0xFFFFFFFF) then ret FW_ERROR_HW_FAULT
  else
    let pe_rows := u16 (Z.land (Z.shiftr config 16) 0xFFFF) in
    let pe_cols := u16 (Z.land config 0xFFFF) in
    if (pe_rows =? 0) || (pe_cols =? 0) then ret FW_ERROR_HW_FAULT
    else if (pe_rows >? 64) || (pe_cols >? 64) then ret FW_ERROR_HW_FAULT
    else ret FW_OK.

Definition clear_buffers : B unit :=
  REG_WRITE REG_INST_BASE 0 ;;;
  REG_WRITE REG_INST_SIZE 0 ;;;
  REG_WRITE REG_INST_PTR 0 ;;;
  REG_WRITE REG_WEIGHT_BASE 0 ;;;
  REG_WRITE REG_WEIGHT_SIZE 0 ;;;
  REG_WRITE REG_ACT_IN_BASE 0 ;;;
  REG_WRITE REG_ACT_IN_SIZE 0 ;;;
  REG_WRITE REG_ACT_OUT_BASE 0 ;;;
  REG_WRITE REG_ACT_OUT_SIZE 0.

Definition init_dma : B unit :=
  REG_WRITE REG_DMA_CTRL DMA_CTRL_ABORT ;;;
  delay_cycles 100 ;;;
  REG_WRITE REG_DMA_CTRL 0 ;;;
  REG_WRITE REG_DMA_SRC 0 ;;;
  REG_WRITE REG_DMA_DST 0 ;;;
  REG_WRITE REG_DMA_LEN 0 ;;;
  REG_WRITE REG_DMA_SRC_STRIDE 0 ;;;
  REG_WRITE REG_DMA_DST_STRIDE 0.

Definition init_pe_array : B unit :=
  REG_WRITE REG_PE_CTRL 0 ;;;
  REG_SET REG_PE_CTRL PE_CTRL_CLEAR_ACC ;;;
  delay_cycles 100 ;;;
  REG_CLR REG_PE_CTRL PE_CTRL_CLEAR_ACC.

Definition init_perf_counters : B unit :=
  REG_WRITE REG_PERF_CTRL PERF_CTRL_RESET ;;;
  delay_cycles 10 ;;;
  REG_WRITE REG_PERF_CTRL PERF_CTRL_ENABLE.

Definition clear_interrupts : B unit :=
  REG_WRITE REG_IRQ_EN 0 ;;;
  REG_WRITE REG_IRQ_STATUS 0xFFFFFFFF.

Definition npu_hw_reset : B fw_status_t :=
  REG_SET REG_CTRL CTRL_RESET ;;;
  delay_cycles RESET_DELAY_CYCLES ;;;
  REG_CLR REG_CTRL CTRL_RESET ;;;
  delay_cycles RESET_DELAY_CYCLES ;;;
  wait_for_idle BOOT_TIMEOUT_CYCLES.

Definition npu_boot_init : B fw_status_t :=
  status <- npu_hw_reset ;;
  if negb (fw_status_eqb status FW_OK) then ret status
  else
    status <- verify_hardware ;;
    if negb (fw_status_eqb status FW_OK) then ret status
    else
      clear_interrupts ;;;
      init_dma ;;;
      init_pe_array ;;;
      clear_buffers ;;;
      init_perf_counters ;;;
      REG_SET REG_CTRL CTRL_ENABLE ;;;
      ret FW_OK.

(** *** Observing the boot polling loop *)

(** Status word the [k]-th next load of [REG_STATUS] returns. *)
Definition status_at (s : boot_state) (k : nat) : Z :=
  u32 (dev_oracle (bdev s) (dev_reads (bdev s) + k)%nat REG_STATUS).

Definition shows_idle (st : Z) : bool := negb (Z.land st STATUS_IDLE =? 0).
Definition shows_error (st : Z) : bool := negb (Z.land st STATUS_ERROR =? 0).

(** The state after [k] more register loads. *)
Definition after_loads (k : nat) (s : boot_state) : boot_state :=
  mkBoot (mkDevice (dev_log (bdev s)) (dev_reads (bdev s) + k)%nat
                   (dev_clock_us (bdev s)) (dev_oracle (bdev s)))
         (nops s).

(** A freshly powered device whose registers read as given. *)
Definition power_on (oracle : nat -> Z -> Z) : boot_state :=
  mkBoot (mkDevice [] 0 0 oracle) 0.

End Boot.

(** ** Host driver: npu_driver.h, npu_driver.c *)

Module Drv.

Import Fw (float32, f32_zero, f32_of_Z, f32_div, f32_mul).

Definition NPU_REG_CTRL        : Z := 0x000.
Definition NPU_REG_STATUS      : Z := 0x004.
Definition NPU_REG_IRQ_ENABLE  : Z := 0x008.
Definition NPU_REG_IRQ_STATUS  : Z := 0x00C.
Definition NPU_REG_VERSION     : Z := 0x010.
Definition NPU_REG_INST_BASE   : Z := 0x100.
Definition NPU_REG_INST_SIZE   : Z := 0x104.
Definition NPU_REG_INST_PTR    : Z := 0x108.
Definition NPU_REG_WEIGHT_BASE : Z := 0x200.
Definition NPU_REG_WEIGHT_SIZE : Z := 0x204.
Definition NPU_REG_ACT_IN_BASE : Z := 0x300.
Definition NPU_REG_ACT_IN_SIZE : Z := 0x304.
Definition NPU_REG_PERF_CYCLES : Z := 0x500.
Definition NPU_REG_PERF_INST   : Z := 0x504.
Definition NPU_REG_PERF_MAC    : Z := 0x508.
Definition NPU_REG_PERF_STALL  : Z := 0x50C.

Definition NPU_CTRL_ENABLE : Z := Z.shiftl 1 0.
Definition NPU_CTRL_START  : Z := Z.shiftl 1 1.
Definition NPU_CTRL_RESET  : Z := Z.shiftl 1 2.

Definition NPU_STATUS_IDLE    : Z := Z.shiftl 1 0.
Definition NPU_STATUS_RUNNING : Z := Z.shiftl 1 1.
Definition NPU_STATUS_DONE    : Z := Z.shiftl 1 2.
Definition NPU_STATUS_ERROR   : Z := Z.shiftl 1 3.

Inductive npu_status_t : Type :=
| NPU_OK
| NPU_ERROR_INVALID_PARAM
| NPU_ERROR_NOT_INITIALIZED
| NPU_ERROR_BUSY
| NPU_ERROR_TIMEOUT
| NPU_ERROR_HW_ERROR
| NPU_ERROR_NO_MEMORY
| NPU_ERROR_INVALID_MODEL.

Inductive npu_state_t : Type :=
| NPU_STATE_UNINITIALIZED
| NPU_STATE_IDLE
| NPU_STATE_RUNNING
| NPU_STATE_ERROR.

Definition is_running (s : npu_state_t) : bool :=
  match s with NPU_STATE_RUNNING => true | _ => false end.

Record npu_config_t : Type := mkConfig {
  base_addr : Z;
  inst_buf_addr : Z;
  inst_buf_size : Z;
  weight_buf_addr : Z;
  weight_buf_size : Z;
  act_buf_addr : Z;
  act_buf_size : Z
}.

Record npu_hw_info_t : Type := mkHwInfo {
  hw_version : Z;
  pe_array_size : Z;
  max_inst_count : Z;
  weight_buf_kb : Z;
  act_buf_kb : Z;
  has_dma : bool;
  has_debug : bool
}.

Record npu_perf_stats_t : Type := mkPerf {
  total_cycles : Z;
  instructions_executed : Z;
  mac_operations : Z;
  stall_cycles : Z;
  utilization : float32
}.

Definition perf_zero : npu_perf_stats_t := mkPerf 0 0 0 0 f32_zero.

(** [struct npu_context]; the callback and its data are opaque handles. *)
Record npu_context : Type := mkCtx {
  config : npu_config_t;
  state : npu_state_t;
  hw_info : npu_hw_info_t;
  callback : option nat;
  callback_data : option nat;
  perf_stats : npu_perf_stats_t;
  debug_enabled : bool
}.

(** The context a non-null [npu_context_t*] points to, and the device.
    [fdiv_log] is ghost state, as in the firmware. *)
Record machine : Type := mkMachine {
  ctx_obj : npu_context;
  dev : device;
  fdiv_log : list (Z * Z)
}.

(** A [npu_context_t*] argument: [Some tt] points to [ctx_obj],
    [None] is [NULL]. *)
Definition ctx_ptr : Type := option unit.

Definition with_ctx (f : npu_context -> npu_context) (m : machine) : machine :=
  mkMachine (f (ctx_obj m)) (dev m) (fdiv_log m).
Definition with_dev (f : device -> device) (m : machine) : machine :=
  mkMachine (ctx_obj m) (f (dev m)) (fdiv_log m).
Definition log_fdiv (num den : Z) (m : machine) : machine :=
  mkMachine (ctx_obj m) (dev m) ((num, den) :: fdiv_log m).

Definition set_state (v : npu_state_t) (c : npu_context) : npu_context :=
  mkCtx (config c) v (hw_info c) (callback c) (callback_data c)
        (perf_stats c) (debug_enabled c).
Definition set_perf_stats (v : npu_perf_stats_t) (c : npu_context) : npu_context :=
  mkCtx (config c) (state c) (hw_info c) (callback c) (callback_data c)
        v (debug_enabled c).
Definition set_hw_info (v : npu_hw_info_t) (c : npu_context) : npu_context :=
  mkCtx (config c) (state c) v (callback c) (callback_data c)
        (perf_stats c) (debug_enabled c).

Definition set_total_cycles (v : Z) (p : npu_perf_stats_t) : npu_perf_stats_t :=
  mkPerf v (instructions_executed p) (mac_operations p) (stall_cycles p)
         (utilization p).
Definition set_instructions_executed (v : Z) (p : npu_perf_stats_t)
  : npu_perf_stats_t :=
  mkPerf (total_cycles p) v (mac_operations p) (stall_cycles p) (utilization p).
Definition set_mac_operations (v : Z) (p : npu_perf_stats_t) : npu_perf_stats_t :=
  mkPerf (total_cycles p) (instructions_executed p) v (stall_cycles p)
         (utilization p).
Definition set_stall_cycles (v : Z) (p : npu_perf_stats_t) : npu_perf_stats_t :=
  mkPerf (total_cycles p) (instructions_executed p) (mac_operations p) v
         (utilization p).
Definition set_utilization (v : float32) (p : npu_perf_stats_t) : npu_perf_stats_t :=
  mkPerf (total_cycles p) (instructions_executed p) (mac_operations p)
         (stall_cycles p) v.

Definition M (A : Type) : Type := machine -> option (A * machine).

Definition ret {A : Type} (a : A) : M A := fun m => Some (a, m).
Definition bind {A B : Type} (x : M A) (f : A -> M B) : M B :=
  fun m => match x m with
           | None => None
           | Some (a, m') => f a m'
           end.
Definition modify (f : machine -> machine) : M unit :=
  fun m => Some (tt, f m).
Definition gets {A : Type} (f : machine -> A) : M A :=
  fun m => Some (f m, m).

Declare Scope drv_scope.
Delimit Scope drv_scope with drv.
Notation "x <- c1 ;; c2" := (bind c1 (fun x => c2))
  (at level 61, c1 at next level, right associativity) : drv_scope.
Notation "c1 ;;; c2" := (bind c1 (fun _ => c2))
  (at level 61, right associativity) : drv_scope.
Local Open Scope drv_scope.

Definition reg_write (offset value : Z) : M unit :=
  base <- gets (fun m => base_addr (config (ctx_obj m))) ;;
  modify (with_dev (dev_write32 (u32 (base + offset)) value)).

Definition reg_read (offset : Z) : M Z :=
  base <- gets (fun m => base_addr (config (ctx_obj m))) ;;
  fun m => let '(v, d) := dev_read32 (u32 (base + offset)) (dev m) in
           Some (v, with_dev (fun _ => d) m).

Definition npu_delay_us (us : Z) : M unit := modify (with_dev (dev_delay_us us)).

Definition set_perf_field (f : npu_perf_stats_t -> npu_perf_stats_t) : M unit :=
  modify (with_ctx (fun c => set_perf_stats (f (perf_stats c)) c)).

(** The loop of [wait_for_idle], one iteration per unit of fuel. *)
Fixpoint wait_for_idle_loop (fuel : nat) (timeout_ms timeout_us elapsed : Z)
  : M npu_status_t :=
  match fuel with
  | O => fun _ => None
  | S fuel' =>
      if (elapsed <? timeout_us) || (timeout_ms =? 0) then
        status <- reg_read NPU_REG_STATUS ;;
        if negb (Z.land status NPU_STATUS_ERROR =? 0) then
          modify (with_ctx (set_state NPU_STATE_ERROR)) ;;;
          ret NPU_ERROR_HW_ERROR
        else if negb (Z.land status NPU_STATUS_DONE =? 0) then
          modify (with_ctx (set_state NPU_STATE_IDLE)) ;;;
          ret NPU_OK
        else if negb (Z.land status NPU_STATUS_IDLE =? 0) then
          modify (with_ctx (set_state NPU_STATE_IDLE)) ;;;
          ret NPU_OK
        else
          npu_delay_us 10 ;;;
          wait_for_idle_loop fuel' timeout_ms timeout_us (u32 (elapsed + 10))
      else ret NPU_ERROR_TIMEOUT
  end.

Definition wait_for_idle (fuel : nat) (timeout_ms : Z) : M npu_status_t :=
  let timeout_us := u32 (timeout_ms * 1000) in
  wait_for_idle_loop fuel timeout_ms timeout_us 0.

Definition npu_reset (ctx : ctx_ptr) : M npu_status_t :=
  match ctx with
  | None => ret NPU_ERROR_INVALID_PARAM
  | Some _ =>
      reg_write NPU_REG_CTRL NPU_CTRL_RESET ;;;
      npu_delay_us 100 ;;;
      reg_write NPU_REG_CTRL NPU_CTRL_ENABLE ;;;
      npu_delay_us 100 ;;;
      reg_write NPU_REG_IRQ_STATUS 0xFFFFFFFF ;;;
      set_perf_field (fun _ => perf_zero) ;;;
      modify (with_ctx (set_state NPU_STATE_IDLE)) ;;;
      ret NPU_OK
  end.

(** [memset(ctx, 0, sizeof(npu_context_t))] followed by the copy of the
    configuration. *)
Definition ctx_fresh (cfg : npu_config_t) : npu_context :=
  mkCtx cfg NPU_STATE_UNINITIALIZED (mkHwInfo 0 0 0 0 0 false false)
        None None perf_zero false.

(** [npu_init]: [None] is the [NULL] result (no configuration, or
    [malloc] failed); otherwise the machine holding the new context. *)
Definition npu_init (cfg : option npu_config_t) (malloc_ok : bool)
  (d : device) : option machine :=
  match cfg with
  | None => None
  | Some cfg =>
      if negb malloc_ok then None
      else
        let m := mkMachine (ctx_fresh cfg) d [] in
        let body :=
          version <- reg_read NPU_REG_VERSION ;;
          modify (with_ctx (set_hw_info
            (mkHwInfo version 16 4096 (weight_buf_size cfg / 1024)
                      (act_buf_size cfg / 1024) true true))) ;;;
          npu_reset (Some tt) ;;;
          modify (with_ctx (set_state NPU_STATE_IDLE)) in
        match body m with
        | Some (_, m') => Some m'
        | None => None
        end
  end.

Definition npu_get_state (ctx : ctx_ptr) : M npu_state_t :=
  match ctx with
  | None => ret NPU_STATE_UNINITIALIZED
  | Some _ => gets (fun m => state (ctx_obj m))
  end.

Definition npu_load_instructions (ctx : ctx_ptr) (instructions : host_ptr)
  (num_instructions : Z) : M npu_status_t :=
  match ctx, instructions with
  | Some _, Some instructions =>
      if num_instructions =? 0 then ret NPU_ERROR_INVALID_PARAM
      else
        c <- gets ctx_obj ;;
        if is_running (state c) then ret NPU_ERROR_BUSY
        else
          let size := u32 (num_instructions * 8) in
          if size >? inst_buf_size (config c) then ret NPU_ERROR_NO_MEMORY
          else
            let inst_buf := inst_buf_addr (config c) in
            modify (for_loop num_instructions (fun i =>
              with_dev (dev_store64 (inst_buf + 8 * i)
                                    (hb_elem instructions i)))) ;;;
            reg_write NPU_REG_INST_BASE (inst_buf_addr (config c)) ;;;
            reg_write NPU_REG_INST_SIZE num_instructions ;;;
            reg_write NPU_REG_INST_PTR 0 ;;;
            ret NPU_OK
  | _, _ => ret NPU_ERROR_INVALID_PARAM
  end.

(** The first [size] bytes behind a host pointer. *)
Definition host_bytes (b : host_buf) (size : Z) : list Z :=
  map (fun i => hb_elem b (Z.of_nat i)) (seq 0 (Z.to_nat size)).

Definition npu_load_weights (ctx : ctx_ptr) (weights : host_ptr) (size : Z)
  : M npu_status_t :=
  match ctx, weights with
  | Some _, Some weights =>
      if size =? 0 then ret NPU_ERROR_INVALID_PARAM
      else
        c <- gets ctx_obj ;;
        if is_running (state c) then ret NPU_ERROR_BUSY
        else if size >? weight_buf_size (config c) then ret NPU_ERROR_NO_MEMORY
        else
          modify (with_dev (dev_memcpy (weight_buf_addr (config c))
                                       (host_bytes weights size))) ;;;
          reg_write NPU_REG_WEIGHT_BASE (weight_buf_addr (config c)) ;;;
          reg_write NPU_REG_WEIGHT_SIZE size ;;;
          ret NPU_OK
  | _, _ => ret NPU_ERROR_INVALID_PARAM
  end.

Definition npu_load_input (ctx : ctx_ptr) (input : host_ptr) (size : Z)
  : M npu_status_t :=
  match ctx, input with
  | Some _, Some input =>
      if size =? 0 then ret NPU_ERROR_INVALID_PARAM
      else
        c <- gets ctx_obj ;;
        if is_running (state c) then ret NPU_ERROR_BUSY
        else if size >? act_buf_size (config c) then ret NPU_ERROR_NO_MEMORY
        else
          modify (with_dev (dev_memcpy (act_buf_addr (config c))
                                       (host_bytes input size))) ;;;
          reg_write NPU_REG_ACT_IN_BASE (act_buf_addr (config c)) ;;;
          reg_write NPU_REG_ACT_IN_SIZE size ;;;
          ret NPU_OK
  | _, _ => ret NPU_ERROR_INVALID_PARAM
  end.

Definition npu_reset_perf_counters (ctx : ctx_ptr) : M npu_status_t :=
  match ctx with
  | None => ret NPU_ERROR_INVALID_PARAM
  | Some _ =>
      reg_write NPU_REG_PERF_CYCLES 0 ;;;
      reg_write NPU_REG_PERF_INST 0 ;;;
      reg_write NPU_REG_PERF_MAC 0 ;;;
      reg_write NPU_REG_PERF_STALL 0 ;;;
      set_perf_field (fun _ => perf_zero) ;;;
      ret NPU_OK
  end.

(** Reads of the four counters, shared by [npu_run] and
    [npu_get_perf_stats]. *)
Definition read_perf_counters : M unit :=
  v <- reg_read NPU_REG_PERF_CYCLES ;; set_perf_field (set_total_cycles v) ;;;
  v <- reg_read NPU_REG_PERF_INST ;; set_perf_field (set_instructions_executed v) ;;;
  v <- reg_read NPU_REG_PERF_MAC ;; set_perf_field (set_mac_operations v) ;;;
  v <- reg_read NPU_REG_PERF_STALL ;; set_perf_field (set_stall_cycles v).

Definition npu_run (fuel : nat) (ctx : ctx_ptr) (timeout_ms : Z)
  : M npu_status_t :=
  match ctx with
  | None => ret NPU_ERROR_INVALID_PARAM
  | Some _ =>
      c <- gets ctx_obj ;;
      if is_running (state c) then ret NPU_ERROR_BUSY
      else
        npu_reset_perf_counters ctx ;;;
        modify (with_ctx (set_state NPU_STATE_RUNNING)) ;;;
        reg_write NPU_REG_CTRL (Z.lor NPU_CTRL_ENABLE NPU_CTRL_START) ;;;
        status <- wait_for_idle fuel timeout_ms ;;
        read_perf_counters ;;;
        p <- gets (fun m => perf_stats (ctx_obj m)) ;;
        (if total_cycles p >? 0 then
           let num := u64 (total_cycles p - stall_cycles p) in
           modify (log_fdiv num (total_cycles p)) ;;;
           set_perf_field (set_utilization
             (f32_mul (f32_div (f32_of_Z num) (f32_of_Z (total_cycles p)))
                      (f32_of_Z 100)))
         else ret tt) ;;;
        ret status
  end.

Definition npu_wait (fuel : nat) (ctx : ctx_ptr) (timeout_ms : Z)
  : M npu_status_t :=
  match ctx with
  | None => ret NPU_ERROR_INVALID_PARAM
  | Some _ => wait_for_idle fuel timeout_ms
  end.

Definition npu_abort (ctx : ctx_ptr) : M npu_status_t :=
  match ctx with
  | None => ret NPU_ERROR_INVALID_PARAM
  | Some _ => npu_reset ctx
  end.

(** [npu_get_perf_stats]: the second component is what [*stats]
    receives. *)
Definition npu_get_perf_stats (ctx : ctx_ptr) (stats : option unit)
  : M (npu_status_t * option npu_perf_stats_t) :=
  match ctx, stats with
  | Some _, Some _ =>
      read_perf_counters ;;;
      p <- gets (fun m => perf_stats (ctx_obj m)) ;;
      ret (NPU_OK, Some p)
  | _, _ => ret (NPU_ERROR_INVALID_PARAM, None)
  end.

(** *** DMA transfer *)

Definition NPU_REG_DMA_SRC      : Z := 0x400.
Definition NPU_REG_DMA_DST      : Z := 0x404.
Definition NPU_REG_DMA_SIZE     : Z := 0x408.
Definition NPU_REG_DMA_CTRL     : Z := 0x40C.
Definition NPU_REG_DMA_STATUS   : Z := 0x410.

(** The loop [while (timeout--)] of [npu_dma_transfer], by the number
    of polls it has left. *)
Fixpoint dma_poll_loop (remaining : nat) : M npu_status_t :=
  match remaining with
  | O => ret NPU_ERROR_TIMEOUT
  | S remaining' =>
      status <- reg_read NPU_REG_DMA_STATUS ;;
      if negb (Z.land status 0x1 =? 0) then ret NPU_OK
      else
        npu_delay_us 1 ;;;
        dma_poll_loop remaining'
  end.

Definition DMA_POLLS : Z := 10000.

Definition npu_dma_transfer (ctx : ctx_ptr) (src dst size : Z)
  : M npu_status_t :=
  match ctx with
  | None => ret NPU_ERROR_INVALID_PARAM
  | Some _ =>
      if size =? 0 then ret NPU_ERROR_INVALID_PARAM
      else
        c <- gets ctx_obj ;;
        if negb (has_dma (hw_info c)) then ret NPU_ERROR_INVALID_PARAM
        else
          reg_write NPU_REG_DMA_SRC src ;;;
          reg_write NPU_REG_DMA_DST dst ;;;
          reg_write NPU_REG_DMA_SIZE size ;;;
          reg_write NPU_REG_DMA_CTRL 1 ;;;
          dma_poll_loop (Z.to_nat DMA_POLLS)
  end.

(** *** Observing the polling loop *)

Definition status_at (m : machine) (k : nat) : Z :=
  u32 (dev_oracle (dev m) (dev_reads (dev m) + k)%nat
         (u32 (base_addr (config (ctx_obj m)) + NPU_REG_STATUS))).

Definition advance (k : nat) (m : machine) : machine :=
  with_dev (fun d => mkDevice (dev_log d) (dev_reads d + k)%nat
                       (dev_clock_us d + 10 * Z.of_nat k)
                       (dev_oracle d)) m.

Definition after_poll (m : machine) : machine :=
  with_dev (fun d => mkDevice (dev_log d) (S (dev_reads d))
                       (dev_clock_us d) (dev_oracle d)) m.

Definition shows_error (st : Z) : bool := negb (Z.land st NPU_STATUS_ERROR =? 0).
Definition shows_done (st : Z) : bool := negb (Z.land st NPU_STATUS_DONE =? 0).
Definition shows_idle (st : Z) : bool := negb (Z.land st NPU_STATUS_IDLE =? 0).

(** The first [k] polls of [wait_for_idle] show neither error, done nor
    idle. *)
Definition first_polls_pending (m : machine) (k : nat) : Prop :=
  forall j, (j < k)%nat ->
    shows_error (status_at m j) = false /\
    shows_done (status_at m j) = false /\
    shows_idle (status_at m j) = false.

(** Status word the [k]-th next load of the DMA status register
    returns, and the machine after [k] polls of [npu_dma_transfer] that
    each loaded it once and then waited a microsecond. *)
Definition dma_status_at (m : machine) (k : nat) : Z :=
  u32 (dev_oracle (dev m) (dev_reads (dev m) + k)%nat
         (u32 (base_addr (config (ctx_obj m)) + NPU_REG_DMA_STATUS))).

Definition dma_done (st : Z) : bool := negb (Z.land st 0x1 =? 0).

Definition after_dma_polls (k : nat) (m : machine) : machine :=
  with_dev (fun d => mkDevice (dev_log d) (dev_reads d + k)%nat
                       (dev_clock_us d + Z.of_nat k)
                       (dev_oracle d)) m.

(** *** Concrete inputs used to run the driver *)

Definition default_config : npu_config_t :=
  mkConfig 0x40000000 0x40100000 8192 0x40200000 262144 0x40300000 262144.

(** The machine a call leaves behind (the machine itself if the call is
    still polling when its fuel runs out). *)
Definition after {A : Type} (x : M A) (m : machine) : machine :=
  match x m with
  | Some (_, m') => m'
  | None => m
  end.

(** The driver after [npu_init(&default_config)] on a device whose
    register loads always return [v]. *)
Definition initialized_machine (v : Z) : machine :=
  match npu_init (Some default_config) true (mkDevice [] 0 0 (fun _ _ => v)) with
  | Some m => m
  | None => mkMachine (ctx_fresh default_config) (mkDevice [] 0 0 (fun _ _ => v)) []
  end.

(** The driver after a run that timed out: the device keeps reporting
    running, [npu_run(ctx, 1)] gives up after 1 ms and the context stays
    in state Running. *)
Definition running_machine : machine :=
  after (npu_run 101 (Some tt) 1) (initialized_machine NPU_STATUS_RUNNING).

End Drv.

(** ** Host runtime: npu_runtime.h, npu_runtime.c (model loading) *)

Module Rt.

Import Fw (float32, f32_zero, f32_of_Z, f32_div).

Definition NPU_MODEL_MAGIC   : Z := 0x55504E45.
Definition NPU_MODEL_VERSION : Z := 0x0100.

(** [npu_model_header_t]: packed, sixteen 32-bit words. *)
Record npu_model_header_t : Type := mkHeader {
  magic : Z;
  version : Z;
  num_instructions : Z;
  instructions_size : Z;
  weights_size : Z;
  bias_size : Z;
  input_size : Z;
  output_size : Z
}.

Definition sizeof_npu_model_header_t : Z := 64.

Definition read_header (b : Z -> Z) : npu_model_header_t :=
  mkHeader (le32 b 0) (le32 b 4) (le32 b 8) (le32 b 12)
           (le32 b 16) (le32 b 20) (le32 b 24) (le32 b 28).

Record npu_quant_params_t : Type := mkQuant { q_scale : float32; q_zero_point : Z }.

(** [struct npu_model]: the [info] fields the loader fills in, the three
    heap copies ([None] is a [NULL] pointer) and the [loaded] flag. *)
Record npu_model : Type := mkModel {
  info_num_instructions : Z;
  info_weights_size : Z;
  info_input_size : Z;
  info_output_size : Z;
  info_input_quant : npu_quant_params_t;
  info_output_quant : npu_quant_params_t;
  instructions : option (list Z);
  weights : option (list Z);
  bias : option (list Z);
  loaded : bool
}.

(** [calloc(1, sizeof(npu_model_t))]. *)
Definition model_zero : npu_model :=
  mkModel 0 0 0 0 (mkQuant f32_zero 0) (mkQuant f32_zero 0) None None None false.

Record npu_runtime_config_t : Type := mkRtConfig {
  max_models : Z;
  rt_workspace_size : Z;
  enable_profiling : bool;
  enable_debug : bool
}.

Inductive debug_msg : Type :=
| DbgInvalidMagic (magic : Z)
| DbgModelLoaded (num_instructions weights_size : Z).

(** [struct npu_runtime] with its model slots, and the C library state
    the loader touches: [alloc_ok n] tells whether the [n]-th allocation
    request succeeds, [stdout] collects the debug output (most recent
    first). *)
Record world : Type := mkWorld {
  config : npu_runtime_config_t;
  models : list (option npu_model);
  num_models : Z;
  allocs : nat;
  alloc_ok : nat -> bool;
  stdout : list debug_msg
}.

Definition with_models (l : list (option npu_model)) (n : Z) (w : world) : world :=
  mkWorld (config w) l n (allocs w) (alloc_ok w) (stdout w).
Definition print (msg : debug_msg) (w : world) : world :=
  mkWorld (config w) (models w) (num_models w) (allocs w) (alloc_ok w)
          (msg :: stdout w).

(** [malloc] / [calloc]: consumes one answer of the allocator. *)
Definition malloc (w : world) : bool * world :=
  (alloc_ok w (allocs w),
   mkWorld (config w) (models w) (num_models w) (S (allocs w)) (alloc_ok w)
           (stdout w)).

Fixpoint first_free (l : list (option npu_model)) (i : nat) : option nat :=
  match l with
  | [] => None
  | None :: _ => Some i
  | Some _ :: rest => first_free rest (S i)
  end.

Fixpoint set_slot (i : nat) (v : option npu_model) (l : list (option npu_model))
  : list (option npu_model) :=
  match l, i with
  | [], _ => []
  | _ :: rest, O => v :: rest
  | x :: rest, S i' => x :: set_slot i' v rest
  end.

(** [allocate_model_slot]: the index of the slot now holding a fresh
    model, or [None] for a [NULL] result. *)
Definition allocate_model_slot (w : world) : option nat * world :=
  match first_free (models w) 0 with
  | None => (None, w)
  | Some i =>
      let '(ok, w1) := malloc w in
      if ok then
        (Some i, with_models (set_slot i (Some model_zero) (models w1))
                             (u32 (num_models w1 + 1)) w1)
      else (None, w1)
  end.

(** [npu_model_unload] of the model in slot [i]. *)
Definition npu_model_unload (i : nat) (w : world) : world :=
  with_models (set_slot i None (models w)) (u32 (num_models w - 1)) w.

Definition update_slot (i : nat) (f : npu_model -> npu_model) (w : world) : world :=
  match nth i (models w) None with
  | Some mdl => with_models (set_slot i (Some (f mdl)) (models w)) (num_models w) w
  | None => w
  end.

Definition bytes_from (b : host_buf) (off size : Z) : list Z :=
  map (fun i => hb_elem b (off + Z.of_nat i)) (seq 0 (Z.to_nat size)).

(** [npu_model_load_memory]; [runtime] is [Some tt] for the pointer to
    the runtime in [w].  The result is the slot of the loaded model or
    [None] for [NULL]. *)
Definition npu_model_load_memory (runtime : option unit) (data : host_ptr)
  (size : Z) (w : world) : option nat * world :=
  match runtime, data with
  | Some _, Some data =>
      if size <? sizeof_npu_model_header_t then (None, w)
      else
        let header := read_header (hb_elem data) in
        if negb (magic header =? NPU_MODEL_MAGIC) then
          (None, if enable_debug (config w)
                 then print (DbgInvalidMagic (magic header)) w else w)
        else
          match allocate_model_slot w with
          | (None, w1) => (None, w1)
          | (Some i, w1) =>
              let w2 := update_slot i (fun mdl =>
                mkModel (num_instructions header) (weights_size header)
                        (input_size header) (output_size header)
                        (info_input_quant mdl) (info_output_quant mdl)
                        (instructions mdl) (weights mdl) (bias mdl)
                        (loaded mdl)) w1 in
              let ptr := sizeof_npu_model_header_t in
              let inst_size := u32 (num_instructions header * 8) in
              let '(ok, w3) := malloc w2 in
              if negb ok then (None, npu_model_unload i w3)
              else
                let w4 := update_slot i (fun mdl =>
                  mkModel (info_num_instructions mdl) (info_weights_size mdl)
                          (info_input_size mdl) (info_output_size mdl)
                          (info_input_quant mdl) (info_output_quant mdl)
                          (Some (bytes_from data ptr inst_size))
                          (weights mdl) (bias mdl) (loaded mdl)) w3 in
                let ptr := ptr + inst_size in
                let load_weights (w : world) : option (Z * world) :=
                  if weights_size header >? 0 then
                    let '(ok, w') := malloc w in
                    if negb ok then None
                    else Some (ptr + weights_size header,
                      update_slot i (fun mdl =>
                        mkModel (info_num_instructions mdl) (info_weights_size mdl)
                                (info_input_size mdl) (info_output_size mdl)
                                (info_input_quant mdl) (info_output_quant mdl)
                                (instructions mdl)
                                (Some (bytes_from data ptr (weights_size header)))
                                (bias mdl) (loaded mdl)) w')
                  else Some (ptr, w) in
                match load_weights w4 with
                | None => (None, npu_model_unload i (snd (malloc w4)))
                | Some (ptr, w5) =>
                    let load_bias (w : world) : option world :=
                      if bias_size header >? 0 then
                        let '(ok, w') := malloc w in
                        if negb ok then None
                        else Some (update_slot i (fun mdl =>
                          mkModel (info_num_instructions mdl) (info_weights_size mdl)
                                  (info_input_size mdl) (info_output_size mdl)
                                  (info_input_quant mdl) (info_output_quant mdl)
                                  (instructions mdl) (weights mdl)
                                  (Some (bytes_from data ptr (bias_size header)))
                                  (loaded mdl)) w')
                      else Some w in
                    match load_bias w5 with
                    | None => (None, npu_model_unload i (snd (malloc w5)))
                    | Some w6 =>
                        let q := mkQuant (f32_div (f32_of_Z 1) (f32_of_Z 127)) 0 in
                        let w7 := update_slot i (fun mdl =>
                          mkModel (info_num_instructions mdl) (info_weights_size mdl)
                                  (info_input_size mdl) (info_output_size mdl)
                                  q q
                                  (instructions mdl) (weights mdl) (bias mdl)
                                  true) w6 in
                        (Some i,
                         if enable_debug (config w7)
                         then print (DbgModelLoaded (num_instructions header)
                                                    (weights_size header)) w7
                         else w7)
                    end
                end
          end
  | _, _ => (None, w)
  end.

(** The model structure the loader builds from an image: the sizes of
    the header, the instruction bytes behind the header, then the weight
    and the bias bytes where the header announces any, the default
    quantisation, and the [loaded] flag. *)
Definition loaded_model (image : host_buf) : npu_model :=
  let header := read_header (hb_elem image) in
  let inst_size := u32 (num_instructions header * 8) in
  let wptr := sizeof_npu_model_header_t + inst_size in
  let bptr := if weights_size header >? 0 then wptr + weights_size header
              else wptr in
  let q := mkQuant (f32_div (f32_of_Z 1) (f32_of_Z 127)) 0 in
  mkModel (num_instructions header) (weights_size header)
          (input_size header) (output_size header) q q
          (Some (bytes_from image sizeof_npu_model_header_t inst_size))
          (if weights_size header >? 0
           then Some (bytes_from image wptr (weights_size header)) else None)
          (if bias_size header >? 0
           then Some (bytes_from image bptr (bias_size header)) else None)
          true.

(** *** Concrete inputs used to run the loader *)

(** A host model image: 64-byte header with the given magic and
    version, one [HALT] instruction, no weights, no bias. *)
Definition model_image (mg ver : Z) : host_buf :=
  buf_of_list 0x20000000
    (bytes32 mg ++ bytes32 ver ++ bytes32 1 ++ bytes32 8
     ++ bytes32 0 ++ bytes32 0 ++ bytes32 16 ++ bytes32 16
     ++ repeat 0 32
     ++ bytes64 Inst.INST_HALT).

Definition model_image_size : Z := 72.

(** A runtime with two free model slots whose allocations succeed. *)
Definition fresh_world : world :=
  mkWorld (mkRtConfig 2 1048576 false false) [None; None] 0 0
          (fun _ => true) [].

End Rt.

(** * Properties *)

(** Splits the conjunctions of a goal, and nothing else. *)
Ltac split_all := repeat match goal with |- _ /\ _ => split end.

(** ** Bit-level facts *)

Section BitFacts.

Lemma land_shifted_low_zero (hi lo k : Z) :
  0 <= k -> 0 <= lo < 2 ^ k -> Z.land (hi * 2 ^ k) lo = 0.
Proof.
  intros Hk Hlo. apply Z.bits_inj'. intros i Hi.
  rewrite Z.land_spec, Z.bits_0.
  destruct (Z.ltb_spec i k) as [Hlt | Hge].
  - rewrite Z.mul_pow2_bits_low by lia. reflexivity.
  - replace (Z.testbit lo i) with false; [apply andb_false_r |].
    symmetry. destruct (Z.eq_dec lo 0) as [-> | Hnz]; [apply Z.bits_0 |].
    apply Z.bits_above_log2; [lia |].
    apply Z.log2_lt_pow2; [lia |].
    pose proof (Z.pow_le_mono_r 2 k i ltac:(lia) Hge). lia.
Qed.

Lemma lor_shifted_add (hi lo k : Z) :
  0 <= k -> 0 <= lo < 2 ^ k -> Z.lor (hi * 2 ^ k) lo = hi * 2 ^ k + lo.
Proof.
  intros Hk Hlo.
  pose proof (land_shifted_low_zero hi lo k Hk Hlo) as Hz.
  rewrite <- (Z.lxor_lor _ _ Hz). symmetry. apply Z.add_nocarry_lxor, Hz.
Qed.

Lemma u64_small (x : Z) : 0 <= x < 2 ^ 64 -> u64 x = x.
Proof. intros H. unfold u64. apply Z.mod_small, H. Qed.

Lemma u32_small (x : Z) : 0 <= x < 2 ^ 32 -> u32 x = x.
Proof. intros H. unfold u32. apply Z.mod_small, H. Qed.

Lemma u64_range (x : Z) : 0 <= u64 x < 2 ^ 64.
Proof. unfold u64. apply Z.mod_pos_bound. lia. Qed.

Lemma operand_mask_mod (x : Z) : Z.land x OPERAND_MASK = x mod 2 ^ 48.
Proof.
  change OPERAND_MASK with (Z.ones 48). apply Z.land_ones. lia.
Qed.

(** Arithmetic reading of the encoder for in-range opcode and flags. *)
Lemma MAKE_INST_arith (op fl ops : Z) :
  is_u8 op -> is_u8 fl ->
  MAKE_INST op fl ops = op * 2 ^ 56 + fl * 2 ^ 48 + u64 ops mod 2 ^ 48.
Proof.
  unfold is_u8. intros Ho Hf. unfold MAKE_INST, shl64.
  rewrite operand_mask_mod.
  rewrite (u64_small op), (u64_small fl) by lia.
  rewrite !Z.shiftl_mul_pow2 by lia.
  rewrite (u64_small (op * 2 ^ 56)), (u64_small (fl * 2 ^ 48)) by lia.
  assert (Hw : 0 <= u64 ops mod 2 ^ 48 < 2 ^ 48) by (apply Z.mod_pos_bound; lia).
  rewrite (lor_shifted_add op (fl * 2 ^ 48) 56) by lia.
  replace (op * 2 ^ 56 + fl * 2 ^ 48) with ((op * 2 ^ 8 + fl) * 2 ^ 48) by lia.
  rewrite (lor_shifted_add (op * 2 ^ 8 + fl) _ 48) by lia.
  lia.
Qed.

Lemma inst_get_opcode_MAKE_INST (op fl ops : Z) :
  is_u8 op -> is_u8 fl -> inst_get_opcode (MAKE_INST op fl ops) = op.
Proof.
  intros Ho Hf. rewrite MAKE_INST_arith by assumption.
  unfold is_u8 in *. unfold inst_get_opcode.
  assert (Hw : 0 <= u64 ops mod 2 ^ 48 < 2 ^ 48) by (apply Z.mod_pos_bound; lia).
  rewrite Z.shiftr_div_pow2 by lia.
  replace ((op * 2 ^ 56 + fl * 2 ^ 48 + u64 ops mod 2 ^ 48) / 2 ^ 56) with op.
  - change 0xFF with (Z.ones 8). rewrite Z.land_ones by lia.
    apply Z.mod_small. lia.
  - apply Z.div_unique with (r := fl * 2 ^ 48 + u64 ops mod 2 ^ 48); lia.
Qed.

Lemma inst_get_flags_MAKE_INST (op fl ops : Z) :
  is_u8 op -> is_u8 fl -> inst_get_flags (MAKE_INST op fl ops) = fl.
Proof.
  intros Ho Hf. rewrite MAKE_INST_arith by assumption.
  unfold is_u8 in *. unfold inst_get_flags.
  assert (Hw : 0 <= u64 ops mod 2 ^ 48 < 2 ^ 48) by (apply Z.mod_pos_bound; lia).
  rewrite Z.shiftr_div_pow2 by lia.
  replace ((op * 2 ^ 56 + fl * 2 ^ 48 + u64 ops mod 2 ^ 48) / 2 ^ 48)
    with (op * 2 ^ 8 + fl).
  - change 0xFF with (Z.ones 8). rewrite Z.land_ones by lia.
    rewrite Z.add_comm, Z.mod_add by lia. apply Z.mod_small. lia.
  - apply Z.div_unique with (r := u64 ops mod 2 ^ 48); lia.
Qed.

Lemma inst_get_operands_MAKE_INST (op fl ops : Z) :
  is_u8 op -> is_u8 fl ->
  inst_get_operands (MAKE_INST op fl ops) = Z.land (u64 ops) OPERAND_MASK.
Proof.
  intros Ho Hf. rewrite MAKE_INST_arith by assumption.
  unfold is_u8 in *. unfold inst_get_operands.
  rewrite !operand_mask_mod.
  replace (op * 2 ^ 56 + fl * 2 ^ 48 + u64 ops mod 2 ^ 48)
    with (u64 ops mod 2 ^ 48 + (op * 2 ^ 8 + fl) * 2 ^ 48) by lia.
  rewrite Z.mod_add by lia. apply Z.mod_mod. lia.
Qed.

End BitFacts.

(** ** Instruction codec *)

(** C1.  For every 8-bit opcode [o], 8-bit flags [f] and 64-bit operand
    [v], decoding the instruction word built by [MAKE_INST] gives back
    exactly [o], [f] and [v] masked to its low 48 bits. *)
Theorem codec_roundtrip (o f v : Z) :
  is_u8 o -> is_u8 f -> is_u64 v ->
  inst_get_opcode (MAKE_INST o f v) = o /\
  inst_get_flags (MAKE_INST o f v) = f /\
  inst_get_operands (MAKE_INST o f v) = Z.land v 0xFFFFFFFFFFFF.
Proof.
  intros Ho Hf Hv. repeat split.
  - apply inst_get_opcode_MAKE_INST; assumption.
  - apply inst_get_flags_MAKE_INST; assumption.
  - rewrite inst_get_operands_MAKE_INST by assumption.
    rewrite u64_small by exact Hv. reflexivity.
Qed.

Lemma codec_roundtrip_witness :
  (is_u8 0x28 /\ is_u8 0x10 /\ is_u64 0xABCDEF0123456789) /\
  inst_get_opcode (MAKE_INST 0x28 0x10 0xABCDEF0123456789) = 0x28 /\
  inst_get_flags (MAKE_INST 0x28 0x10 0xABCDEF0123456789) = 0x10 /\
  inst_get_operands (MAKE_INST 0x28 0x10 0xABCDEF0123456789)
    = Z.land 0xABCDEF0123456789 0xFFFFFFFFFFFF.
Proof.
  assert (H8a : is_u8 0x28) by (unfold is_u8; lia).
  assert (H8b : is_u8 0x10) by (unfold is_u8; lia).
  assert (H64 : is_u64 0xABCDEF0123456789) by (unfold is_u64; lia).
  split; [split; [exact H8a | split; [exact H8b | exact H64]] |].
  exact (codec_roundtrip 0x28 0x10 0xABCDEF0123456789 H8a H8b H64).
Defined.

(** ** Layer compiler *)

Import Fw.

Section EmitFacts.

Local Ltac u8_const := unfold is_u8; split; now vm_compute.

Lemma emitted_emit (v : Z) (s : emit_state) :
  emitted (emit v s) = emitted s ++ [v].
Proof. unfold emitted, emit. simpl. rewrite map_app. reflexivity. Qed.

Lemma for_loop_succ {S : Type} (k : nat) (body : Z -> S -> S) (s : S) :
  for_loop (Z.of_nat (Datatypes.S k)) body s
  = body (Z.of_nat k) (for_loop (Z.of_nat k) body s).
Proof.
  unfold for_loop. rewrite !Nat2Z.id.
  rewrite seq_S, fold_left_app. reflexivity.
Qed.

Lemma for_loop_zero {S : Type} (body : Z -> S -> S) (s : S) :
  for_loop 0 body s = s.
Proof. reflexivity. Qed.

Lemma opcode_CLEAR_ACC : inst_get_opcode INST_CLEAR_ACC = OP_CLEAR_ACC.
Proof. vm_compute. reflexivity. Qed.

Lemma opcode_WAIT_DMA : inst_get_opcode INST_WAIT_DMA = OP_WAIT_DMA.
Proof. vm_compute. reflexivity. Qed.

Lemma opcode_HALT : inst_get_opcode INST_HALT = OP_HALT.
Proof. vm_compute. reflexivity. Qed.

Lemma opcode_DMA_LOAD_W (src dst len : Z) :
  inst_get_opcode (INST_DMA_LOAD_W src dst len) = OP_DMA_LOAD_W.
Proof.
  unfold INST_DMA_LOAD_W.
  apply (inst_get_opcode_MAKE_INST OP_DMA_LOAD_W 0); u8_const.
Qed.

Lemma opcode_LOAD_WEIGHT (a count : Z) :
  inst_get_opcode (INST_LOAD_WEIGHT a count) = OP_LOAD_WEIGHT.
Proof.
  unfold INST_LOAD_WEIGHT.
  apply (inst_get_opcode_MAKE_INST OP_LOAD_WEIGHT 0); u8_const.
Qed.

Lemma opcode_DRAIN (a : Z) : inst_get_opcode (INST_DRAIN a) = OP_DRAIN.
Proof.
  unfold INST_DRAIN.
  apply (inst_get_opcode_MAKE_INST OP_DRAIN 0); u8_const.
Qed.

Lemma activation_flags_u8 (act : activation_type_t) :
  is_u8 (get_activation_flags act).
Proof. destruct act; u8_const. Qed.

Lemma opcode_COMPUTE (fl : Z) :
  is_u8 fl -> inst_get_opcode (INST_COMPUTE fl) = OP_COMPUTE.
Proof.
  intros H. unfold INST_COMPUTE.
  apply (inst_get_opcode_MAKE_INST OP_COMPUTE fl 0); [u8_const | exact H].
Qed.


End EmitFacts.

Ltac unroll_loops :=
  cbv [for_loop Z.to_nat Pos.to_nat Pos.iter_op Nat.add seq fold_left Z.of_nat].

Lemma emit_all_app (l1 l2 : list Z) (s : emit_state) :
  emit_all (l1 ++ l2) s = emit_all l2 (emit_all l1 s).
Proof. unfold emit_all. apply fold_left_app. Qed.

Lemma emitted_emit_all (l : list Z) (s : emit_state) :
  emitted (emit_all l s) = emitted s ++ l.
Proof.
  revert s. induction l as [| v l IH]; intros s.
  - cbn. now rewrite app_nil_r.
  - change (emit_all (v :: l) s) with (emit_all l (emit v s)).
    rewrite IH, emitted_emit, <- app_assoc. reflexivity.
Qed.

(** While the index does not wrap, the stores go to consecutive slots. *)
Lemma store_indices_emit_all (l : list Z) (s : emit_state) :
  0 <= inst_idx s -> inst_idx s + Z.of_nat (length l) < 2 ^ 32 ->
  inst_idx (emit_all l s) = inst_idx s + Z.of_nat (length l) /\
  map fst (stores (emit_all l s))
  = map fst (stores s)
    ++ map (fun k => inst_idx s + Z.of_nat k) (seq 0 (length l)).
Proof.
  revert s. induction l as [| v l IH]; intros s H0 Hlt.
  - cbn. rewrite app_nil_r. split; [lia | reflexivity].
  - change (emit_all (v :: l) s) with (emit_all l (emit v s)).
    assert (Hidx : inst_idx (emit v s) = inst_idx s + 1).
    { cbn [emit inst_idx]. apply u32_small. cbn [length] in Hlt. lia. }
    destruct (IH (emit v s)) as [IH1 IH2].
    + rewrite Hidx. lia.
    + rewrite Hidx. cbn [length] in Hlt. lia.
    + rewrite IH1, IH2, Hidx. split; [cbn [length]; lia |].
      cbn [emit stores]. rewrite map_app, <- app_assoc. f_equal.
      cbn [map fst app length seq]. f_equal; [f_equal; lia |].
      rewrite <- seq_shift, map_map. apply map_ext. intros k. lia.
Qed.

(** C2.  For a convolution with 32 input and 32 output channels on the
    16x16 PE array, [npu_rt_exec_conv] builds exactly 17 instructions, at
    indices 0 to 16 of its buffer: clear-accumulator, then per
    output-channel tile a weight DMA load, a DMA wait, two
    load-weight/compute pairs and a drain, with one clear-accumulator
    between the two tiles, and a final halt. *)
Theorem conv_32x32_sequence (layer : layer_desc_t) :
  dim_c (input layer) = 32 -> dim_c (output layer) = 32 ->
  let kh := kernel_h layer in
  let kw := kernel_w layer in
  let oh := dim_h (output layer) in
  let ow := dim_w (output layer) in
  let fl := get_activation_flags (activation layer) in
  emitted (conv_build layer) =
    [ INST_CLEAR_ACC;
      INST_DMA_LOAD_W (u32 (addr (weight layer) + u32 (0 * 32 * kh * kw))) 0
                      (u32 (16 * 32 * kh * kw));
      INST_WAIT_DMA;
      INST_LOAD_WEIGHT 0 16; INST_COMPUTE 0;
      INST_LOAD_WEIGHT 0 16; INST_COMPUTE fl;
      INST_DRAIN (u32 (addr (output layer) + u32 (0 * oh * ow)));
      INST_CLEAR_ACC;
      INST_DMA_LOAD_W (u32 (addr (weight layer) + u32 (16 * 32 * kh * kw))) 0
                      (u32 (16 * 32 * kh * kw));
      INST_WAIT_DMA;
      INST_LOAD_WEIGHT 0 16; INST_COMPUTE 0;
      INST_LOAD_WEIGHT 0 16; INST_COMPUTE fl;
      INST_DRAIN (u32 (addr (output layer) + u32 (16 * oh * ow)));
      INST_HALT ] /\
  map inst_get_opcode (emitted (conv_build layer)) =
    [ OP_CLEAR_ACC;
      OP_DMA_LOAD_W; OP_WAIT_DMA;
      OP_LOAD_WEIGHT; OP_COMPUTE; OP_LOAD_WEIGHT; OP_COMPUTE;
      OP_DRAIN;
      OP_CLEAR_ACC;
      OP_DMA_LOAD_W; OP_WAIT_DMA;
      OP_LOAD_WEIGHT; OP_COMPUTE; OP_LOAD_WEIGHT; OP_COMPUTE;
      OP_DRAIN;
      OP_HALT ] /\
  inst_idx (conv_build layer) = 17 /\
  map fst (stores (conv_build layer)) =
    [0; 1; 2; 3; 4; 5; 6; 7; 8; 9; 10; 11; 12; 13; 14; 15; 16].
Proof.
  intros Hin Hout kh kw oh ow fl.
  match goal with
  | |- _ = ?l /\ _ => assert (Hseq : conv_build layer = emit_all l emit_init)
  end.
  { unfold conv_build, conv_oc_tiles, conv_ic_tiles. rewrite Hin, Hout.
    change (u32 (u32 (32 + NPU_PE_COLS - 1) / NPU_PE_COLS)) with 2.
    change (u32 (u32 (32 + NPU_PE_ROWS - 1) / NPU_PE_ROWS)) with 2.
    unroll_loops. unfold conv_oc_body, conv_ic_loop. unroll_loops.
    rewrite Hin, Hout.
    change (Z.pos (Pos.of_succ_nat 0)) with 1.
    change (u32 (2 - 1)) with 1.
    change (0 <? 1) with true; change (1 <? 1) with false.
    change (0 =? 1) with false; change (1 =? 1) with true. cbv iota.
    change (u32 (0 * NPU_PE_COLS)) with 0.
    change (u32 (1 * NPU_PE_COLS)) with 16.
    change (u32 (0 + NPU_PE_COLS)) with 16.
    change (u32 (16 + NPU_PE_COLS)) with 32.
    change (16 >? 32) with false; change (32 >? 32) with false. cbv iota.
    change (u32 (16 - 0)) with 16; change (u32 (32 - 16)) with 16.
    subst kh kw oh ow fl. unfold emit_all. cbv [fold_left]. reflexivity. }
  rewrite Hseq.
  split; [| split].
  - rewrite emitted_emit_all. reflexivity.
  - rewrite emitted_emit_all. cbn [emitted emit_init stores app map snd].
    rewrite !opcode_DMA_LOAD_W, !opcode_LOAD_WEIGHT, !opcode_DRAIN.
    rewrite !opcode_COMPUTE
      by (try apply activation_flags_u8; unfold is_u8; lia).
    rewrite opcode_CLEAR_ACC, opcode_WAIT_DMA, opcode_HALT. reflexivity.
  - match goal with
    | |- context [emit_all ?l emit_init] =>
        destruct (store_indices_emit_all l emit_init) as [Hi Hs]
    end; [cbn; lia | cbn; lia |].
    rewrite Hi, Hs. split; reflexivity.
Qed.

Lemma conv_32x32_sequence_witness :
  dim_c (input conv_32x32_relu) = 32 /\
  dim_c (output conv_32x32_relu) = 32 /\
  inst_idx (conv_build conv_32x32_relu) = 17.
Proof.
  split; [reflexivity | split; [reflexivity |]].
  exact (proj1 (proj2 (proj2
           (conv_32x32_sequence conv_32x32_relu eq_refl eq_refl)))).
Defined.

(** *** Loops that only store instructions *)

Lemma for_loop_nat_emit_all (n : nat) (body : Z -> emit_state -> emit_state)
  (f : nat -> list Z) (s : emit_state) :
  (forall i s', (i < n)%nat -> body (Z.of_nat i) s' = emit_all (f i) s') ->
  for_loop (Z.of_nat n) body s = emit_all (flat_map f (seq 0 n)) s.
Proof.
  induction n as [| n IH]; intros Hbody.
  - reflexivity.
  - rewrite for_loop_succ, IH by (intros; apply Hbody; lia).
    rewrite Hbody by lia.
    rewrite seq_S, flat_map_app, emit_all_app. cbn [flat_map Nat.add].
    rewrite app_nil_r. reflexivity.
Qed.

Lemma conv_tiles_range (x : Z) :
  0 <= u32 (u32 x / 16) < 2 ^ 28 + 1.
Proof.
  assert (H : 0 <= u32 x < 2 ^ 32) by (apply Z.mod_pos_bound; lia).
  assert (Hd : 0 <= u32 x / 16 < 2 ^ 28).
  { split; [apply Z.div_pos; lia |].
    apply Z.div_lt_upper_bound; lia. }
  rewrite (u32_small (u32 x / 16)) by lia. lia.
Qed.

Lemma conv_ic_tiles_range (layer : layer_desc_t) :
  0 <= conv_ic_tiles layer < 2 ^ 28 + 1.
Proof. apply conv_tiles_range. Qed.

Lemma conv_oc_tiles_range (layer : layer_desc_t) :
  0 <= conv_oc_tiles layer < 2 ^ 28 + 1.
Proof. apply conv_tiles_range. Qed.

Lemma conv_ic_loop_spec (layer : layer_desc_t) (n : nat) (oc_count : Z)
  (s : emit_state) :
  Z.of_nat n < 2 ^ 32 ->
  conv_ic_loop layer (Z.of_nat n) oc_count s
  = emit_all (tile_pairs (get_activation_flags (activation layer)) n oc_count) s.
Proof.
  intros Hn. unfold conv_ic_loop, tile_pairs.
  apply for_loop_nat_emit_all. intros i s' Hi.
  rewrite (u32_small (Z.of_nat n - 1)) by lia.
  replace (Z.of_nat i =? Z.of_nat n - 1) with (Nat.eqb (S i) n).
  - reflexivity.
  - destruct (Nat.eqb_spec (S i) n) as [He | Hne]; symmetry.
    + apply Z.eqb_eq. lia.
    + apply Z.eqb_neq. lia.
Qed.

Lemma conv_oc_body_spec (layer : layer_desc_t) (n k oc_t : nat)
  (s : emit_state) :
  Z.of_nat n < 2 ^ 32 -> Z.of_nat k < 2 ^ 32 -> (oc_t < n)%nat ->
  conv_oc_body layer (Z.of_nat n) (Z.of_nat k) (Z.of_nat oc_t) s
  = emit_all (tile_block layer (get_activation_flags (activation layer)) n k oc_t) s.
Proof.
  intros Hn Hk Ht. unfold conv_oc_body, tile_block, tile_oc_count.
  cbv zeta.
  rewrite conv_ic_loop_spec by exact Hk.
  rewrite (u32_small (Z.of_nat n - 1)) by lia.
  replace (Z.of_nat oc_t <? Z.of_nat n - 1) with (Nat.ltb (S oc_t) n).
  - rewrite !emit_all_app.
    destruct (Nat.ltb (S oc_t) n); reflexivity.
  - destruct (Nat.ltb_spec (S oc_t) n) as [Hl | Hg]; symmetry.
    + apply Z.ltb_lt. lia.
    + apply Z.ltb_ge. lia.
Qed.

(** The sequence [npu_rt_exec_conv] builds is, for every descriptor, the
    tiled sequence of the specification. *)
Lemma conv_build_spec (layer : layer_desc_t) :
  emitted (conv_build layer)
  = conv_sequence_spec layer (get_activation_flags (activation layer))
      (Z.to_nat (conv_oc_tiles layer)) (Z.to_nat (conv_ic_tiles layer)).
Proof.
  pose proof (conv_oc_tiles_range layer) as Ho.
  pose proof (conv_ic_tiles_range layer) as Hi.
  unfold conv_build, conv_sequence_spec.
  set (n := Z.to_nat (conv_oc_tiles layer)).
  set (k := Z.to_nat (conv_ic_tiles layer)).
  replace (conv_oc_tiles layer) with (Z.of_nat n) by (subst n; lia).
  replace (conv_ic_tiles layer) with (Z.of_nat k) by (subst k; lia).
  rewrite (for_loop_nat_emit_all n _
             (tile_block layer (get_activation_flags (activation layer)) n k)).
  - change (emit INST_HALT ?s) with (emit_all [INST_HALT] s).
    change (emit INST_CLEAR_ACC emit_init)
      with (emit_all [INST_CLEAR_ACC] emit_init).
    rewrite <- !emit_all_app, emitted_emit_all. reflexivity.
  - intros i s' Hlt. apply conv_oc_body_spec; subst n k; lia.
Qed.




Section ComputeFilter.












End ComputeFilter.

(** *** Size of the sequence and the 256-entry buffer *)

Lemma conv_build_emit_all (layer : layer_desc_t) :
  conv_build layer
  = emit_all (conv_sequence_spec layer
                (get_activation_flags (activation layer))
                (Z.to_nat (conv_oc_tiles layer))
                (Z.to_nat (conv_ic_tiles layer)))
             emit_init.
Proof.
  pose proof (conv_oc_tiles_range layer) as Ho.
  pose proof (conv_ic_tiles_range layer) as Hi.
  unfold conv_build, conv_sequence_spec.
  set (n := Z.to_nat (conv_oc_tiles layer)).
  set (k := Z.to_nat (conv_ic_tiles layer)).
  replace (conv_oc_tiles layer) with (Z.of_nat n) by (subst n; lia).
  replace (conv_ic_tiles layer) with (Z.of_nat k) by (subst k; lia).
  rewrite (for_loop_nat_emit_all n _
             (tile_block layer (get_activation_flags (activation layer)) n k)).
  - change (emit INST_HALT ?s) with (emit_all [INST_HALT] s).
    change (emit INST_CLEAR_ACC emit_init)
      with (emit_all [INST_CLEAR_ACC] emit_init).
    rewrite <- !emit_all_app. reflexivity.
  - intros i s' Hlt. apply conv_oc_body_spec; subst n k; lia.
Qed.

Lemma flat_map_const_length {A B : Type} (f : A -> list B) (c : nat)
  (l : list A) :
  (forall x, length (f x) = c) -> length (flat_map f l) = (c * length l)%nat.
Proof.
  intros Hc. induction l as [| x l IH]; cbn [flat_map length]; [lia |].
  rewrite length_app, Hc, IH. lia.
Qed.

Lemma tile_pairs_length (fl : Z) (k : nat) (oc_count : Z) :
  length (tile_pairs fl k oc_count) = (2 * k)%nat.
Proof.
  unfold tile_pairs.
  rewrite (flat_map_const_length _ 2%nat) by reflexivity.
  rewrite length_seq. reflexivity.
Qed.

Lemma tile_block_length (layer : layer_desc_t) (fl : Z) (n k t : nat) :
  length (tile_block layer fl n k t)
  = (3 + 2 * k + (if Nat.ltb (S t) n then 1 else 0))%nat.
Proof.
  unfold tile_block. cbv zeta.
  rewrite !length_app, tile_pairs_length.
  destruct (Nat.ltb (S t) n); cbn [length]; lia.
Qed.

Lemma tile_blocks_length (layer : layer_desc_t) (fl : Z) (n k m : nat) :
  (m <= n)%nat ->
  length (flat_map (tile_block layer fl n k) (seq 0 m))
  = (m * (3 + 2 * k) + Nat.min m (n - 1))%nat.
Proof.
  induction m as [| m IH]; intros Hm; [reflexivity |].
  rewrite seq_S, flat_map_app, length_app, IH by lia.
  cbn [flat_map Nat.add]. rewrite app_nil_r, tile_block_length.
  destruct (Nat.ltb_spec (S m) n); lia.
Qed.

(** Number of instructions of the tiled sequence:
    [2 + oc_tiles * (3 + 2 * ic_tiles) + (oc_tiles - 1)]. *)
Lemma conv_sequence_length (layer : layer_desc_t) (fl : Z) (n k : nat) :
  length (conv_sequence_spec layer fl n k)
  = (2 + n * (3 + 2 * k) + (n - 1))%nat.
Proof.
  unfold conv_sequence_spec.
  rewrite !length_app, tile_blocks_length by lia.
  cbn [length]. lia.
Qed.

Lemma conv_build_count (layer : layer_desc_t) :
  Z.of_nat (length (stores (conv_build layer))) = conv_inst_count layer.
Proof.
  pose proof (conv_oc_tiles_range layer) as Ho.
  pose proof (conv_ic_tiles_range layer) as Hi.
  replace (length (stores (conv_build layer)))
    with (length (emitted (conv_build layer)))
    by (unfold emitted; apply length_map).
  rewrite conv_build_spec, conv_sequence_length. unfold conv_inst_count.
  cbv zeta. lia.
Qed.

Lemma u16_tiles_le (c : Z) :
  is_u16 c -> 0 <= u32 (u32 (c + 16 - 1) / 16) <= 4096.
Proof.
  unfold is_u16. intros Hc.
  rewrite (u32_small (c + 16 - 1)) by lia.
  assert (0 <= (c + 16 - 1) / 16 <= 4096).
  { split; [apply Z.div_pos; lia |].
    apply Z.lt_succ_r, Z.div_lt_upper_bound; lia. }
  rewrite u32_small; lia.
Qed.

(** For 16-bit channel counts the stores go to slots [0], [1], ... in
    order, so the buffer is overrun exactly when more than 256
    instructions are built. *)
Lemma conv_in_bounds_iff (layer : layer_desc_t) :
  is_u16 (dim_c (input layer)) -> is_u16 (dim_c (output layer)) ->
  stores_in_bounds CONV_INST_BUF_LEN (conv_build layer) = true
  <-> conv_inst_count layer <= CONV_INST_BUF_LEN.
Proof.
  intros Hi Ho.
  pose proof (conv_build_count layer) as Hcount.
  pose proof (u16_tiles_le _ Hi) as Hk. pose proof (u16_tiles_le _ Ho) as Hn.
  fold NPU_PE_ROWS in Hk. fold NPU_PE_COLS in Hn.
  change (0 <= conv_ic_tiles layer <= 4096) in Hk.
  change (0 <= conv_oc_tiles layer <= 4096) in Hn.
  assert (Hsmall : conv_inst_count layer < 2 ^ 32).
  { unfold conv_inst_count. cbv zeta. nia. }
  revert Hcount Hsmall. generalize (conv_inst_count layer) as cnt.
  rewrite conv_build_emit_all.
  match goal with |- context [emit_all ?l emit_init] => generalize l end.
  intros l cnt Hcount Hsmall.
  assert (Hlen : length (stores (emit_all l emit_init)) = length l).
  { rewrite <- (length_map snd). fold (emitted (emit_all l emit_init)).
    rewrite emitted_emit_all. reflexivity. }
  rewrite Hlen in Hcount.
  destruct (store_indices_emit_all l emit_init) as [Hidx Hfst];
    [cbn; lia | cbn [inst_idx emit_init]; lia |].
  unfold stores_in_bounds. rewrite forallb_forall.
  unfold CONV_INST_BUF_LEN. split.
  - intros Hall. destruct (Z.le_gt_cases cnt 256) as [Hle | Hgt]; [exact Hle |].
    exfalso.
    assert (Hin : In 256 (map fst (stores (emit_all l emit_init)))).
    { rewrite Hfst. cbn [emit_init stores map app inst_idx].
      apply in_map_iff. exists 256%nat. split; [reflexivity |].
      apply in_seq. lia. }
    apply in_map_iff in Hin. destruct Hin as [p [Hp Hin]].
    specialize (Hall p Hin). rewrite Hp in Hall.
    apply andb_true_iff in Hall. destruct Hall as [_ Hlt].
    apply Z.ltb_lt in Hlt. lia.
  - intros Hle p Hin.
    assert (Hf : In (fst p) (map fst (stores (emit_all l emit_init))))
      by (apply in_map, Hin).
    rewrite Hfst in Hf. cbn [emit_init stores map app inst_idx] in Hf.
    apply in_map_iff in Hf. destruct Hf as [k [Hk' Hin']].
    apply in_seq in Hin'. apply andb_true_iff. split.
    + apply Z.leb_le. lia.
    + apply Z.ltb_lt. lia.
Qed.

Lemma conv_layer_wf (ty : layer_type_t) (act : activation_type_t)
  (ic ih iw oc oh ow : Z) :
  is_u16 ic -> is_u16 ih -> is_u16 iw ->
  is_u16 oc -> is_u16 oh -> is_u16 ow ->
  layer_wf (conv_layer ty act ic ih iw oc oh ow).
Proof.
  intros. unfold layer_wf, tensor_wf, conv_layer. cbn.
  unfold is_u8, is_u16, is_u32, is_i8, is_i32 in *.
  repeat split; try assumption; lia.
Qed.

(** A sequence of at most 256 instructions is stored inside the
    array. *)
Lemma conv_count_in_bounds (layer : layer_desc_t) :
  conv_inst_count layer <= CONV_INST_BUF_LEN ->
  stores_in_bounds CONV_INST_BUF_LEN (conv_build layer) = true.
Proof.
  intros Hle. pose proof (conv_build_count layer) as Hcount.
  revert Hcount Hle. generalize (conv_inst_count layer) as cnt.
  rewrite conv_build_emit_all.
  match goal with |- context [emit_all ?l emit_init] => generalize l end.
  intros l cnt Hcount Hle. unfold CONV_INST_BUF_LEN in *.
  assert (Hlen : length (stores (emit_all l emit_init)) = length l).
  { rewrite <- (length_map snd). fold (emitted (emit_all l emit_init)).
    rewrite emitted_emit_all. reflexivity. }
  rewrite Hlen in Hcount.
  destruct (store_indices_emit_all l emit_init) as [_ Hfst];
    [cbn; lia | cbn [inst_idx emit_init]; lia |].
  unfold stores_in_bounds. apply forallb_forall. intros p Hin.
  assert (Hf : In (fst p) (map fst (stores (emit_all l emit_init))))
    by (apply in_map, Hin).
  rewrite Hfst in Hf. cbn [emit_init stores map app inst_idx] in Hf.
  apply in_map_iff in Hf. destruct Hf as [k [Hk Hin']].
  apply in_seq in Hin'. apply andb_true_iff. split.
  - apply Z.leb_le. lia.
  - apply Z.ltb_lt. lia.
Qed.




(** C4 (the code at the failing input).  For the well-formed 256-to-256
    channel convolution, [npu_rt_exec_conv] stores 577 instructions into
    its 256-entry buffer: slot 256 and the slots after it are written,
    nothing detects it, and the call goes on to load and run the
    sequence and reports [FW_OK]. *)
Theorem conv_256x256_overruns_buffer :
  layer_wf conv_256x256 /\
  inst_idx (conv_build conv_256x256) = 577 /\
  stores_in_bounds CONV_INST_BUF_LEN (conv_build conv_256x256) = false /\
  nth 256 (map fst (stores (conv_build conv_256x256))) 0 = 256 /\
  option_map fst
    (npu_rt_exec_conv 1 (Some conv_256x256)
       (initialized_machine STATUS_DONE))
  = Some FW_OK.
Proof.
  split.
  { apply conv_layer_wf; unfold is_u16; lia. }
  split_all; now vm_compute.
Qed.

(** ** Loading while the accelerator runs *)

Section DriverLoads.

Variable m : Drv.machine.
Hypothesis Hrun : Drv.state (Drv.ctx_obj m) = Drv.NPU_STATE_RUNNING.

Lemma drv_load_instructions_running (buf : host_buf) (n : Z) :
  n <> 0 ->
  Drv.npu_load_instructions (Some tt) (Some buf) n m
  = Some (Drv.NPU_ERROR_BUSY, m).
Proof.
  intros Hn. unfold Drv.npu_load_instructions.
  apply Z.eqb_neq in Hn. rewrite Hn.
  unfold Drv.bind, Drv.gets. rewrite Hrun. reflexivity.
Qed.

Lemma drv_load_weights_running (buf : host_buf) (n : Z) :
  n <> 0 ->
  Drv.npu_load_weights (Some tt) (Some buf) n m
  = Some (Drv.NPU_ERROR_BUSY, m).
Proof.
  intros Hn. unfold Drv.npu_load_weights.
  apply Z.eqb_neq in Hn. rewrite Hn.
  unfold Drv.bind, Drv.gets. rewrite Hrun. reflexivity.
Qed.

Lemma drv_load_input_running (buf : host_buf) (n : Z) :
  n <> 0 ->
  Drv.npu_load_input (Some tt) (Some buf) n m
  = Some (Drv.NPU_ERROR_BUSY, m).
Proof.
  intros Hn. unfold Drv.npu_load_input.
  apply Z.eqb_neq in Hn. rewrite Hn.
  unfold Drv.bind, Drv.gets. rewrite Hrun. reflexivity.
Qed.

End DriverLoads.

(** Null buffer or zero size: the parameter check comes first, in any
    state. *)
Lemma drv_load_invalid_param (m : Drv.machine) (data : host_ptr) (n : Z) :
  data = None \/ n = 0 ->
  Drv.npu_load_instructions (Some tt) data n m
    = Some (Drv.NPU_ERROR_INVALID_PARAM, m) /\
  Drv.npu_load_weights (Some tt) data n m
    = Some (Drv.NPU_ERROR_INVALID_PARAM, m) /\
  Drv.npu_load_input (Some tt) data n m
    = Some (Drv.NPU_ERROR_INVALID_PARAM, m).
Proof.
  intros [-> | ->]; [repeat split; reflexivity |].
  destruct data; repeat split; reflexivity.
Qed.

(** C5 (amended).  In the host driver, for every context in state
    Running, each of [npu_load_instructions], [npu_load_weights] and
    [npu_load_input], given a non-null buffer and a non-zero count or
    size, fails with [NPU_ERROR_BUSY] and leaves the context and the
    device untouched: no buffer copy and no register write.  Given a
    null buffer or a zero size they fail with
    [NPU_ERROR_INVALID_PARAM], also without touching anything. *)
Theorem driver_load_while_running (m : Drv.machine) :
  Drv.state (Drv.ctx_obj m) = Drv.NPU_STATE_RUNNING ->
  (forall (buf : host_buf) (n : Z), n <> 0 ->
     Drv.npu_load_instructions (Some tt) (Some buf) n m
       = Some (Drv.NPU_ERROR_BUSY, m) /\
     Drv.npu_load_weights (Some tt) (Some buf) n m
       = Some (Drv.NPU_ERROR_BUSY, m) /\
     Drv.npu_load_input (Some tt) (Some buf) n m
       = Some (Drv.NPU_ERROR_BUSY, m)) /\
  (forall (data : host_ptr) (n : Z), data = None \/ n = 0 ->
     Drv.npu_load_instructions (Some tt) data n m
       = Some (Drv.NPU_ERROR_INVALID_PARAM, m) /\
     Drv.npu_load_weights (Some tt) data n m
       = Some (Drv.NPU_ERROR_INVALID_PARAM, m) /\
     Drv.npu_load_input (Some tt) data n m
       = Some (Drv.NPU_ERROR_INVALID_PARAM, m)).
Proof.
  intros Hrun. split.
  - intros buf n Hn. repeat split.
    + apply drv_load_instructions_running; assumption.
    + apply drv_load_weights_running; assumption.
    + apply drv_load_input_running; assumption.
  - intros data n Hbad. apply drv_load_invalid_param, Hbad.
Qed.

Lemma driver_load_while_running_witness :
  Drv.state (Drv.ctx_obj (Drv.running_machine))
    = Drv.NPU_STATE_RUNNING /\
  Drv.npu_load_instructions (Some tt) (Some (buf_of_list 0 [INST_HALT])) 1
      (Drv.running_machine)
  = Some (Drv.NPU_ERROR_BUSY, Drv.running_machine).
Proof.
  split; [reflexivity |].
  refine (proj1 (proj1 (driver_load_while_running
                          (Drv.running_machine)
                          eq_refl)
                       (buf_of_list 0 [INST_HALT]) 1 _)).
  discriminate.
Defined.

(** C5 as stated fails on both implementations.  In the driver a zero
    count in state Running is answered with [NPU_ERROR_INVALID_PARAM],
    not Busy.  In the firmware the loaders never look at the execution
    state: in state Running [npu_rt_load_instructions] copies the
    instruction and writes the two buffer registers. *)
Lemma load_while_running_counterexample :
  (Drv.state (Drv.ctx_obj Drv.running_machine)
     = Drv.NPU_STATE_RUNNING /\
   option_map fst
     (Drv.npu_load_instructions (Some tt) (Some (buf_of_list 0 [INST_HALT])) 0
        Drv.running_machine)
   = Some Drv.NPU_ERROR_INVALID_PARAM) /\
  (g_initialized (running_machine 0) = true /\
   state (g_ctx (running_machine 0)) = NPU_STATE_RUNNING /\
   option_map fst
     (npu_rt_load_instructions (Some (buf_of_list 0 [INST_HALT])) 1
        (running_machine 0))
   = Some FW_OK /\
   option_map (fun r => dev_log (dev (snd r)))
     (npu_rt_load_instructions (Some (buf_of_list 0 [INST_HALT])) 1
        (running_machine 0))
   = Some ([ EvRegWrite REG_INST_PTR 0;
             EvRegWrite REG_INST_SIZE 1;
             EvStore64 NPU_INST_BUF_BASE INST_HALT ]
           ++ dev_log (dev (running_machine 0)))).
Proof.
  split_all; now vm_compute.
Qed.

(** ** Oversized instruction arrays *)

Lemma fw_load_instructions_overflow (m : machine) (buf : host_buf) (count : Z) :
  g_initialized m = true -> count > NPU_INST_BUF_ENTRIES ->
  npu_rt_load_instructions (Some buf) count m = Some (FW_ERROR_OVERFLOW, m).
Proof.
  intros Hinit Hgt. unfold npu_rt_load_instructions, bind, gets.
  rewrite Hinit. cbn [negb].
  assert (H0 : (count =? 0) = false)
    by (apply Z.eqb_neq; unfold NPU_INST_BUF_ENTRIES in Hgt; lia).
  assert (H1 : (count >? NPU_INST_BUF_ENTRIES) = true)
    by (apply Z.gtb_lt; lia).
  rewrite H0, H1. reflexivity.
Qed.

Lemma drv_load_instructions_oversize (m : Drv.machine) (buf : host_buf) (n : Z) :
  0 < n -> n * 8 < 2 ^ 32 ->
  n * 8 > Drv.inst_buf_size (Drv.config (Drv.ctx_obj m)) ->
  Drv.npu_load_instructions (Some tt) (Some buf) n m
  = Some (if Drv.is_running (Drv.state (Drv.ctx_obj m))
          then Drv.NPU_ERROR_BUSY else Drv.NPU_ERROR_NO_MEMORY, m).
Proof.
  intros Hpos Hfit Hgt. unfold Drv.npu_load_instructions.
  assert (H0 : (n =? 0) = false) by (apply Z.eqb_neq; lia).
  rewrite H0. unfold Drv.bind, Drv.gets.
  destruct (Drv.is_running (Drv.state (Drv.ctx_obj m))); [reflexivity |].
  rewrite (u32_small (n * 8)) by lia.
  assert (H1 : (n * 8 >? Drv.inst_buf_size (Drv.config (Drv.ctx_obj m))) = true)
    by (apply Z.gtb_lt; lia).
  rewrite H1. reflexivity.
Qed.

(** C6 (amended).  An instruction array with more entries than the
    buffer holds is refused before anything is copied or written, so the
    device (its registers and buffers) and the context, instruction
    count included, stay as they were.  The firmware compares the count
    with the hardware constant [NPU_INST_BUF_ENTRIES] and answers
    [FW_ERROR_OVERFLOW]; the driver compares the byte size [8 * count]
    (for counts whose byte size fits 32 bits) with the configured
    [inst_buf_size] and answers [NPU_ERROR_NO_MEMORY], unless the context
    is Running, where the answer is [NPU_ERROR_BUSY]. *)
Theorem load_instructions_oversize_rejected (buf : host_buf) (count : Z) :
  (forall m : machine,
     g_initialized m = true -> count > NPU_INST_BUF_ENTRIES ->
     npu_rt_load_instructions (Some buf) count m
       = Some (FW_ERROR_OVERFLOW, m)) /\
  (forall m : Drv.machine,
     0 < count -> count * 8 < 2 ^ 32 ->
     count * 8 > Drv.inst_buf_size (Drv.config (Drv.ctx_obj m)) ->
     Drv.npu_load_instructions (Some tt) (Some buf) count m
       = Some (if Drv.is_running (Drv.state (Drv.ctx_obj m))
               then Drv.NPU_ERROR_BUSY else Drv.NPU_ERROR_NO_MEMORY, m)).
Proof.
  split.
  - intros m. apply fw_load_instructions_overflow.
  - intros m. apply drv_load_instructions_oversize.
Qed.

Lemma load_instructions_oversize_rejected_witness :
  (g_initialized (initialized_machine 0) = true /\
   1025 > NPU_INST_BUF_ENTRIES /\
   npu_rt_load_instructions (Some (buf_of_list 0 [INST_HALT])) 1025
     (initialized_machine 0)
   = Some (FW_ERROR_OVERFLOW, initialized_machine 0)) /\
  (0 < 1025 /\ 1025 * 8 < 2 ^ 32 /\
   1025 * 8 > Drv.inst_buf_size
                (Drv.config (Drv.ctx_obj (Drv.initialized_machine 0))) /\
   Drv.npu_load_instructions (Some tt) (Some (buf_of_list 0 [INST_HALT])) 1025
     (Drv.initialized_machine 0)
   = Some (Drv.NPU_ERROR_NO_MEMORY, Drv.initialized_machine 0)).
Proof.
  assert (Hgt : 1025 > NPU_INST_BUF_ENTRIES) by reflexivity.
  assert (Hpos : 0 < 1025) by reflexivity.
  assert (Hfit : 1025 * 8 < 2 ^ 32) by reflexivity.
  assert (Hbig : 1025 * 8 > Drv.inst_buf_size
            (Drv.config (Drv.ctx_obj (Drv.initialized_machine 0))))
    by reflexivity.
  split.
  - split; [reflexivity | split; [exact Hgt |]].
    exact (proj1 (load_instructions_oversize_rejected
                    (buf_of_list 0 [INST_HALT]) 1025)
                 (initialized_machine 0) eq_refl Hgt).
  - split; [exact Hpos | split; [exact Hfit | split; [exact Hbig |]]].
    exact (proj2 (load_instructions_oversize_rejected
                    (buf_of_list 0 [INST_HALT]) 1025)
                 (Drv.initialized_machine 0) Hpos Hfit Hbig).
Defined.

(** C6 as stated fails in the driver: a Running context answers an
    oversized array (1025 instructions, 8200 bytes, for the 8192-byte
    buffer) with [NPU_ERROR_BUSY], not with the out-of-memory error. *)
Lemma load_oversize_counterexample :
  Drv.state (Drv.ctx_obj Drv.running_machine) = Drv.NPU_STATE_RUNNING /\
  1025 * 8 > Drv.inst_buf_size (Drv.config (Drv.ctx_obj Drv.running_machine)) /\
  Drv.npu_load_instructions (Some tt)
    (Some (buf_of_list 0 [INST_CLEAR_ACC; INST_HALT])) 1025
    Drv.running_machine
  = Some (Drv.NPU_ERROR_BUSY, Drv.running_machine) /\
  Drv.NPU_ERROR_BUSY <> Drv.NPU_ERROR_NO_MEMORY.
Proof.
  assert (Hrun : Drv.state (Drv.ctx_obj Drv.running_machine)
                 = Drv.NPU_STATE_RUNNING) by now vm_compute.
  split; [exact Hrun |]. split; [now vm_compute |].
  split; [| discriminate].
  apply drv_load_instructions_running; [exact Hrun | discriminate].
Qed.

(** The driver's size check works on the 32-bit byte size: for
    536870913 instructions the byte size wraps to 8 and the array is
    accepted for the 8192-byte buffer. *)
Lemma drv_load_size_wraps :
  536870913 * 8 > Drv.inst_buf_size (Drv.config (Drv.ctx_obj (Drv.initialized_machine 0))) /\
  u32 (536870913 * 8) = 8 /\
  option_map fst
    (Drv.npu_load_instructions (Some tt) (Some (buf_of_list 0 [INST_HALT]))
       536870913 (Drv.initialized_machine 0))
  = Some Drv.NPU_OK.
Proof.
  split; [now vm_compute |]. split; [now vm_compute |].
  unfold Drv.npu_load_instructions.
  change (536870913 =? 0) with false. cbv iota.
  unfold Drv.bind at 1. unfold Drv.gets at 1.
  replace (Drv.is_running (Drv.state (Drv.ctx_obj (Drv.initialized_machine 0))))
    with false by now vm_compute.
  replace (u32 (536870913 * 8) >?
           Drv.inst_buf_size (Drv.config (Drv.ctx_obj (Drv.initialized_machine 0))))
    with false by now vm_compute.
  reflexivity.
Qed.

(** ** Waiting for completion *)

Section FirmwareWait.

Variables mask expected timeout_us : Z.

Lemma status_at_advance (m : machine) (k j : nat) :
  status_at (advance k m) j = status_at m (k + j).
Proof.
  unfold status_at, advance. destruct m as [c cfg i d fl]. destruct d.
  cbn. rewrite Nat.add_assoc. reflexivity.
Qed.

Lemma advance_zero (m : machine) : advance 0 m = m.
Proof.
  unfold advance, with_dev. destruct m as [c cfg i d fl]. destruct d.
  cbn. rewrite Nat.add_0_r, Z.add_0_r. reflexivity.
Qed.

Lemma advance_succ (m : machine) (k : nat) :
  advance (S k) m = advance k (advance 1 m).
Proof.
  unfold advance, with_dev. destruct m as [c cfg i d fl]. destruct d.
  cbn [dev dev_log dev_reads dev_clock_us dev_oracle
       g_ctx g_config g_initialized fdiv_log].
  f_equal. f_equal; unfold poll_interval; lia.
Qed.

(** One iteration that finds the status pending. *)
Lemma wait_status_loop_pending (fuel : nat) (elapsed : Z) (m : machine) :
  elapsed < timeout_us \/ timeout_us = 0 ->
  poll_pending mask expected (status_at m 0) ->
  wait_status_loop (S fuel) mask expected timeout_us elapsed m
  = wait_status_loop fuel mask expected timeout_us
      (u32 (elapsed + poll_interval)) (advance 1 m).
Proof.
  intros Hcont [Hexp Herr].
  assert (Hc : ((elapsed <? timeout_us) || (timeout_us =? 0)) = true).
  { apply orb_true_iff. destruct Hcont as [H | H];
      [left; apply Z.ltb_lt, H | right; apply Z.eqb_eq, H]. }
  cbn [wait_status_loop]. rewrite Hc.
  unfold bind at 1. unfold REG_READ at 1.
  unfold status_at in Hexp, Herr. rewrite Nat.add_0_r in Hexp, Herr.
  cbn [dev_read32]. rewrite Hexp, Herr. cbn [negb].
  unfold bind at 1. unfold delay_us, modify.
  f_equal. unfold advance, with_dev, dev_delay_us.
  destruct m as [c cfg i d fl]. destruct d.
  cbn. f_equal. f_equal; unfold poll_interval; lia.
Qed.

(** [k] pending polls in a row, while the loop condition holds. *)
Lemma wait_status_loop_pending_prefix (k fuel : nat) (m : machine) :
  (forall j, (j < k)%nat -> poll_pending mask expected (status_at m j)) ->
  (timeout_us = 0 \/ poll_interval * (Z.of_nat k - 1) < timeout_us) ->
  poll_interval * Z.of_nat k < 2 ^ 32 ->
  wait_status_loop (k + fuel) mask expected timeout_us 0 m
  = wait_status_loop fuel mask expected timeout_us
      (poll_interval * Z.of_nat k) (advance k m).
Proof.
  intros Hpend Hcont Hsmall.
  assert (Hgen : forall k' (m' : machine) (e : Z),
    (k' <= k)%nat -> e = poll_interval * Z.of_nat (k - k') ->
    (forall j, (j < k')%nat -> poll_pending mask expected (status_at m' j)) ->
    wait_status_loop (k' + fuel) mask expected timeout_us e m'
    = wait_status_loop fuel mask expected timeout_us
        (e + poll_interval * Z.of_nat k') (advance k' m')).
  { induction k' as [| k' IH]; intros m' e Hle He Hp.
    - cbn [Nat.add]. rewrite advance_zero. f_equal. lia.
    - cbn [Nat.add]. rewrite wait_status_loop_pending.
      + rewrite u32_small by (unfold poll_interval in *; lia).
        rewrite IH.
        * rewrite <- advance_succ. f_equal. unfold poll_interval. lia.
        * lia.
        * unfold poll_interval in *. lia.
        * intros j Hj. rewrite status_at_advance. apply Hp. lia.
      + destruct Hcont as [H0 | Hlt]; [right; exact H0 | left].
        unfold poll_interval in *. lia.
      + apply Hp. lia. }
  rewrite (Hgen k m 0); [f_equal; lia | lia | | exact Hpend].
  rewrite Nat.sub_diag. lia.
Qed.

Lemma wait_status_loop_match (fuel : nat) (elapsed : Z) (m : machine) :
  elapsed < timeout_us \/ timeout_us = 0 ->
  (Z.land (status_at m 0) mask =? expected) = true ->
  wait_status_loop (S fuel) mask expected timeout_us elapsed m
  = Some (FW_OK, after_poll m).
Proof.
  intros Hcont Hexp.
  assert (Hc : ((elapsed <? timeout_us) || (timeout_us =? 0)) = true).
  { apply orb_true_iff. destruct Hcont as [H | H];
      [left; apply Z.ltb_lt, H | right; apply Z.eqb_eq, H]. }
  cbn [wait_status_loop]. rewrite Hc.
  unfold bind at 1. unfold REG_READ at 1.
  unfold status_at in Hexp. rewrite Nat.add_0_r in Hexp.
  cbn [dev_read32]. rewrite Hexp. reflexivity.
Qed.

Lemma wait_status_loop_fault (fuel : nat) (elapsed : Z) (m : machine) :
  elapsed < timeout_us \/ timeout_us = 0 ->
  (Z.land (status_at m 0) mask =? expected) = false ->
  (Z.land (status_at m 0) STATUS_ERROR =? 0) = false ->
  wait_status_loop (S fuel) mask expected timeout_us elapsed m
  = Some (FW_ERROR_HW_FAULT,
          with_ctx (set_state NPU_STATE_ERROR)
            (with_ctx (set_last_error FW_ERROR_HW_FAULT) (after_poll m))).
Proof.
  intros Hcont Hexp Herr.
  assert (Hc : ((elapsed <? timeout_us) || (timeout_us =? 0)) = true).
  { apply orb_true_iff. destruct Hcont as [H | H];
      [left; apply Z.ltb_lt, H | right; apply Z.eqb_eq, H]. }
  cbn [wait_status_loop]. rewrite Hc.
  unfold bind at 1. unfold REG_READ at 1.
  unfold status_at in Hexp, Herr. rewrite Nat.add_0_r in Hexp, Herr.
  cbn [dev_read32]. rewrite Hexp, Herr. reflexivity.
Qed.

Lemma wait_status_loop_expired (fuel : nat) (elapsed : Z) (m : machine) :
  timeout_us <= elapsed -> timeout_us <> 0 ->
  wait_status_loop (S fuel) mask expected timeout_us elapsed m
  = Some (FW_ERROR_TIMEOUT, m).
Proof.
  intros Hge Hnz.
  assert (Hc : ((elapsed <? timeout_us) || (timeout_us =? 0)) = false).
  { apply orb_false_iff. split; [apply Z.ltb_ge, Hge | apply Z.eqb_neq, Hnz]. }
  cbn [wait_status_loop]. rewrite Hc. reflexivity.
Qed.

End FirmwareWait.

(** With a zero timeout the loop has no timeout exit. *)
Lemma wait_status_loop_zero_never_timeout (fuel : nat)
  (mask expected elapsed : Z) (m m' : machine) :
  wait_status_loop fuel mask expected 0 elapsed m
  <> Some (FW_ERROR_TIMEOUT, m').
Proof.
  revert elapsed m. induction fuel as [| fuel IH]; intros elapsed m.
  - discriminate.
  - cbn [wait_status_loop].
    replace ((elapsed <? 0) || (0 =? 0)) with true by (symmetry; apply orb_true_r).
    unfold bind at 1. unfold REG_READ at 1. cbn [dev_read32].
    destruct (Z.land _ mask =? expected); [discriminate |].
    destruct (Z.land _ STATUS_ERROR =? 0); cbn [negb]; [| discriminate].
    unfold bind at 1. unfold delay_us, modify. apply IH.
Qed.

(** The elapsed time is a 32-bit counter stepping by 10: it only takes
    even values, so against a timeout of [2^32 - 1] it wraps around
    without ever reaching the timeout, and a wait that sees nothing but
    pending polls never returns. *)
Lemma wait_status_loop_max_timeout (fuel : nat) (mask expected elapsed : Z)
  (m : machine) :
  0 <= elapsed < 2 ^ 32 -> Z.even elapsed = true ->
  (forall j, poll_pending mask expected (status_at m j)) ->
  wait_status_loop fuel mask expected (2 ^ 32 - 1) elapsed m = None.
Proof.
  revert elapsed m. induction fuel as [| fuel IH]; intros elapsed m Hr He Hp;
    [reflexivity |].
  assert (Hlt : elapsed < 2 ^ 32 - 1).
  { destruct (Z.eq_dec elapsed (2 ^ 32 - 1)) as [-> | Hne]; [discriminate | lia]. }
  rewrite wait_status_loop_pending; [| left; exact Hlt | apply (Hp 0%nat)].
  apply IH.
  - unfold u32. apply Z.mod_pos_bound. lia.
  - unfold u32, poll_interval.
    destruct (Z.lt_ge_cases (elapsed + 10) (2 ^ 32)) as [Hs | Hb].
    + rewrite Z.mod_small by lia. rewrite Z.even_add, He. reflexivity.
    + replace ((elapsed + 10) mod 2 ^ 32) with (elapsed + 10 - 2 ^ 32).
      * rewrite Z.even_sub, Z.even_add, He. reflexivity.
      * apply Z.mod_unique with (q := 1); lia.
  - intros j. rewrite status_at_advance. apply Hp.
Qed.

Lemma shows_error_not_done (st : Z) :
  shows_error st = true -> shows_done st = false.
Proof.
  unfold shows_error, shows_done. intros Herr.
  apply negb_true_iff, Z.eqb_neq in Herr. apply Z.eqb_neq. intros Hdone.
  apply Herr. apply Z.bits_inj'. intros i Hi.
  rewrite Z.land_spec, Z.bits_0.
  change STATUS_ERROR with (2 ^ 2). rewrite Z.pow2_bits_eqb by lia.
  destruct (Z.eqb_spec 2 i) as [<- | Hne]; [| apply andb_false_r].
  assert (Hb : Z.testbit (Z.land st (Z.lor STATUS_DONE STATUS_ERROR)) 2
               = Z.testbit STATUS_DONE 2) by (rewrite Hdone; reflexivity).
  rewrite Z.land_spec in Hb.
  change (Z.testbit (Z.lor STATUS_DONE STATUS_ERROR) 2) with true in Hb.
  change (Z.testbit STATUS_DONE 2) with false in Hb.
  rewrite andb_true_r in Hb. rewrite Hb. reflexivity.
Qed.

Lemma update_perf_stats_total (m : machine) :
  exists m', update_perf_stats m = Some (tt, m').
Proof.
  unfold update_perf_stats, bind, REG_READ, modify, ret, utilization_pct.
  cbn [dev_read32 with_dev dev].
  match goal with |- context [if ?c then _ else _] => destruct c end;
    eexists; reflexivity.
Qed.

(** [npu_rt_wait] returns the status its polling loop returned. *)
Lemma npu_rt_wait_status (fuel : nat) (timeout_us : Z) (m : machine) :
  g_initialized m = true ->
  option_map fst (npu_rt_wait fuel timeout_us m)
  = option_map fst
      (wait_status fuel (Z.lor STATUS_DONE STATUS_ERROR) STATUS_DONE
                   timeout_us m).
Proof.
  intros Hinit. unfold npu_rt_wait. unfold bind at 1. unfold gets.
  rewrite Hinit. cbn [negb]. unfold bind at 1.
  destruct (wait_status fuel _ _ timeout_us m) as [[st m1] |]; [| reflexivity].
  destruct st; cbn [fw_status_eqb]; try reflexivity.
  unfold bind at 1. unfold bind at 1. unfold modify at 1.
  destruct (update_perf_stats_total (with_ctx (set_state NPU_STATE_DONE) m1))
    as [m2 ->].
  reflexivity.
Qed.

(** On every exit but success, [npu_rt_wait] hands back the machine its
    polling loop left. *)
Lemma npu_rt_wait_failure (fuel : nat) (timeout_us : Z) (m m1 : machine)
  (st : fw_status_t) :
  g_initialized m = true -> st <> FW_OK ->
  wait_status fuel (Z.lor STATUS_DONE STATUS_ERROR) STATUS_DONE timeout_us m
    = Some (st, m1) ->
  npu_rt_wait fuel timeout_us m = Some (st, m1).
Proof.
  intros Hinit Hst Hw. unfold npu_rt_wait. unfold bind at 1. unfold gets.
  rewrite Hinit. cbn [negb]. unfold bind at 1. rewrite Hw.
  destruct st; try reflexivity. contradiction.
Qed.

Lemma pending_of_shows (st : Z) :
  shows_done st = false -> shows_error st = false ->
  poll_pending (Z.lor STATUS_DONE STATUS_ERROR) STATUS_DONE st.
Proof.
  unfold shows_done, shows_error, poll_pending. intros Hd He.
  split; [exact Hd | apply negb_false_iff, He].
Qed.

Lemma polls_until_timeout_bounds (timeout_us : Z) :
  0 < timeout_us ->
  let n := polls_until_timeout timeout_us in
  0 < n /\ poll_interval * (n - 1) < timeout_us <= poll_interval * n.
Proof.
  intros Hpos n. subst n. unfold polls_until_timeout, poll_interval.
  pose proof (Z.div_mod (timeout_us + 10 - 1) 10 ltac:(lia)) as Hdm.
  pose proof (Z.mod_pos_bound (timeout_us + 10 - 1) 10 ltac:(lia)) as Hm.
  lia.
Qed.

Section FirmwareWaitOutcomes.

Variable m : machine.
Hypothesis Hinit : g_initialized m = true.

Lemma first_polls_pending_prefix (k : nat) :
  first_polls_pending m k ->
  forall j, (j < k)%nat ->
    poll_pending (Z.lor STATUS_DONE STATUS_ERROR) STATUS_DONE (status_at m j).
Proof.
  intros Hp j Hj. destruct (Hp j Hj). apply pending_of_shows; assumption.
Qed.

Lemma fw_wait_done_at (k fuel : nat) (timeout_us : Z) :
  first_polls_pending m k ->
  shows_done (status_at m k) = true ->
  timeout_us = 0 \/ poll_interval * Z.of_nat k < timeout_us ->
  poll_interval * Z.of_nat k < 2 ^ 32 ->
  wait_status (k + S fuel) (Z.lor STATUS_DONE STATUS_ERROR) STATUS_DONE timeout_us m
    = Some (FW_OK, after_poll (advance k m)) /\
  option_map fst (npu_rt_wait (k + S fuel) timeout_us m) = Some FW_OK.
Proof.
  intros Hp Hdone Hcont Hsmall.
  assert (Hw : wait_status (k + S fuel) (Z.lor STATUS_DONE STATUS_ERROR) STATUS_DONE timeout_us m
               = Some (FW_OK, after_poll (advance k m))).
  { unfold wait_status.
    rewrite wait_status_loop_pending_prefix.
    - apply wait_status_loop_match.
      + destruct Hcont as [H | H]; [right; exact H | left; exact H].
      + rewrite status_at_advance, Nat.add_0_r. exact Hdone.
    - apply first_polls_pending_prefix, Hp.
    - destruct Hcont as [H | H]; [left; exact H | right].
      unfold poll_interval in *. lia.
    - exact Hsmall. }
  split; [exact Hw |].
  rewrite npu_rt_wait_status by exact Hinit.
  rewrite Hw. reflexivity.
Qed.

Lemma fw_wait_fault_at (k fuel : nat) (timeout_us : Z) :
  first_polls_pending m k ->
  shows_error (status_at m k) = true ->
  timeout_us = 0 \/ poll_interval * Z.of_nat k < timeout_us ->
  poll_interval * Z.of_nat k < 2 ^ 32 ->
  npu_rt_wait (k + S fuel) timeout_us m
  = Some (FW_ERROR_HW_FAULT,
          with_ctx (set_state NPU_STATE_ERROR)
            (with_ctx (set_last_error FW_ERROR_HW_FAULT)
               (after_poll (advance k m)))).
Proof.
  intros Hp Herr Hcont Hsmall.
  apply npu_rt_wait_failure; [exact Hinit | discriminate |].
  unfold wait_status.
  rewrite wait_status_loop_pending_prefix.
  - apply wait_status_loop_fault.
    + destruct Hcont as [H | H]; [right; exact H | left; exact H].
    + rewrite status_at_advance, Nat.add_0_r.
      apply shows_error_not_done, Herr.
    + rewrite status_at_advance, Nat.add_0_r.
      apply negb_true_iff, Herr.
  - apply first_polls_pending_prefix, Hp.
  - destruct Hcont as [H | H]; [left; exact H | right].
    unfold poll_interval in *. lia.
  - exact Hsmall.
Qed.

Lemma fw_wait_timeout (fuel : nat) (timeout_us : Z) :
  0 < timeout_us <= 4294967290 ->
  first_polls_pending m (Z.to_nat (polls_until_timeout timeout_us)) ->
  npu_rt_wait (Z.to_nat (polls_until_timeout timeout_us) + S fuel) timeout_us m
  = Some (FW_ERROR_TIMEOUT,
          advance (Z.to_nat (polls_until_timeout timeout_us)) m).
Proof.
  intros Hrange Hp.
  destruct (polls_until_timeout_bounds timeout_us ltac:(lia)) as [Hn [Hlo Hhi]].
  set (n := polls_until_timeout timeout_us) in *.
  assert (Hn10 : poll_interval * n < 2 ^ 32).
  { unfold poll_interval in *. lia. }
  apply npu_rt_wait_failure; [exact Hinit | discriminate |].
  unfold wait_status.
  rewrite wait_status_loop_pending_prefix.
  - apply wait_status_loop_expired; rewrite ?Z2Nat.id by lia; lia.
  - apply first_polls_pending_prefix, Hp.
  - right. rewrite Z2Nat.id by lia. exact Hlo.
  - rewrite Z2Nat.id by lia. exact Hn10.
Qed.

Lemma fw_wait_zero_never_timeout (fuel : nat) (m' : machine) :
  npu_rt_wait fuel 0 m <> Some (FW_ERROR_TIMEOUT, m').
Proof.
  intros Habs.
  assert (Hst : option_map fst (npu_rt_wait fuel 0 m) = Some FW_ERROR_TIMEOUT)
    by (rewrite Habs; reflexivity).
  rewrite npu_rt_wait_status in Hst by exact Hinit.
  unfold wait_status in Hst.
  destruct (wait_status_loop fuel _ STATUS_DONE 0 0 m) as [[st m1] |] eqn:Hw;
    [| discriminate].
  cbn in Hst. injection Hst as ->.
  exact (wait_status_loop_zero_never_timeout _ _ _ _ _ _ Hw).
Qed.

End FirmwareWaitOutcomes.

Section DriverWait.

Variable timeout_ms : Z.

Lemma drv_status_at_advance (m : Drv.machine) (k j : nat) :
  Drv.status_at (Drv.advance k m) j = Drv.status_at m (k + j).
Proof.
  unfold Drv.status_at, Drv.advance, Drv.with_dev.
  destruct m as [c d fl]. destruct d. cbn. rewrite Nat.add_assoc. reflexivity.
Qed.

Lemma drv_advance_zero (m : Drv.machine) : Drv.advance 0 m = m.
Proof.
  unfold Drv.advance, Drv.with_dev. destruct m as [c d fl]. destruct d.
  cbn. rewrite Nat.add_0_r, Z.add_0_r. reflexivity.
Qed.

Lemma drv_advance_succ (m : Drv.machine) (k : nat) :
  Drv.advance (S k) m = Drv.advance k (Drv.advance 1 m).
Proof.
  unfold Drv.advance, Drv.with_dev. destruct m as [c d fl]. destruct d.
  cbn [Drv.dev dev_log dev_reads dev_clock_us dev_oracle Drv.ctx_obj
       Drv.fdiv_log].
  f_equal. f_equal; lia.
Qed.

(** What one iteration of [wait_for_idle] does, by the status it loads. *)
Lemma drv_wait_iteration (fuel : nat) (timeout_us elapsed : Z)
  (m : Drv.machine) :
  elapsed < timeout_us \/ timeout_ms = 0 ->
  Drv.wait_for_idle_loop (S fuel) timeout_ms timeout_us elapsed m
  = if Drv.shows_error (Drv.status_at m 0) then
      Some (Drv.NPU_ERROR_HW_ERROR,
            Drv.with_ctx (Drv.set_state Drv.NPU_STATE_ERROR) (Drv.after_poll m))
    else if Drv.shows_done (Drv.status_at m 0)
            || Drv.shows_idle (Drv.status_at m 0) then
      Some (Drv.NPU_OK,
            Drv.with_ctx (Drv.set_state Drv.NPU_STATE_IDLE) (Drv.after_poll m))
    else
      Drv.wait_for_idle_loop fuel timeout_ms timeout_us (u32 (elapsed + 10))
        (Drv.advance 1 m).
Proof.
  intros Hcont.
  assert (Hc : ((elapsed <? timeout_us) || (timeout_ms =? 0)) = true).
  { apply orb_true_iff. destruct Hcont as [H | H];
      [left; apply Z.ltb_lt, H | right; apply Z.eqb_eq, H]. }
  cbn [Drv.wait_for_idle_loop]. rewrite Hc.
  unfold Drv.bind at 1. unfold Drv.reg_read at 1.
  unfold Drv.bind at 1. unfold Drv.gets at 1. cbn [dev_read32].
  unfold Drv.shows_error, Drv.shows_done, Drv.shows_idle, Drv.status_at.
  rewrite Nat.add_0_r.
  destruct (Z.land _ Drv.NPU_STATUS_ERROR =? 0); cbn [negb]; [| reflexivity].
  destruct (Z.land _ Drv.NPU_STATUS_DONE =? 0); cbn [negb orb]; [| reflexivity].
  destruct (Z.land _ Drv.NPU_STATUS_IDLE =? 0); cbn [negb]; [| reflexivity].
  unfold Drv.bind at 1. unfold Drv.npu_delay_us, Drv.modify.
  f_equal. unfold Drv.advance, Drv.with_dev, dev_delay_us.
  destruct m as [c d fl]. destruct d. cbn. f_equal. f_equal; lia.
Qed.

Lemma drv_wait_pending_prefix (k fuel : nat) (timeout_us : Z)
  (m : Drv.machine) :
  Drv.first_polls_pending m k ->
  (timeout_ms = 0 \/ 10 * (Z.of_nat k - 1) < timeout_us) ->
  10 * Z.of_nat k < 2 ^ 32 ->
  Drv.wait_for_idle_loop (k + fuel) timeout_ms timeout_us 0 m
  = Drv.wait_for_idle_loop fuel timeout_ms timeout_us
      (10 * Z.of_nat k) (Drv.advance k m).
Proof.
  intros Hpend Hcont Hsmall.
  assert (Hgen : forall k' (m' : Drv.machine) (e : Z),
    (k' <= k)%nat -> e = 10 * Z.of_nat (k - k') ->
    Drv.first_polls_pending m' k' ->
    Drv.wait_for_idle_loop (k' + fuel) timeout_ms timeout_us e m'
    = Drv.wait_for_idle_loop fuel timeout_ms timeout_us
        (e + 10 * Z.of_nat k') (Drv.advance k' m')).
  { induction k' as [| k' IH]; intros m' e Hle He Hp.
    - cbn [Nat.add]. rewrite drv_advance_zero. f_equal. lia.
    - cbn [Nat.add]. rewrite drv_wait_iteration.
      + destruct (Hp 0%nat ltac:(lia)) as [-> [-> ->]]. cbn [orb].
        rewrite u32_small by lia.
        rewrite IH.
        * rewrite <- drv_advance_succ. f_equal. lia.
        * lia.
        * lia.
        * intros j Hj. rewrite drv_status_at_advance. apply Hp. lia.
      + destruct Hcont as [H0 | Hlt]; [right; exact H0 | left]. lia. }
  rewrite (Hgen k m 0); [f_equal; lia | lia | | exact Hpend].
  rewrite Nat.sub_diag. lia.
Qed.

Lemma drv_wait_loop_expired (fuel : nat) (timeout_us elapsed : Z)
  (m : Drv.machine) :
  timeout_us <= elapsed -> timeout_ms <> 0 ->
  Drv.wait_for_idle_loop (S fuel) timeout_ms timeout_us elapsed m
  = Some (Drv.NPU_ERROR_TIMEOUT, m).
Proof.
  intros Hge Hnz.
  assert (Hc : ((elapsed <? timeout_us) || (timeout_ms =? 0)) = false).
  { apply orb_false_iff. split; [apply Z.ltb_ge, Hge | apply Z.eqb_neq, Hnz]. }
  cbn [Drv.wait_for_idle_loop]. rewrite Hc. reflexivity.
Qed.

End DriverWait.

Lemma drv_wait_zero_never_timeout (fuel : nat) (timeout_us elapsed : Z)
  (m m' : Drv.machine) :
  Drv.wait_for_idle_loop fuel 0 timeout_us elapsed m
  <> Some (Drv.NPU_ERROR_TIMEOUT, m').
Proof.
  revert elapsed m. induction fuel as [| fuel IH]; intros elapsed m.
  - discriminate.
  - rewrite drv_wait_iteration by (right; reflexivity).
    destruct (Drv.shows_error _); [discriminate |].
    destruct (_ || _); [discriminate |]. apply IH.
Qed.

Section DriverWaitOutcomes.

Variable m : Drv.machine.

Lemma drv_wait_ok_at (k fuel : nat) (timeout_ms : Z) :
  Drv.first_polls_pending m k ->
  Drv.shows_error (Drv.status_at m k) = false ->
  Drv.shows_done (Drv.status_at m k) || Drv.shows_idle (Drv.status_at m k)
    = true ->
  timeout_ms = 0 \/ 10 * Z.of_nat k < u32 (timeout_ms * 1000) ->
  10 * Z.of_nat k < 2 ^ 32 ->
  Drv.npu_wait (k + S fuel) (Some tt) timeout_ms m
  = Some (Drv.NPU_OK,
          Drv.with_ctx (Drv.set_state Drv.NPU_STATE_IDLE)
            (Drv.after_poll (Drv.advance k m))).
Proof.
  intros Hp Herr Hok Hcont Hsmall.
  unfold Drv.npu_wait, Drv.wait_for_idle.
  rewrite drv_wait_pending_prefix;
    [| exact Hp | destruct Hcont; [left; assumption | right; lia] | exact Hsmall].
  rewrite drv_wait_iteration
    by (destruct Hcont; [right; assumption | left; assumption]).
  rewrite drv_status_at_advance, Nat.add_0_r, Herr, Hok. reflexivity.
Qed.

Lemma drv_wait_timeout (fuel : nat) (timeout_ms : Z) :
  0 < timeout_ms -> timeout_ms * 1000 <= 4294967290 ->
  Drv.first_polls_pending m (Z.to_nat (100 * timeout_ms)) ->
  Drv.npu_wait (Z.to_nat (100 * timeout_ms) + S fuel) (Some tt) timeout_ms m
  = Some (Drv.NPU_ERROR_TIMEOUT, Drv.advance (Z.to_nat (100 * timeout_ms)) m).
Proof.
  intros Hpos Hfit Hp.
  unfold Drv.npu_wait, Drv.wait_for_idle.
  rewrite (u32_small (timeout_ms * 1000)) by lia.
  rewrite drv_wait_pending_prefix;
    [| exact Hp | right; rewrite Z2Nat.id by lia; lia
     | rewrite Z2Nat.id by lia; lia].
  apply drv_wait_loop_expired; rewrite ?Z2Nat.id by lia; lia.
Qed.

Lemma drv_npu_wait_zero_never_timeout (fuel : nat) (m' : Drv.machine) :
  Drv.npu_wait fuel (Some tt) 0 m <> Some (Drv.NPU_ERROR_TIMEOUT, m').
Proof.
  unfold Drv.npu_wait, Drv.wait_for_idle.
  apply drv_wait_zero_never_timeout.
Qed.

End DriverWaitOutcomes.

(** C7 (amended).  Waiting polls the status register and sleeps 10
    microseconds after every poll that decides nothing.

    Firmware, [npu_rt_wait(timeout_us)] on an initialized runtime: the
    call returns [FW_OK] at the first poll that shows done with the
    error bit clear (at once, with no delay, if that is the first poll)
    and [FW_ERROR_HW_FAULT] at the first poll that shows the error bit;
    the idle bit is not looked at, an idle status decides nothing.  If
    no poll shows done or error, then for
    [0 < timeout_us <= 4294967290] it returns [FW_ERROR_TIMEOUT] after
    [ceil(timeout_us / 10)] polls and as many delays, and for
    [timeout_us = 0] it never returns [FW_ERROR_TIMEOUT].

    Driver, [npu_wait(timeout_ms)]: the call returns [NPU_OK] at the
    first poll that shows done or idle with the error bit clear; if no
    poll shows error, done or idle, then for [0 < timeout_ms] with
    [1000 * timeout_ms <= 4294967290] it returns [NPU_ERROR_TIMEOUT]
    after [100 * timeout_ms] polls, and for [timeout_ms = 0] it never
    returns [NPU_ERROR_TIMEOUT]. *)
Theorem wait_polling_behaviour :
  (forall m : machine, g_initialized m = true ->
     (forall (k fuel : nat) (timeout_us : Z),
        first_polls_pending m k ->
        shows_done (status_at m k) = true ->
        timeout_us = 0 \/ poll_interval * Z.of_nat k < timeout_us ->
        poll_interval * Z.of_nat k < 2 ^ 32 ->
        wait_status (k + S fuel) (Z.lor STATUS_DONE STATUS_ERROR) STATUS_DONE
                    timeout_us m
          = Some (FW_OK, after_poll (advance k m)) /\
        option_map fst (npu_rt_wait (k + S fuel) timeout_us m) = Some FW_OK) /\
     (forall (k fuel : nat) (timeout_us : Z),
        first_polls_pending m k ->
        shows_error (status_at m k) = true ->
        timeout_us = 0 \/ poll_interval * Z.of_nat k < timeout_us ->
        poll_interval * Z.of_nat k < 2 ^ 32 ->
        npu_rt_wait (k + S fuel) timeout_us m
          = Some (FW_ERROR_HW_FAULT,
                  with_ctx (set_state NPU_STATE_ERROR)
                    (with_ctx (set_last_error FW_ERROR_HW_FAULT)
                       (after_poll (advance k m))))) /\
     (forall (fuel : nat) (timeout_us : Z),
        0 < timeout_us <= 4294967290 ->
        first_polls_pending m (Z.to_nat (polls_until_timeout timeout_us)) ->
        npu_rt_wait (Z.to_nat (polls_until_timeout timeout_us) + S fuel)
                    timeout_us m
          = Some (FW_ERROR_TIMEOUT,
                  advance (Z.to_nat (polls_until_timeout timeout_us)) m)) /\
     (forall (fuel : nat) (m' : machine),
        npu_rt_wait fuel 0 m <> Some (FW_ERROR_TIMEOUT, m')) /\
     (shows_done STATUS_IDLE = false /\ shows_error STATUS_IDLE = false)) /\
  (forall m : Drv.machine,
     (forall (k fuel : nat) (timeout_ms : Z),
        Drv.first_polls_pending m k ->
        Drv.shows_error (Drv.status_at m k) = false ->
        Drv.shows_done (Drv.status_at m k)
          || Drv.shows_idle (Drv.status_at m k) = true ->
        timeout_ms = 0 \/ 10 * Z.of_nat k < u32 (timeout_ms * 1000) ->
        10 * Z.of_nat k < 2 ^ 32 ->
        Drv.npu_wait (k + S fuel) (Some tt) timeout_ms m
          = Some (Drv.NPU_OK,
                  Drv.with_ctx (Drv.set_state Drv.NPU_STATE_IDLE)
                    (Drv.after_poll (Drv.advance k m)))) /\
     (forall (fuel : nat) (timeout_ms : Z),
        0 < timeout_ms -> timeout_ms * 1000 <= 4294967290 ->
        Drv.first_polls_pending m (Z.to_nat (100 * timeout_ms)) ->
        Drv.npu_wait (Z.to_nat (100 * timeout_ms) + S fuel) (Some tt)
                     timeout_ms m
          = Some (Drv.NPU_ERROR_TIMEOUT,
                  Drv.advance (Z.to_nat (100 * timeout_ms)) m)) /\
     (forall (fuel : nat) (m' : Drv.machine),
        Drv.npu_wait fuel (Some tt) 0 m
          <> Some (Drv.NPU_ERROR_TIMEOUT, m'))).
Proof.
  split.
  - intros m Hinit. repeat split.
    + apply fw_wait_done_at; assumption.
    + apply fw_wait_done_at; assumption.
    + intros k fuel t. apply fw_wait_fault_at; assumption.
    + intros fuel t. apply fw_wait_timeout; assumption.
    + intros fuel m'. apply fw_wait_zero_never_timeout; assumption.
  - intros m. repeat split.
    + intros k fuel t. apply drv_wait_ok_at.
    + intros fuel t. apply drv_wait_timeout.
    + intros fuel m'. apply drv_npu_wait_zero_never_timeout.
Qed.

Lemma const_status_pending (v : Z) (k : nat) :
  shows_done (u32 v) = false -> shows_error (u32 v) = false ->
  first_polls_pending (running_machine v) k.
Proof. intros Hd He j _. split; assumption. Qed.

Lemma wait_polling_behaviour_witness :
  (g_initialized (running_machine STATUS_BUSY) = true /\
   0 < 25 <= 4294967290 /\
   first_polls_pending (running_machine STATUS_BUSY)
     (Z.to_nat (polls_until_timeout 25))) /\
  npu_rt_wait (Z.to_nat (polls_until_timeout 25) + 1) 25
    (running_machine STATUS_BUSY)
  = Some (FW_ERROR_TIMEOUT,
          advance (Z.to_nat (polls_until_timeout 25))
            (running_machine STATUS_BUSY)).
Proof.
  assert (Hrange : 0 < 25 <= 4294967290) by (split; [reflexivity | discriminate]).
  assert (Hpend : first_polls_pending
            (running_machine STATUS_BUSY)
            (Z.to_nat (polls_until_timeout 25)))
    by (apply const_status_pending; reflexivity).
  split; [split; [reflexivity | split; [exact Hrange | exact Hpend]] |].
  exact (proj1 (proj2 (proj2
           (proj1 wait_polling_behaviour
              (running_machine STATUS_BUSY) eq_refl)))
         0%nat 25 Hrange Hpend).
Defined.

(** C7 as stated fails in the firmware: against a status register that
    always reads idle (bit 3 alone), [npu_rt_wait(30)] does not succeed
    but polls three times, 30 microseconds, and returns
    [FW_ERROR_TIMEOUT]; with a zero timeout it is still polling after a
    hundred polls. *)
Lemma wait_idle_counterexample :
  g_initialized (running_machine STATUS_IDLE) = true /\
  (forall k, status_at (running_machine STATUS_IDLE) k
             = STATUS_IDLE) /\
  npu_rt_wait 4 30 (running_machine STATUS_IDLE)
  = Some (FW_ERROR_TIMEOUT, advance 3 (running_machine STATUS_IDLE)) /\
  npu_rt_wait 100 0 (running_machine STATUS_IDLE) = None.
Proof.
  split; [reflexivity |].
  split; [intros k; reflexivity |].
  split_all; now vm_compute.
Qed.

(** ** Model loading *)

Lemma fw_load_model_rejects (fuel : nat) (data : host_buf) (size : Z)
  (m : machine) :
  magic (read_model_header (hb_elem data)) <> MODEL_MAGIC \/
  version (read_model_header (hb_elem data)) > MODEL_VERSION ->
  npu_rt_load_model fuel (Some data) size m
  = Some (if g_initialized m then FW_ERROR_INVALID_PARAM
          else FW_ERROR_NOT_READY, m).
Proof.
  intros Hbad. unfold npu_rt_load_model. unfold bind at 1. unfold gets.
  destruct (g_initialized m); cbn [negb]; [| reflexivity].
  destruct (size <? sizeof_model_header_t); [reflexivity |].
  destruct Hbad as [Hmagic | Hver].
  - apply Z.eqb_neq in Hmagic. rewrite Hmagic. reflexivity.
  - destruct (magic _ =? MODEL_MAGIC); cbn [negb]; [| reflexivity].
    assert (Hv : (version (read_model_header (hb_elem data)) >? MODEL_VERSION)
                 = true) by (apply Z.gtb_lt; lia).
    rewrite Hv. reflexivity.
Qed.

Lemma rt_load_memory_rejects_magic (data : host_buf) (size : Z) (w : Rt.world) :
  Rt.magic (Rt.read_header (hb_elem data)) <> Rt.NPU_MODEL_MAGIC ->
  exists w',
    Rt.npu_model_load_memory (Some tt) (Some data) size w = (None, w') /\
    Rt.models w' = Rt.models w /\ Rt.num_models w' = Rt.num_models w /\
    Rt.allocs w' = Rt.allocs w.
Proof.
  intros Hmagic. unfold Rt.npu_model_load_memory.
  destruct (size <? Rt.sizeof_npu_model_header_t).
  - exists w. repeat split.
  - apply Z.eqb_neq in Hmagic. rewrite Hmagic. cbn [negb].
    destruct (Rt.enable_debug (Rt.config w)); eexists; repeat split.
Qed.

(** C8 (amended).  A model image whose header magic differs from the
    expected constant is rejected before any instruction or weight data
    is copied and before any register is written: the firmware's
    [npu_rt_load_model] returns [FW_ERROR_INVALID_PARAM]
    ([FW_ERROR_NOT_READY] when the runtime is not initialized) and
    leaves context and device exactly as they were; the host loader
    [npu_model_load_memory] returns [NULL] without allocating a model
    slot or any memory.  The firmware rejects in the same way an image
    whose header version is newer than [MODEL_VERSION]. *)
Theorem load_model_rejects_bad_header (data : host_buf) (size : Z) :
  (forall (fuel : nat) (m : machine),
     magic (read_model_header (hb_elem data)) <> MODEL_MAGIC \/
     version (read_model_header (hb_elem data)) > MODEL_VERSION ->
     npu_rt_load_model fuel (Some data) size m
       = Some (if g_initialized m then FW_ERROR_INVALID_PARAM
               else FW_ERROR_NOT_READY, m)) /\
  (forall w : Rt.world,
     Rt.magic (Rt.read_header (hb_elem data)) <> Rt.NPU_MODEL_MAGIC ->
     exists w',
       Rt.npu_model_load_memory (Some tt) (Some data) size w = (None, w') /\
       Rt.models w' = Rt.models w /\ Rt.num_models w' = Rt.num_models w /\
       Rt.allocs w' = Rt.allocs w).
Proof.
  split.
  - intros fuel m. apply fw_load_model_rejects.
  - intros w. apply rt_load_memory_rejects_magic.
Qed.

Lemma load_model_rejects_bad_header_witness :
  (magic (read_model_header (hb_elem (model_image 0xDEADBEEF MODEL_VERSION)))
     <> MODEL_MAGIC \/
   version (read_model_header (hb_elem (model_image 0xDEADBEEF MODEL_VERSION)))
     > MODEL_VERSION) /\
  npu_rt_load_model 1 (Some (model_image 0xDEADBEEF MODEL_VERSION))
    model_image_size (initialized_machine 0)
  = Some (FW_ERROR_INVALID_PARAM, initialized_machine 0).
Proof.
  assert (Hbad :
    magic (read_model_header (hb_elem (model_image 0xDEADBEEF MODEL_VERSION)))
      <> MODEL_MAGIC \/
    version (read_model_header (hb_elem (model_image 0xDEADBEEF MODEL_VERSION)))
      > MODEL_VERSION)
    by (left; now vm_compute).
  split; [exact Hbad |].
  exact (proj1 (load_model_rejects_bad_header
                  (model_image 0xDEADBEEF MODEL_VERSION) model_image_size)
               1%nat (initialized_machine 0) Hbad).
Defined.

(** C8 as stated fails.  The host loader never reads the header version:
    an image with the right magic and version 0x0200 is accepted, a
    model slot is taken and the instruction bytes are copied.  In the
    firmware the status for a corrupted magic is the invalid-parameter
    one, and an uninitialized runtime answers [FW_ERROR_NOT_READY]. *)
Lemma load_model_counterexample :
  (Rt.version (Rt.read_header (hb_elem (Rt.model_image Rt.NPU_MODEL_MAGIC 0x0200)))
     > Rt.NPU_MODEL_VERSION /\
   fst (Rt.npu_model_load_memory (Some tt)
          (Some (Rt.model_image Rt.NPU_MODEL_MAGIC 0x0200))
          Rt.model_image_size Rt.fresh_world)
   = Some 0%nat /\
   option_map Rt.instructions
     (nth 0 (Rt.models (snd (Rt.npu_model_load_memory (Some tt)
          (Some (Rt.model_image Rt.NPU_MODEL_MAGIC 0x0200))
          Rt.model_image_size Rt.fresh_world))) None)
   = Some (Some (bytes64 INST_HALT))) /\
  (magic (read_model_header (hb_elem (model_image 0xDEADBEEF MODEL_VERSION)))
     <> MODEL_MAGIC /\
   option_map fst
     (npu_rt_load_model 1 (Some (model_image 0xDEADBEEF MODEL_VERSION))
        model_image_size (initialized_machine 0))
   = Some FW_ERROR_INVALID_PARAM /\
   option_map fst
     (npu_rt_load_model 1 (Some (model_image 0xDEADBEEF MODEL_VERSION))
        model_image_size
        (blank_machine (const_device 0)))
   = Some FW_ERROR_NOT_READY).
Proof.
  split_all; now vm_compute.
Qed.

(** ** Fully-connected layers *)

Lemma fc_as_conv_fits (layer : layer_desc_t) :
  0 <= dim_c (input layer) * dim_h (input layer) * dim_w (input layer) < 2 ^ 16 ->
  fc_as_conv layer = fc_as_conv_spec layer.
Proof.
  intros Hfit. unfold fc_as_conv, fc_as_conv_spec.
  unfold u16. rewrite Z.mod_small by exact Hfit. reflexivity.
Qed.

(** Where the flattened input size fits the 16-bit channel field,
    [npu_rt_exec_fc] is [npu_rt_exec_conv] on the reshaped descriptor of
    the specification. *)
Lemma fc_refines_conv_when_fits (fuel : nat) (layer : layer_desc_t) :
  0 <= dim_c (input layer) * dim_h (input layer) * dim_w (input layer) < 2 ^ 16 ->
  npu_rt_exec_fc fuel (Some layer)
  = npu_rt_exec_conv fuel (Some (fc_as_conv_spec layer)).
Proof.
  intros Hfit. unfold npu_rt_exec_fc. rewrite fc_as_conv_fits by exact Hfit.
  reflexivity.
Qed.

Lemma fc_refines_conv_when_fits_witness :
  0 <= dim_c (input fc_64x4x4) * dim_h (input fc_64x4x4)
       * dim_w (input fc_64x4x4) < 2 ^ 16 /\
  npu_rt_exec_fc 1 (Some fc_64x4x4)
  = npu_rt_exec_conv 1 (Some (fc_as_conv_spec fc_64x4x4)).
Proof.
  assert (Hfit : 0 <= dim_c (input fc_64x4x4) * dim_h (input fc_64x4x4)
                      * dim_w (input fc_64x4x4) < 2 ^ 16)
    by (split; [discriminate | reflexivity]).
  split; [exact Hfit |].
  exact (fc_refines_conv_when_fits 1 fc_64x4x4 Hfit).
Defined.

(** C9 (the code at the failing input).  For the well-formed
    fully-connected layer over a 512 x 16 x 16 input, the flattened
    size 131072 does not fit the 16-bit channel field: the descriptor
    [npu_rt_exec_fc] hands to the convolution path has input channel
    count 0, so there is no input-channel tile, the sequence built holds
    no load-weight and no compute instruction, and the call runs it and
    reports [FW_OK]. *)
Theorem fc_512x16x16_truncated :
  layer_wf fc_512x16x16 /\
  dim_c (input fc_512x16x16) * dim_h (input fc_512x16x16)
    * dim_w (input fc_512x16x16) = 131072 /\
  dim_c (input (fc_as_conv_spec fc_512x16x16)) = 131072 /\
  dim_c (input (fc_as_conv fc_512x16x16)) = 0 /\
  conv_ic_tiles (fc_as_conv fc_512x16x16) = 0 /\
  map inst_get_opcode (emitted (conv_build (fc_as_conv fc_512x16x16)))
    = [OP_CLEAR_ACC; OP_DMA_LOAD_W; OP_WAIT_DMA; OP_DRAIN; OP_HALT] /\
  option_map fst
    (npu_rt_exec_fc 1 (Some fc_512x16x16)
       (initialized_machine STATUS_DONE))
    = Some FW_OK /\
  npu_rt_exec_fc 1 (Some fc_512x16x16)
    (initialized_machine STATUS_DONE)
  <> npu_rt_exec_conv 1 (Some (fc_as_conv_spec fc_512x16x16))
       (initialized_machine STATUS_DONE).
Proof.
  split.
  { apply conv_layer_wf; unfold is_u16; lia. }
  split_all; now vm_compute.
Qed.

(** ** Performance statistics *)

Lemma lor_nonneg (a b : Z) : 0 <= a -> 0 <= b -> 0 <= Z.lor a b.
Proof. intros Ha Hb. apply Z.lor_nonneg. split; assumption. Qed.

Lemma cycles_read_nonneg (m : machine) : 0 <= cycles_read m.
Proof.
  unfold cycles_read. apply lor_nonneg.
  - unfold shl64, u64. apply Z.mod_pos_bound. lia.
  - unfold u32. apply Z.mod_pos_bound. lia.
Qed.

Lemma fw_update_perf_stats_guarded (m : machine) :
  exists m',
    update_perf_stats m = Some (tt, m') /\
    total_cycles (perf (g_ctx m')) = cycles_read m /\
    (cycles_read m = 0 ->
       pe_utilization (perf (g_ctx m')) = pe_utilization (perf (g_ctx m)) /\
       fdiv_log m' = fdiv_log m) /\
    (cycles_read m > 0 ->
       pe_utilization (perf (g_ctx m'))
         = f32_mul (f32_div (f32_of_Z (u64 (cycles_read m - stall_read m)))
                            (f32_of_Z (cycles_read m)))
                   (f32_of_Z 100) /\
       fdiv_log m'
         = (u64 (cycles_read m - stall_read m), cycles_read m) :: fdiv_log m).
Proof.
  unfold update_perf_stats, bind, REG_READ, modify, ret, utilization_pct.
  cbn [dev_read32 with_dev dev dev_reads dev_oracle dev_log dev_clock_us].
  fold (cycles_read m). fold (stall_read m).
  destruct (cycles_read m >? 0) eqn:Hgt.
  - eexists. split; [reflexivity |].
    apply Z.gtb_lt in Hgt.
    split; [reflexivity |]. split; [intros H0; lia |].
    intros _. split; reflexivity.
  - eexists. split; [reflexivity |].
    rewrite Z.gtb_ltb in Hgt. apply Z.ltb_ge in Hgt.
    split; [reflexivity |]. split; [| intros Hpos; lia].
    intros _. split; reflexivity.
Qed.

Lemma drv_wait_loop_preserves (fuel : nat) (tms tus e : Z)
  (m m' : Drv.machine) (st : Drv.npu_status_t) :
  Drv.wait_for_idle_loop fuel tms tus e m = Some (st, m') ->
  Drv.perf_stats (Drv.ctx_obj m') = Drv.perf_stats (Drv.ctx_obj m) /\
  Drv.fdiv_log m' = Drv.fdiv_log m.
Proof.
  revert e m. induction fuel as [| fuel IH]; intros e m Hw; [discriminate |].
  cbn [Drv.wait_for_idle_loop] in Hw.
  destruct ((e <? tus) || (tms =? 0)).
  - unfold Drv.bind at 1 in Hw. unfold Drv.reg_read at 1 in Hw.
    unfold Drv.bind at 1 in Hw. unfold Drv.gets at 1 in Hw.
    cbn [dev_read32] in Hw.
    destruct (Z.land _ Drv.NPU_STATUS_ERROR =? 0); cbn [negb] in Hw.
    + destruct (Z.land _ Drv.NPU_STATUS_DONE =? 0); cbn [negb] in Hw.
      * destruct (Z.land _ Drv.NPU_STATUS_IDLE =? 0); cbn [negb] in Hw.
        -- unfold Drv.bind at 1 in Hw. unfold Drv.npu_delay_us, Drv.modify in Hw.
           apply IH in Hw. exact Hw.
        -- injection Hw as _ <-. split; reflexivity.
      * injection Hw as _ <-. split; reflexivity.
    + injection Hw as _ <-. split; reflexivity.
  - injection Hw as _ <-. split; reflexivity.
Qed.

Lemma drv_bind_some {A B : Type} (x : Drv.M A) (f : A -> Drv.M B)
  (m m1 : Drv.machine) (a : A) :
  x m = Some (a, m1) -> Drv.bind x f m = f a m1.
Proof. intros H. unfold Drv.bind. rewrite H. reflexivity. Qed.

(** State in which [npu_run] enters its wait: statistics zeroed. *)
Lemma drv_run_prologue (m : Drv.machine) :
  exists m1,
    Drv.bind (Drv.npu_reset_perf_counters (Some tt)) (fun _ =>
      Drv.bind (Drv.modify (Drv.with_ctx (Drv.set_state Drv.NPU_STATE_RUNNING)))
        (fun _ => Drv.reg_write Drv.NPU_REG_CTRL
                    (Z.lor Drv.NPU_CTRL_ENABLE Drv.NPU_CTRL_START))) m
      = Some (tt, m1) /\
    Drv.perf_stats (Drv.ctx_obj m1) = Drv.perf_zero /\
    Drv.fdiv_log m1 = Drv.fdiv_log m.
Proof.
  destruct m as [c d fl]. destruct c, d.
  eexists. split; [reflexivity |]. split; reflexivity.
Qed.

(** The four counter loads fill the four counter fields and nothing
    else. *)
Lemma drv_read_perf_counters_spec (m : Drv.machine) :
  exists m3,
    Drv.read_perf_counters m = Some (tt, m3) /\
    Drv.utilization (Drv.perf_stats (Drv.ctx_obj m3))
      = Drv.utilization (Drv.perf_stats (Drv.ctx_obj m)) /\
    0 <= Drv.total_cycles (Drv.perf_stats (Drv.ctx_obj m3)) /\
    Drv.fdiv_log m3 = Drv.fdiv_log m.
Proof.
  destruct m as [c d fl]. destruct c, d.
  eexists. split; [reflexivity |].
  cbn. split; [reflexivity |]. split; [| reflexivity].
  unfold u32. apply Z.mod_pos_bound. lia.
Qed.

Lemma drv_npu_run_perf (fuel : nat) (timeout_ms : Z) (m m' : Drv.machine)
  (st : Drv.npu_status_t) :
  Drv.state (Drv.ctx_obj m) <> Drv.NPU_STATE_RUNNING ->
  Drv.npu_run fuel (Some tt) timeout_ms m = Some (st, m') ->
  let total := Drv.total_cycles (Drv.perf_stats (Drv.ctx_obj m')) in
  let stall := Drv.stall_cycles (Drv.perf_stats (Drv.ctx_obj m')) in
  0 <= total /\
  (total = 0 ->
     Drv.utilization (Drv.perf_stats (Drv.ctx_obj m')) = f32_zero /\
     Drv.fdiv_log m' = Drv.fdiv_log m) /\
  (total > 0 ->
     Drv.utilization (Drv.perf_stats (Drv.ctx_obj m'))
       = f32_mul (f32_div (f32_of_Z (u64 (total - stall))) (f32_of_Z total))
                 (f32_of_Z 100) /\
     Drv.fdiv_log m' = (u64 (total - stall), total) :: Drv.fdiv_log m).
Proof.
  intros Hnot Hrun. unfold Drv.npu_run in Hrun.
  unfold Drv.bind at 1 in Hrun. unfold Drv.gets at 1 in Hrun.
  assert (Hnr : Drv.is_running (Drv.state (Drv.ctx_obj m)) = false)
    by (destruct (Drv.state (Drv.ctx_obj m)); try reflexivity; contradiction).
  rewrite Hnr in Hrun.
  destruct (drv_run_prologue m) as [m1 [Hpro [Hp1 Hl1]]].
  unfold Drv.bind at 1 2 3 in Hrun. unfold Drv.bind in Hpro.
  destruct (Drv.npu_reset_perf_counters (Some tt) m) as [[u0 ma] |];
    [| discriminate].
  destruct (Drv.modify _ ma) as [[u1 mb] |]; [| discriminate].
  rewrite Hpro in Hrun. clear Hpro.
  unfold Drv.bind at 1 in Hrun.
  destruct (Drv.wait_for_idle fuel timeout_ms m1) as [[st1 m2] |] eqn:Hw;
    [| discriminate].
  apply drv_wait_loop_preserves in Hw. destruct Hw as [Hp2 Hl2].
  destruct (drv_read_perf_counters_spec m2) as [m3 [Hrd [Hu3 [Ht3 Hl3]]]].
  rewrite (drv_bind_some _ _ _ _ _ Hrd) in Hrun.
  unfold Drv.bind at 1 in Hrun. unfold Drv.gets at 1 in Hrun.
  assert (Hz : Drv.utilization (Drv.perf_stats (Drv.ctx_obj m3)) = f32_zero)
    by (rewrite Hu3, Hp2, Hp1; reflexivity).
  assert (Hl : Drv.fdiv_log m3 = Drv.fdiv_log m)
    by (rewrite Hl3, Hl2, Hl1; reflexivity).
  clear Hrd Hu3 Hl3 Hp2 Hl2 Hp1 Hl1.
  destruct m3 as [c3 d3 fl3]. destruct c3 as [cf s3 hw cb cbd p3 dbg].
  destruct p3 as [tot ins mac stl utl].
  cbn [Drv.ctx_obj Drv.perf_stats Drv.total_cycles Drv.stall_cycles
       Drv.utilization Drv.fdiv_log] in *.
  subst utl fl3.
  destruct (tot >? 0) eqn:Hgt;
    unfold Drv.bind, Drv.modify, Drv.set_perf_field, Drv.ret in Hrun;
    injection Hrun as _ <-;
    cbn [Drv.ctx_obj Drv.perf_stats Drv.total_cycles Drv.stall_cycles
         Drv.utilization Drv.fdiv_log Drv.with_ctx Drv.log_fdiv
         Drv.set_perf_stats Drv.set_utilization].
  - apply Z.gtb_lt in Hgt.
    split; [exact Ht3 |]. split; [intros; lia |].
    intros _. split; reflexivity.
  - rewrite Z.gtb_ltb in Hgt. apply Z.ltb_ge in Hgt.
    split; [exact Ht3 |]. split; [| intros; lia].
    intros _. split; reflexivity.
Qed.

Lemma fw_get_perf_reports (m m' : machine) :
  update_perf_stats m = Some (tt, m') ->
  npu_rt_get_perf (Some tt) m = Some ((FW_OK, Some (perf (g_ctx m'))), m').
Proof.
  intros Hu. unfold npu_rt_get_perf. unfold bind at 1. rewrite Hu.
  reflexivity.
Qed.

(** C10 (amended).  A statistics read evaluates the utilization division
    only when the cycle counter it has just read is greater than 0, so
    the divisor is never 0.  When the counter reads 0 no division is
    evaluated and the utilization field is not assigned: it keeps the
    value it had.  In the firmware ([update_perf_stats], reported by
    [npu_rt_get_perf]) that value is 0 only as long as the statistics
    are still zeroed; in the driver's [npu_run], which zeroes the
    statistics before it starts the run, the reported utilization is 0
    whenever the counter reads 0. *)
Theorem perf_utilization_guarded :
  (forall m : machine, exists m',
     update_perf_stats m = Some (tt, m') /\
     npu_rt_get_perf (Some tt) m
       = Some ((FW_OK, Some (perf (g_ctx m'))), m') /\
     total_cycles (perf (g_ctx m')) = cycles_read m /\
     0 <= cycles_read m /\
     (cycles_read m = 0 ->
        pe_utilization (perf (g_ctx m')) = pe_utilization (perf (g_ctx m)) /\
        fdiv_log m' = fdiv_log m) /\
     (cycles_read m > 0 ->
        pe_utilization (perf (g_ctx m'))
          = f32_mul (f32_div (f32_of_Z (u64 (cycles_read m - stall_read m)))
                             (f32_of_Z (cycles_read m)))
                    (f32_of_Z 100) /\
        fdiv_log m'
          = (u64 (cycles_read m - stall_read m), cycles_read m)
            :: fdiv_log m)) /\
  (forall (fuel : nat) (timeout_ms : Z) (m m' : Drv.machine)
          (st : Drv.npu_status_t),
     Drv.state (Drv.ctx_obj m) <> Drv.NPU_STATE_RUNNING ->
     Drv.npu_run fuel (Some tt) timeout_ms m = Some (st, m') ->
     let total := Drv.total_cycles (Drv.perf_stats (Drv.ctx_obj m')) in
     let stall := Drv.stall_cycles (Drv.perf_stats (Drv.ctx_obj m')) in
     0 <= total /\
     (total = 0 ->
        Drv.utilization (Drv.perf_stats (Drv.ctx_obj m')) = f32_zero /\
        Drv.fdiv_log m' = Drv.fdiv_log m) /\
     (total > 0 ->
        Drv.utilization (Drv.perf_stats (Drv.ctx_obj m'))
          = f32_mul (f32_div (f32_of_Z (u64 (total - stall))) (f32_of_Z total))
                    (f32_of_Z 100) /\
        Drv.fdiv_log m' = (u64 (total - stall), total) :: Drv.fdiv_log m)).
Proof.
  split.
  - intros m.
    destruct (fw_update_perf_stats_guarded m) as [m' [Hu [Ht [Hz Hp]]]].
    exists m'. split; [exact Hu |].
    split; [apply fw_get_perf_reports, Hu |].
    split; [exact Ht |]. split; [apply cycles_read_nonneg |].
    split; assumption.
  - intros fuel timeout_ms m m' st. apply drv_npu_run_perf.
Qed.

Lemma perf_utilization_guarded_witness :
  cycles_read (initialized_machine 0) = 0 /\
  exists m',
    update_perf_stats (initialized_machine 0) = Some (tt, m') /\
    pe_utilization (perf (g_ctx m')) = f32_zero.
Proof.
  split; [reflexivity |].
  destruct (proj1 perf_utilization_guarded (initialized_machine 0))
    as [m' [Hu [_ [_ [_ [Hz _]]]]]].
  exists m'. split; [exact Hu |].
  exact (proj1 (Hz eq_refl)).
Defined.

(** C10 as stated fails in the firmware: a first read with 100 cycles
    and 50 stall cycles stores a utilization of 50; a second read finds
    the counters at 0 and still reports that 50. *)
Lemma perf_stale_counterexample :
  pe_utilization (perf (g_ctx machine_counters_then_reset)) = f32_zero /\
  option_map (fun r => snd (fst r))
    (bind (npu_rt_get_perf (Some tt)) (fun _ => npu_rt_get_perf (Some tt))
          machine_counters_then_reset)
  = Some (Some (mkPerf 0 50 0 0 0 0 0 (f32_of_Z 50) f32_zero)) /\
  f32_of_Z 50 <> f32_zero.
Proof.
  split_all; now vm_compute.
Qed.

(** ** The code on concrete inputs *)

(** The 32-to-32 channel convolution runs to completion: its 17
    instructions are copied to the instruction buffer, the size and
    pointer registers are written, and the context ends in state Done. *)
Example exec_conv_32x32_runs :
  option_map fst (npu_rt_exec_conv 1 (Some conv_32x32_relu)
                    (initialized_machine STATUS_DONE))
    = Some FW_OK /\
  state (g_ctx (after (npu_rt_exec_conv 1 (Some conv_32x32_relu))
                  (initialized_machine STATUS_DONE)))
    = NPU_STATE_DONE /\
  inst_count (g_ctx (after (npu_rt_exec_conv 1 (Some conv_32x32_relu))
                       (initialized_machine STATUS_DONE)))
    = 17 /\
  stores_in_bounds CONV_INST_BUF_LEN (conv_build conv_32x32_relu) = true /\
  last_reg_write REG_INST_SIZE
    (dev_log (dev (after (npu_rt_exec_conv 1 (Some conv_32x32_relu))
                     (initialized_machine STATUS_DONE))))
    = Some 17.
Proof. split_all; now vm_compute. Qed.

(** A well-formed model image is accepted by the firmware: the
    instruction and the four weight bytes reach their buffers. *)
Example load_model_accepts_valid_image :
  npu_rt_load_model 1 (Some (model_image MODEL_MAGIC MODEL_VERSION))
    model_image_size (initialized_machine 0)
  = Some (FW_OK,
          after (npu_rt_load_model 1 (Some (model_image MODEL_MAGIC MODEL_VERSION))
                   model_image_size) (initialized_machine 0)) /\
  firstn 7
    (dev_log (dev (after (npu_rt_load_model 1
                            (Some (model_image MODEL_MAGIC MODEL_VERSION))
                            model_image_size) (initialized_machine 0))))
  = [ EvRegWrite REG_WEIGHT_SIZE 4;
      EvStore8 (NPU_WEIGHT_BUF_BASE + 3) 4;
      EvStore8 (NPU_WEIGHT_BUF_BASE + 2) 3;
      EvStore8 (NPU_WEIGHT_BUF_BASE + 1) 2;
      EvStore8 NPU_WEIGHT_BUF_BASE 1;
      EvRegWrite REG_INST_PTR 0;
      EvRegWrite REG_INST_SIZE 1 ].
Proof. split_all; now vm_compute. Qed.

(** The host loader accepts the image it is meant for. *)
Example load_memory_accepts_valid_image :
  fst (Rt.npu_model_load_memory (Some tt)
         (Some (Rt.model_image Rt.NPU_MODEL_MAGIC Rt.NPU_MODEL_VERSION))
         Rt.model_image_size Rt.fresh_world)
  = Some 0%nat.
Proof. now vm_compute. Qed.

(** In state Idle the driver loads an instruction array that fits. *)
Example driver_load_idle :
  Drv.state (Drv.ctx_obj (Drv.initialized_machine 0)) = Drv.NPU_STATE_IDLE /\
  option_map fst
    (Drv.npu_load_instructions (Some tt)
       (Some (buf_of_list 0 [INST_CLEAR_ACC; INST_HALT])) 2
       (Drv.initialized_machine 0))
  = Some Drv.NPU_OK /\
  firstn 5
    (dev_log (Drv.dev (Drv.after
       (Drv.npu_load_instructions (Some tt)
          (Some (buf_of_list 0 [INST_CLEAR_ACC; INST_HALT])) 2)
       (Drv.initialized_machine 0))))
  = [ EvRegWrite 0x40000108 0;
      EvRegWrite 0x40000104 2;
      EvRegWrite 0x40000100 0x40100000;
      EvStore64 0x40100008 INST_HALT;
      EvStore64 0x40100000 INST_CLEAR_ACC ].
Proof. split_all; now vm_compute. Qed.

(** A wait that finds done at its first poll returns at once. *)
Example wait_done_at_first_poll :
  option_map fst (npu_rt_wait 1 1000 (running_machine STATUS_DONE))
    = Some FW_OK /\
  dev_clock_us (dev (after (npu_rt_wait 1 1000) (running_machine STATUS_DONE)))
    = dev_clock_us (dev (running_machine STATUS_DONE)).
Proof. split_all; now vm_compute. Qed.

(** * Further properties of the code *)

(** ** Instruction words *)

(** Testing one bit with a mask. *)
Lemma land_pow2_eqb (x k : Z) :
  0 <= k -> (Z.land x (2 ^ k) =? 0) = negb (Z.testbit x k).
Proof.
  intros Hk. destruct (Z.testbit x k) eqn:Hb; cbn [negb].
  - apply Z.eqb_neq. intros H0.
    assert (Ht : Z.testbit (Z.land x (2 ^ k)) k = false)
      by (rewrite H0; apply Z.bits_0).
    rewrite Z.land_spec, Hb, Z.pow2_bits_true in Ht by lia. discriminate.
  - apply Z.eqb_eq. apply Z.bits_inj'. intros i Hi.
    rewrite Z.land_spec, Z.bits_0, Z.pow2_bits_eqb by lia.
    destruct (Z.eqb_spec k i) as [<- | Hne].
    + rewrite Hb. reflexivity.
    + apply andb_false_r.
Qed.

(** X1.  Encoding is the inverse of decoding: for every 64-bit word
    [w], building an instruction from the opcode, the flags and the
    operands that the three accessors read from [w] gives [w] back. *)
Theorem encode_decoded_word (w : Z) :
  0 <= w < 2 ^ 64 ->
  MAKE_INST (inst_get_opcode w) (inst_get_flags w) (inst_get_operands w) = w.
Proof.
  intros Hw.
  assert (Hop : inst_get_opcode w = w / 2 ^ 56).
  { unfold inst_get_opcode. rewrite Z.shiftr_div_pow2 by lia.
    change 0xFF with (Z.ones 8). rewrite Z.land_ones by lia.
    apply Z.mod_small. split; [apply Z.div_pos; lia |].
    apply Z.div_lt_upper_bound; lia. }
  assert (Hfl : inst_get_flags w = (w / 2 ^ 48) mod 2 ^ 8).
  { unfold inst_get_flags. rewrite Z.shiftr_div_pow2 by lia.
    change 0xFF with (Z.ones 8). apply Z.land_ones. lia. }
  assert (Hops : inst_get_operands w = w mod 2 ^ 48).
  { unfold inst_get_operands. apply operand_mask_mod. }
  assert (Hf8 : 0 <= (w / 2 ^ 48) mod 2 ^ 8 < 2 ^ 8)
    by (apply Z.mod_pos_bound; lia).
  assert (Hlow : 0 <= w mod 2 ^ 48 < 2 ^ 48) by (apply Z.mod_pos_bound; lia).
  assert (Ho8 : 0 <= w / 2 ^ 56 < 2 ^ 8).
  { split; [apply Z.div_pos; lia | apply Z.div_lt_upper_bound; lia]. }
  rewrite Hop, Hfl, Hops.
  rewrite MAKE_INST_arith by (unfold is_u8; lia).
  rewrite (u64_small (w mod 2 ^ 48)) by lia.
  rewrite Z.mod_mod by lia.
  pose proof (Z.div_mod w (2 ^ 48) ltac:(lia)) as H1.
  pose proof (Z.div_mod (w / 2 ^ 48) (2 ^ 8) ltac:(lia)) as H2.
  assert (H3 : w / 2 ^ 48 / 2 ^ 8 = w / 2 ^ 56).
  { rewrite Z.div_div by lia. reflexivity. }
  rewrite H3 in H2. lia.
Qed.

Lemma encode_decoded_word_witness :
  0 <= 0x2810ABCDEF012345 < 2 ^ 64 /\
  MAKE_INST (inst_get_opcode 0x2810ABCDEF012345)
            (inst_get_flags 0x2810ABCDEF012345)
            (inst_get_operands 0x2810ABCDEF012345)
  = 0x2810ABCDEF012345.
Proof.
  assert (H : 0 <= 0x2810ABCDEF012345 < 2 ^ 64) by (split; now vm_compute).
  split; [exact H |].
  exact (encode_decoded_word 0x2810ABCDEF012345 H).
Defined.

(** *** DMA instruction builders *)

Lemma testbit_u64_low (x j : Z) :
  j < 64 -> Z.testbit (u64 x) j = Z.testbit x j.
Proof. intros Hj. unfold u64. apply Z.mod_pow2_bits_low, Hj. Qed.

Lemma testbit_shl64 (x n i : Z) :
  0 <= n -> 0 <= i < 64 ->
  Z.testbit (shl64 x n) i = Z.testbit x (i - n).
Proof.
  intros Hn Hi. unfold shl64. rewrite testbit_u64_low by lia.
  apply Z.shiftl_spec. lia.
Qed.

(** Bits of the operand word of a DMA instruction below bit 48. *)
Lemma dma_operands_bits (src dst len i : Z) :
  0 <= i < 48 ->
  Z.testbit (dma_operands src dst len) i
  = Z.testbit src i || Z.testbit dst (i - 24) || Z.testbit len (i - 40).
Proof.
  intros Hi. unfold dma_operands.
  rewrite !Z.lor_spec, !testbit_shl64, !testbit_u64_low by lia.
  reflexivity.
Qed.

Lemma masked_operands_ext (a b : Z) :
  (forall i, 0 <= i < 48 -> Z.testbit a i = Z.testbit b i) ->
  Z.land (u64 a) OPERAND_MASK = Z.land (u64 b) OPERAND_MASK.
Proof.
  intros H. apply Z.bits_inj'. intros i Hi.
  rewrite !Z.land_spec. change OPERAND_MASK with (Z.ones 48).
  rewrite Z.testbit_ones_nonneg by lia.
  destruct (Z.ltb_spec i 48) as [Hlt | Hge].
  - rewrite !testbit_u64_low by lia. rewrite H by lia. reflexivity.
  - rewrite !andb_false_r. reflexivity.
Qed.

Lemma MAKE_INST_operands_ext (op fl a b : Z) :
  (forall i, 0 <= i < 48 -> Z.testbit a i = Z.testbit b i) ->
  MAKE_INST op fl a = MAKE_INST op fl b.
Proof.
  intros H. unfold MAKE_INST. rewrite (masked_operands_ext a b H).
  reflexivity.
Qed.

Lemma dma_operands_truncated (src dst len : Z) (i : Z) :
  0 <= i < 48 ->
  Z.testbit (dma_operands src dst len) i
  = Z.testbit (dma_operands src (dst mod 2 ^ 24) (len mod 2 ^ 8)) i.
Proof.
  intros Hi. rewrite !dma_operands_bits by lia.
  rewrite (Z.mod_pow2_bits_low dst 24) by lia.
  rewrite (Z.mod_pow2_bits_low len 8) by lia.
  reflexivity.
Qed.

(** X2.  A DMA instruction keeps only the low 8 bits of the transfer
    length and the low 24 bits of the destination it is given: the
    three DMA builders return the same word for [len] and
    [len mod 256], and for [dst] and [dst mod 2^24]. *)
Theorem dma_inst_truncates_fields (src dst len : Z) :
  INST_DMA_LOAD_W src dst len
    = INST_DMA_LOAD_W src (dst mod 2 ^ 24) (len mod 2 ^ 8) /\
  INST_DMA_LOAD_A src dst len
    = INST_DMA_LOAD_A src (dst mod 2 ^ 24) (len mod 2 ^ 8) /\
  INST_DMA_STORE src dst len
    = INST_DMA_STORE src (dst mod 2 ^ 24) (len mod 2 ^ 8).
Proof.
  unfold INST_DMA_LOAD_W, INST_DMA_LOAD_A, INST_DMA_STORE.
  split_all; apply MAKE_INST_operands_ext; intros i Hi;
    apply dma_operands_truncated, Hi.
Qed.

(** *** Flag tests *)

Ltac u8_const := unfold is_u8; split; now vm_compute.

(** ** Layer lowering *)

Lemma not_last_MAKE_INST (op fl ops : Z) :
  is_u8 op -> is_u8 fl -> Z.testbit fl 0 = false ->
  inst_is_last (MAKE_INST op fl ops) = false.
Proof.
  intros Hop Hfl Hb. unfold inst_is_last.
  rewrite inst_get_flags_MAKE_INST by assumption.
  change FLAG_LAST with (2 ^ 0).
  rewrite land_pow2_eqb, negb_involutive by lia. exact Hb.
Qed.

Lemma activation_flags_not_last (act : activation_type_t) :
  Z.testbit (get_activation_flags act) 0 = false.
Proof. destruct act; reflexivity. Qed.

Lemma not_last_WAIT_DMA : inst_is_last INST_WAIT_DMA = false.
Proof. now vm_compute. Qed.

Lemma not_last_CLEAR_ACC : inst_is_last INST_CLEAR_ACC = false.
Proof. now vm_compute. Qed.

Lemma tile_pairs_not_last (fl : Z) (k : nat) (oc_count : Z) :
  is_u8 fl -> Z.testbit fl 0 = false ->
  Forall (fun inst => inst_is_last inst = false) (tile_pairs fl k oc_count).
Proof.
  intros Hfl Hb. unfold tile_pairs. apply Forall_flat_map.
  apply Forall_forall. intros ic_t _.
  apply Forall_cons; [| apply Forall_cons; [| apply Forall_nil]].
  - unfold INST_LOAD_WEIGHT.
    apply not_last_MAKE_INST; [u8_const | u8_const | reflexivity].
  - unfold INST_COMPUTE.
    destruct (Nat.eqb (S ic_t) k).
    + apply not_last_MAKE_INST; [u8_const | assumption | assumption].
    + apply not_last_MAKE_INST; [u8_const | u8_const | reflexivity].
Qed.

Lemma tile_block_not_last (layer : layer_desc_t) (fl : Z) (n k t : nat) :
  is_u8 fl -> Z.testbit fl 0 = false ->
  Forall (fun inst => inst_is_last inst = false) (tile_block layer fl n k t).
Proof.
  intros Hfl Hb. unfold tile_block. cbv zeta.
  apply Forall_app. split.
  { apply Forall_cons; [| apply Forall_cons; [| apply Forall_nil]].
    - unfold INST_DMA_LOAD_W.
      apply not_last_MAKE_INST; [u8_const | u8_const | reflexivity].
    - apply not_last_WAIT_DMA. }
  apply Forall_app. split; [apply tile_pairs_not_last; assumption |].
  apply Forall_app. split.
  { apply Forall_cons; [| apply Forall_nil]. unfold INST_DRAIN.
    apply not_last_MAKE_INST; [u8_const | u8_const | reflexivity]. }
  destruct (Nat.ltb (S t) n); [| apply Forall_nil].
  apply Forall_cons; [apply not_last_CLEAR_ACC | apply Forall_nil].
Qed.

(** X3.  For a layer whose sequence has at most 256 instructions, every
    store of [npu_rt_exec_conv] is inside its 256-entry array, the final
    instruction stored is [HALT], which carries [FLAG_LAST], and no
    instruction before it carries that flag. *)
Theorem conv_halt_is_the_only_last (layer : layer_desc_t) :
  conv_inst_count layer <= CONV_INST_BUF_LEN ->
  stores_in_bounds CONV_INST_BUF_LEN (conv_build layer) = true /\
  exists body,
    emitted (conv_build layer) = body ++ [INST_HALT] /\
    inst_is_last INST_HALT = true /\
    Forall (fun inst => inst_is_last inst = false) body.
Proof.
  intros Hfit. split; [apply conv_count_in_bounds, Hfit |].
  rewrite conv_build_spec. unfold conv_sequence_spec.
  eexists. split; [rewrite app_assoc; reflexivity |].
  split; [reflexivity |].
  apply Forall_app. split.
  { apply Forall_cons; [apply not_last_CLEAR_ACC | apply Forall_nil]. }
  apply Forall_flat_map, Forall_forall. intros t _.
  apply tile_block_not_last.
  - apply activation_flags_u8.
  - apply activation_flags_not_last.
Qed.

Lemma conv_halt_is_the_only_last_witness :
  conv_inst_count conv_32x32_relu <= CONV_INST_BUF_LEN /\
  exists body,
    emitted (conv_build conv_32x32_relu) = body ++ [INST_HALT] /\
    inst_is_last INST_HALT = true /\
    Forall (fun inst => inst_is_last inst = false) body.
Proof.
  assert (Hfit : conv_inst_count conv_32x32_relu <= CONV_INST_BUF_LEN)
    by now vm_compute.
  split; [exact Hfit |].
  exact (proj2 (conv_halt_is_the_only_last conv_32x32_relu Hfit)).
Defined.

Lemma conv_tiles_u16 (c : Z) :
  is_u16 c -> u32 (u32 (c + 16 - 1) / 16) = (c + 15) / 16.
Proof.
  unfold is_u16. intros Hc.
  rewrite (u32_small (c + 16 - 1)) by lia.
  replace (c + 16 - 1) with (c + 15) by lia.
  apply u32_small. split; [apply Z.div_pos; lia |].
  apply Z.div_lt_upper_bound; lia.
Qed.

(** X4.  For a layer with [out_ch] output and [in_ch] input channels,
    let [count = 2 + n * (3 + 2 * k) + max 0 (n - 1)] with [n =
    ceil(out_ch / 16)] and [k = ceil(in_ch / 16)].  The stores of
    [npu_rt_exec_conv] stay inside the 256-entry local buffer exactly
    when [count] is at most 256, and then it stores exactly [count]
    instructions and leaves [inst_idx] at [count]. *)
Theorem conv_instruction_count (layer : layer_desc_t) :
  is_u16 (dim_c (input layer)) -> is_u16 (dim_c (output layer)) ->
  let n := (dim_c (output layer) + 15) / 16 in
  let k := (dim_c (input layer) + 15) / 16 in
  let count := 2 + n * (3 + 2 * k) + Z.max 0 (n - 1) in
  (stores_in_bounds CONV_INST_BUF_LEN (conv_build layer) = true
   <-> count <= 256) /\
  (count <= 256 ->
   Z.of_nat (length (emitted (conv_build layer))) = count /\
   inst_idx (conv_build layer) = count).
Proof.
  intros Hi Ho n k count.
  assert (Hn : conv_oc_tiles layer = n) by (apply conv_tiles_u16, Ho).
  assert (Hk : conv_ic_tiles layer = k) by (apply conv_tiles_u16, Hi).
  assert (Hc : conv_inst_count layer = count).
  { unfold conv_inst_count. cbv zeta. rewrite Hn, Hk. reflexivity. }
  assert (Hlen : Z.of_nat (length (emitted (conv_build layer))) = count).
  { unfold emitted. rewrite length_map, conv_build_count. exact Hc. }
  assert (Hnr : 0 <= n <= 4096).
  { pose proof (u16_tiles_le _ Ho) as H. rewrite conv_tiles_u16 in H by exact Ho.
    exact H. }
  assert (Hkr : 0 <= k <= 4096).
  { pose proof (u16_tiles_le _ Hi) as H. rewrite conv_tiles_u16 in H by exact Hi.
    exact H. }
  split.
  - rewrite <- Hc. apply conv_in_bounds_iff; assumption.
  - intros Hfit. split; [exact Hlen |].
    rewrite conv_build_emit_all in Hlen |- *.
    rewrite emitted_emit_all in Hlen. cbn [emitted emit_init stores map app] in Hlen.
    match goal with |- inst_idx (emit_all ?l _) = _ =>
      destruct (store_indices_emit_all l emit_init) as [Hidx _] end.
    + cbn. lia.
    + cbn [emit_init inst_idx]. rewrite Hlen. lia.
    + rewrite Hidx. cbn [emit_init inst_idx]. lia.
Qed.

Lemma conv_instruction_count_witness :
  (is_u16 (dim_c (input conv_32x32_relu)) /\
   is_u16 (dim_c (output conv_32x32_relu))) /\
  inst_idx (conv_build conv_32x32_relu) = 17 /\
  stores_in_bounds CONV_INST_BUF_LEN (conv_build conv_32x32_relu) = true.
Proof.
  assert (Hi : is_u16 (dim_c (input conv_32x32_relu)))
    by (unfold is_u16; split; now vm_compute).
  assert (Ho : is_u16 (dim_c (output conv_32x32_relu)))
    by (unfold is_u16; split; now vm_compute).
  split; [exact (conj Hi Ho) |].
  destruct (conv_instruction_count conv_32x32_relu Hi Ho) as [Hb Hcnt].
  split; [apply Hcnt; now vm_compute |].
  apply Hb. now vm_compute.
Defined.

(** *** Pooling and element-wise lowering *)

Lemma forallb_fst {A B : Type} (p : A -> bool) (l : list (A * B)) :
  forallb (fun q => p (fst q)) l = forallb p (map fst l).
Proof.
  induction l as [| q l IH]; [reflexivity |].
  cbn [forallb map]. rewrite IH. reflexivity.
Qed.

(** A sequence stored from slot 0 stays inside a buffer that has room
    for it. *)
Lemma emit_all_in_bounds (l : list Z) (len : Z) :
  Z.of_nat (length l) <= len -> len < 2 ^ 32 ->
  inst_idx (emit_all l emit_init) = Z.of_nat (length l) /\
  stores_in_bounds len (emit_all l emit_init) = true.
Proof.
  intros Hle Hlen.
  destruct (store_indices_emit_all l emit_init) as [Hidx Hfst].
  { cbn. lia. }
  { cbn [emit_init inst_idx]. lia. }
  cbn [emit_init inst_idx stores map app] in Hidx, Hfst.
  split; [lia |].
  unfold stores_in_bounds.
  rewrite (forallb_fst (fun i => (0 <=? i) && (i <? len))), Hfst.
  apply forallb_forall. intros i Hin.
  apply in_map_iff in Hin. destruct Hin as [k [<- Hk]].
  apply in_seq in Hk. apply andb_true_iff. split.
  - apply Z.leb_le. lia.
  - apply Z.ltb_lt. lia.
Qed.

Lemma pool_operands_arith (a b c d : Z) :
  is_u8 a -> is_u8 b -> is_u8 c -> is_u8 d ->
  Z.lor (Z.lor (Z.lor (u64 a) (shl64 (u64 b) 8)) (shl64 (u64 c) 16))
        (shl64 (u64 d) 24)
  = a + b * 2 ^ 8 + c * 2 ^ 16 + d * 2 ^ 24.
Proof.
  unfold is_u8, shl64. intros Ha Hb Hc Hd.
  rewrite (u64_small a), (u64_small b), (u64_small c), (u64_small d) by lia.
  rewrite !Z.shiftl_mul_pow2 by lia.
  rewrite (u64_small (b * 2 ^ 8)), (u64_small (c * 2 ^ 16)),
    (u64_small (d * 2 ^ 24)) by lia.
  rewrite (Z.lor_comm a), (lor_shifted_add b a 8) by lia.
  rewrite (Z.lor_comm _ (c * 2 ^ 16)), (lor_shifted_add c _ 16) by lia.
  rewrite (Z.lor_comm _ (d * 2 ^ 24)), (lor_shifted_add d _ 24) by lia.
  lia.
Qed.

Lemma opcode_DMA_LOAD_A (src dst len : Z) :
  inst_get_opcode (INST_DMA_LOAD_A src dst len) = OP_DMA_LOAD_A.
Proof.
  unfold INST_DMA_LOAD_A.
  apply (inst_get_opcode_MAKE_INST OP_DMA_LOAD_A 0); u8_const.
Qed.

Lemma opcode_DMA_STORE (src dst len : Z) :
  inst_get_opcode (INST_DMA_STORE src dst len) = OP_DMA_STORE.
Proof.
  unfold INST_DMA_STORE.
  apply (inst_get_opcode_MAKE_INST OP_DMA_STORE 0); u8_const.
Qed.

Lemma pool_build_emit_all (layer : layer_desc_t) :
  pool_build layer
  = emit_all
      [ INST_DMA_LOAD_A (addr (input layer)) 0 (TENSOR_BYTES (input layer));
        INST_WAIT_DMA;
        MAKE_INST (match type layer with
                   | LAYER_GLOBAL_AVGPOOL => OP_GLOBAL_AVGPOOL
                   | LAYER_MAXPOOL => OP_MAXPOOL
                   | _ => OP_AVGPOOL
                   end) 0
          (Z.lor (Z.lor (Z.lor (u64 (pool_h layer))
                               (shl64 (u64 (pool_w layer)) 8))
                        (shl64 (u64 (pool_stride_h layer)) 16))
                 (shl64 (u64 (pool_stride_w layer)) 24));
        INST_DMA_STORE 0 (addr (output layer)) (TENSOR_BYTES (output layer));
        INST_WAIT_DMA;
        INST_HALT ]
      emit_init.
Proof. reflexivity. Qed.

(** X5.  [npu_rt_exec_pool] always builds six instructions, inside its
    32-entry buffer: input load, DMA wait, the pooling instruction,
    output store, DMA wait, halt.  The pooling opcode is max-pool for a
    max-pool layer, global average for a global-average layer and
    average pooling for every other layer type; its operand field
    holds the window height in bits 0-7, the window width in bits 8-15
    and the two strides in bits 16-23 and 24-31. *)
Theorem pool_sequence (layer : layer_desc_t) :
  is_u8 (pool_h layer) -> is_u8 (pool_w layer) ->
  is_u8 (pool_stride_h layer) -> is_u8 (pool_stride_w layer) ->
  map inst_get_opcode (emitted (pool_build layer))
  = [ OP_DMA_LOAD_A; OP_WAIT_DMA;
      match type layer with
      | LAYER_MAXPOOL => OP_MAXPOOL
      | LAYER_GLOBAL_AVGPOOL => OP_GLOBAL_AVGPOOL
      | _ => OP_AVGPOOL
      end;
      OP_DMA_STORE; OP_WAIT_DMA; OP_HALT ] /\
  inst_idx (pool_build layer) = 6 /\
  stores_in_bounds POOL_INST_BUF_LEN (pool_build layer) = true /\
  inst_get_operands (nth 2 (emitted (pool_build layer)) 0)
  = pool_h layer + pool_w layer * 2 ^ 8
    + pool_stride_h layer * 2 ^ 16 + pool_stride_w layer * 2 ^ 24.
Proof.
  intros Hh Hw Hsh Hsw.
  rewrite pool_build_emit_all.
  match goal with |- context [emit_all ?l emit_init] =>
    destruct (emit_all_in_bounds l POOL_INST_BUF_LEN) as [Hidx Hb];
      [cbn [length]; unfold POOL_INST_BUF_LEN; lia
      | unfold POOL_INST_BUF_LEN; lia |]
  end.
  rewrite emitted_emit_all. cbn [emitted emit_init stores map app nth].
  split; [| split; [exact Hidx | split; [exact Hb |]]].
  - rewrite opcode_DMA_LOAD_A, opcode_WAIT_DMA, opcode_DMA_STORE, opcode_HALT.
    rewrite inst_get_opcode_MAKE_INST;
      [destruct (type layer); reflexivity
      | destruct (type layer); u8_const | u8_const].
  - rewrite inst_get_operands_MAKE_INST;
      [| destruct (type layer); u8_const | u8_const].
    rewrite pool_operands_arith by assumption.
    unfold is_u8 in *. rewrite u64_small by lia.
    rewrite operand_mask_mod. apply Z.mod_small. lia.
Qed.

Lemma pool_sequence_witness :
  (is_u8 2 /\ is_u8 2) /\
  inst_get_operands
    (nth 2 (emitted (pool_build
       (mkLayer LAYER_MAXPOOL ACT_NONE
          (mkTensor 0 1 16 8 8 0 0 0 1) (mkTensor 0x8000 1 16 4 4 0 0 0 1)
          (mkTensor 0 0 0 0 0 0 0 0 0) (mkTensor 0 0 0 0 0 0 0 0 0)
          0 0 0 0 0 0 0 0 0 0 0 2 2 2 2 1 0 0 0 0))) 0)
  = 2 + 2 * 2 ^ 8 + 2 * 2 ^ 16 + 2 * 2 ^ 24.
Proof.
  assert (H2 : is_u8 2) by u8_const.
  split; [exact (conj H2 H2) |].
  exact (proj2 (proj2 (proj2 (pool_sequence
    (mkLayer LAYER_MAXPOOL ACT_NONE
       (mkTensor 0 1 16 8 8 0 0 0 1) (mkTensor 0x8000 1 16 4 4 0 0 0 1)
       (mkTensor 0 0 0 0 0 0 0 0 0) (mkTensor 0 0 0 0 0 0 0 0 0)
       0 0 0 0 0 0 0 0 0 0 0 2 2 2 2 1 0 0 0 0)
    H2 H2 H2 H2)))).
Defined.

Lemma eltwise_build_emit_all (layer : layer_desc_t) (input2 : tensor_desc_t) :
  eltwise_build layer input2
  = emit_all
      [ INST_DMA_LOAD_A (addr (input layer)) 0 (TENSOR_BYTES (input layer));
        INST_WAIT_DMA;
        INST_DMA_LOAD_A (addr input2) (TENSOR_BYTES (input layer))
                        (TENSOR_BYTES (input layer));
        INST_WAIT_DMA;
        MAKE_INST OP_ADD (get_activation_flags (activation layer)) 0;
        INST_DMA_STORE 0 (addr (output layer)) (TENSOR_BYTES (output layer));
        INST_WAIT_DMA;
        INST_HALT ]
      emit_init.
Proof. reflexivity. Qed.

(** X6.  [npu_rt_exec_eltwise] always builds eight instructions, inside
    its 32-entry buffer: two input loads each followed by a DMA wait,
    an add, the output store, a DMA wait and the halt.  The add carries
    the ReLU flag exactly for the activations ReLU and ReLU6, and of the
    second input only the address is used: the sequence is the same for
    any two second-input descriptors with the same address. *)
Theorem eltwise_sequence (layer : layer_desc_t) (input2 : tensor_desc_t) :
  map inst_get_opcode (emitted (eltwise_build layer input2))
  = [ OP_DMA_LOAD_A; OP_WAIT_DMA; OP_DMA_LOAD_A; OP_WAIT_DMA; OP_ADD;
      OP_DMA_STORE; OP_WAIT_DMA; OP_HALT ] /\
  inst_idx (eltwise_build layer input2) = 8 /\
  stores_in_bounds ELTWISE_INST_BUF_LEN (eltwise_build layer input2) = true /\
  inst_get_flags (nth 4 (emitted (eltwise_build layer input2)) 0)
  = match activation layer with
    | ACT_RELU | ACT_RELU6 => FLAG_RELU
    | _ => 0
    end /\
  (forall input2' : tensor_desc_t,
     addr input2' = addr input2 ->
     eltwise_build layer input2' = eltwise_build layer input2).
Proof.
  rewrite eltwise_build_emit_all.
  match goal with |- context [emit_all ?l emit_init] =>
    destruct (emit_all_in_bounds l ELTWISE_INST_BUF_LEN) as [Hidx Hb];
      [cbn [length]; unfold ELTWISE_INST_BUF_LEN; lia
      | unfold ELTWISE_INST_BUF_LEN; lia |]
  end.
  rewrite emitted_emit_all. cbn [emitted emit_init stores map app nth].
  split; [| split; [exact Hidx | split; [exact Hb | split]]].
  - rewrite !opcode_DMA_LOAD_A, opcode_WAIT_DMA, opcode_DMA_STORE, opcode_HALT.
    rewrite inst_get_opcode_MAKE_INST;
      [reflexivity | u8_const | apply activation_flags_u8].
  - rewrite inst_get_flags_MAKE_INST;
      [reflexivity | u8_const | apply activation_flags_u8].
  - intros input2' Haddr. rewrite eltwise_build_emit_all, Haddr. reflexivity.
Qed.

Lemma eltwise_sequence_witness :
  eltwise_build conv_32x32_relu (mkTensor 0x4000 1 1 1 1 0 0 0 1)
  = eltwise_build conv_32x32_relu (mkTensor 0x4000 1 32 8 8 0 0 0 1).
Proof.
  exact (proj2 (proj2 (proj2 (proj2
    (eltwise_sequence conv_32x32_relu (mkTensor 0x4000 1 32 8 8 0 0 0 1)))))
    (mkTensor 0x4000 1 1 1 1 0 0 0 1) eq_refl).
Defined.

(** ** Firmware runtime: loading *)

(** A loop of device updates inside the machine is a loop on the
    device. *)
Lemma for_loop_with_dev (n : Z) (f : Z -> device -> device) (m : machine) :
  for_loop n (fun i => with_dev (f i)) m = with_dev (for_loop n f) m.
Proof.
  unfold for_loop. generalize (seq 0 (Z.to_nat n)) as l.
  intros l. revert m. induction l as [| i l IH]; intros m.
  - destruct m; reflexivity.
  - cbn [fold_left]. rewrite IH. destruct m; reflexivity.
Qed.

(** Events a loop of stores appends to the log, most recent first. *)
Lemma for_loop_log (n : Z) (ev : Z -> dev_event) (f : Z -> device -> device)
  (d : device) :
  (forall i d', f i d' = mkDevice (ev i :: dev_log d') (dev_reads d')
                           (dev_clock_us d') (dev_oracle d')) ->
  for_loop n f d
  = mkDevice (rev (map (fun i => ev (Z.of_nat i)) (seq 0 (Z.to_nat n)))
              ++ dev_log d)
             (dev_reads d) (dev_clock_us d) (dev_oracle d).
Proof.
  intros Hf. unfold for_loop.
  generalize (Z.to_nat n) as k. intros k.
  induction k as [| k IH].
  - destruct d; reflexivity.
  - rewrite seq_S, fold_left_app, IH. cbn [fold_left Nat.add].
    rewrite Hf. cbn [dev_log dev_reads dev_clock_us dev_oracle].
    rewrite map_app, rev_app_distr. reflexivity.
Qed.

Lemma word_copy_loop (base : Z) (elem : Z -> Z) (count : Z) (d : device) :
  for_loop count (fun i => dev_store64 (base + 8 * i) (elem i)) d
  = dev_logged (word_copy_events base elem count) d.
Proof.
  apply (for_loop_log count
           (fun i => EvStore64 (base + 8 * i) (u64 (elem i)))).
  reflexivity.
Qed.

Lemma byte_copy_loop (base : Z) (elem : Z -> Z) (size : Z) (d : device) :
  for_loop size (fun i => dev_store8 (base + i) (elem i)) d
  = dev_logged (byte_copy_events base elem size) d.
Proof.
  apply (for_loop_log size (fun i => EvStore8 (base + i) (u8 (elem i)))).
  reflexivity.
Qed.

(** The machine [npu_rt_load_instructions] leaves on success. *)
Lemma fw_load_instructions_ok (buf : host_buf) (count : Z) (m : machine) :
  g_initialized m = true -> 0 < count <= NPU_INST_BUF_ENTRIES ->
  npu_rt_load_instructions (Some buf) count m
  = Some (FW_OK,
          with_ctx (fun c => set_inst_ptr 0 (set_inst_count count c))
            (with_dev (fun d =>
               dev_logged
                 ([EvRegWrite REG_INST_PTR 0; EvRegWrite REG_INST_SIZE count]
                  ++ word_copy_events NPU_INST_BUF_BASE (hb_elem buf) count) d)
               m)).
Proof.
  intros Hinit Hc. unfold npu_rt_load_instructions.
  unfold bind at 1. unfold gets. rewrite Hinit. cbn [negb].
  assert (H0 : (count =? 0) = false) by (apply Z.eqb_neq; lia).
  assert (H1 : (count >? NPU_INST_BUF_ENTRIES) = false).
  { rewrite Z.gtb_ltb. apply Z.ltb_ge. lia. }
  rewrite H0, H1.
  unfold bind, modify, REG_WRITE, ret.
  rewrite for_loop_with_dev.
  unfold with_ctx, with_dev. cbn [g_ctx g_config g_initialized dev fdiv_log].
  rewrite word_copy_loop.
  unfold dev_write32, dev_logged.
  cbn [dev_log dev_reads dev_clock_us dev_oracle].
  assert (Hu : u32 count = count).
  { apply u32_small. unfold NPU_INST_BUF_ENTRIES in Hc. lia. }
  rewrite Hu. change (u32 0) with 0.
  rewrite <- app_assoc. reflexivity.
Qed.

(** X7.  On an initialized runtime, [npu_rt_load_instructions] with
    between 1 and [NPU_INST_BUF_ENTRIES] instructions succeeds in every
    execution state: it stores the first [count] words of the array to
    consecutive 8-byte slots from [NPU_INST_BUF_BASE], then writes the
    count to [REG_INST_SIZE] and 0 to [REG_INST_PTR], and records the
    count and a zero instruction pointer in the context.  It reads no
    register and changes nothing else in the context. *)
Theorem fw_load_instructions_copies (buf : host_buf) (count : Z) (m : machine) :
  g_initialized m = true -> 0 < count <= NPU_INST_BUF_ENTRIES ->
  exists m',
    npu_rt_load_instructions (Some buf) count m = Some (FW_OK, m') /\
    g_ctx m' = set_inst_ptr 0 (set_inst_count count (g_ctx m)) /\
    dev_log (dev m')
    = [EvRegWrite REG_INST_PTR 0; EvRegWrite REG_INST_SIZE count]
      ++ word_copy_events NPU_INST_BUF_BASE (hb_elem buf) count
      ++ dev_log (dev m) /\
    dev_reads (dev m') = dev_reads (dev m) /\
    dev_clock_us (dev m') = dev_clock_us (dev m).
Proof.
  intros Hinit Hc. eexists. split.
  - apply fw_load_instructions_ok; assumption.
  - cbn. split_all; reflexivity.
Qed.

Lemma fw_load_instructions_copies_witness :
  (g_initialized (initialized_machine 0) = true /\
   0 < 2 <= NPU_INST_BUF_ENTRIES) /\
  exists m',
    npu_rt_load_instructions (Some (buf_of_list 0 [INST_CLEAR_ACC; INST_HALT]))
      2 (initialized_machine 0) = Some (FW_OK, m') /\
    dev_log (dev m')
    = [EvRegWrite REG_INST_PTR 0; EvRegWrite REG_INST_SIZE 2;
       EvStore64 (NPU_INST_BUF_BASE + 8) INST_HALT;
       EvStore64 NPU_INST_BUF_BASE INST_CLEAR_ACC]
      ++ dev_log (dev (initialized_machine 0)).
Proof.
  assert (Hi : g_initialized (initialized_machine 0) = true) by reflexivity.
  assert (Hc : 0 < 2 <= NPU_INST_BUF_ENTRIES) by (split; now vm_compute).
  split; [exact (conj Hi Hc) |].
  destruct (fw_load_instructions_copies
              (buf_of_list 0 [INST_CLEAR_ACC; INST_HALT]) 2
              (initialized_machine 0) Hi Hc)
    as [m' [Hrun [_ [Hlog _]]]].
  exists m'. split; [exact Hrun |].
  rewrite Hlog. reflexivity.
Defined.

(** ** Firmware runtime: starting *)

Lemma u32_idem (x : Z) : u32 (u32 x) = u32 x.
Proof. unfold u32. apply Z.mod_mod. lia. Qed.

Lemma u32_land_ones (x : Z) : u32 x = Z.land x (Z.ones 32).
Proof. unfold u32. symmetry. apply Z.land_ones. lia. Qed.

Lemma u32_lor (a b : Z) : u32 (Z.lor a b) = Z.lor (u32 a) (u32 b).
Proof. rewrite !u32_land_ones. apply Z.land_lor_distr_l. Qed.

Lemma u32_range (x : Z) : 0 <= u32 x < 2 ^ 32.
Proof. unfold u32. apply Z.mod_pos_bound. lia. Qed.

Lemma fw_start_ok (m : machine) :
  g_initialized m = true -> is_running (state (g_ctx m)) = false ->
  npu_rt_start m
  = Some (FW_OK,
          with_dev (dev_set32 REG_CTRL CTRL_START)
            (with_ctx (fun c => set_state NPU_STATE_RUNNING
                                  (set_current_layer 0 (set_inst_ptr 0 c)))
               (with_dev (fun d =>
                  dev_logged [EvRegWrite REG_IRQ_STATUS 0xFFFFFFFF;
                              EvRegWrite REG_INST_PTR 0] d) m))).
Proof.
  intros Hinit Hrun. unfold npu_rt_start.
  unfold bind at 1. unfold gets at 1. rewrite Hinit. cbn [negb].
  unfold bind at 1. unfold gets at 1. rewrite Hrun.
  reflexivity.
Qed.

Lemma fw_start_busy (m : machine) :
  g_initialized m = true -> is_running (state (g_ctx m)) = true ->
  npu_rt_start m = Some (FW_ERROR_BUSY, m).
Proof.
  intros Hinit Hrun. unfold npu_rt_start.
  unfold bind at 1. unfold gets at 1. rewrite Hinit. cbn [negb].
  unfold bind at 1. unfold gets at 1. rewrite Hrun.
  reflexivity.
Qed.

Lemma not_running_iff (s : npu_state_t) :
  s <> NPU_STATE_RUNNING <-> is_running s = false.
Proof. destruct s; cbn; split; try congruence; intros; discriminate. Qed.

(** X8.  On an initialized runtime [npu_rt_start] succeeds from every
    state other than Running (Error and Done included): it writes 0 to
    [REG_INST_PTR], clears the interrupt status, sets the start bit in
    [REG_CTRL] on top of the value it reads there, zeroes the
    context's instruction pointer and layer index and enters state
    Running.  A second [npu_rt_start] is then refused with
    [FW_ERROR_BUSY] and changes nothing. *)
Theorem fw_start_then_busy (m : machine) :
  g_initialized m = true -> state (g_ctx m) <> NPU_STATE_RUNNING ->
  exists m',
    npu_rt_start m = Some (FW_OK, m') /\
    g_ctx m' = set_state NPU_STATE_RUNNING
                 (set_current_layer 0 (set_inst_ptr 0 (g_ctx m))) /\
    dev_log (dev m')
    = [EvRegWrite REG_CTRL
         (Z.lor (u32 (dev_oracle (dev m) (dev_reads (dev m)) REG_CTRL))
                CTRL_START);
       EvRegWrite REG_IRQ_STATUS 0xFFFFFFFF;
       EvRegWrite REG_INST_PTR 0]
      ++ dev_log (dev m) /\
    dev_reads (dev m') = S (dev_reads (dev m)) /\
    npu_rt_start m' = Some (FW_ERROR_BUSY, m').
Proof.
  intros Hinit Hst. apply not_running_iff in Hst.
  eexists. split; [apply fw_start_ok; assumption |].
  split; [reflexivity |]. split.
  - cbn. rewrite u32_lor, u32_idem. reflexivity.
  - split; [reflexivity |]. apply fw_start_busy; [exact Hinit | reflexivity].
Qed.

Lemma fw_start_then_busy_witness :
  (g_initialized (initialized_machine 0) = true /\
   state (g_ctx (initialized_machine 0)) <> NPU_STATE_RUNNING) /\
  npu_rt_start (running_machine 0) = Some (FW_ERROR_BUSY, running_machine 0).
Proof.
  assert (Hi : g_initialized (initialized_machine 0) = true) by reflexivity.
  assert (Hs : state (g_ctx (initialized_machine 0)) <> NPU_STATE_RUNNING)
    by discriminate.
  split; [exact (conj Hi Hs) |].
  destruct (fw_start_then_busy (initialized_machine 0) Hi Hs)
    as [m' [Hrun [_ [_ [_ Hbusy]]]]].
  unfold running_machine, after. rewrite Hrun. exact Hbusy.
Defined.

(** ** Layer execution *)

(** The thirteen register writes of [configure_layer_regs], most recent
    first. *)
Lemma configure_layer_regs_run (layer : layer_desc_t) (m : machine) :
  configure_layer_regs layer m
  = Some (tt, with_dev (dev_logged
      [ EvRegWrite REG_LAYER_QUANT_ZERO (u32 (output_zero_point layer));
        EvRegWrite REG_LAYER_QUANT_SCALE (u32 (output_scale layer));
        EvRegWrite REG_LAYER_ACT_TYPE (u32 (activation_val (activation layer)));
        EvRegWrite REG_LAYER_PADDING
          (u32 (Z.lor (Z.lor (Z.lor (Z.shiftl (pad_top layer) 24)
                                    (Z.shiftl (pad_bottom layer) 16))
                             (Z.shiftl (pad_left layer) 8))
                      (pad_right layer)));
        EvRegWrite REG_LAYER_STRIDE
          (u32 (Z.lor (Z.shiftl (stride_h layer) 8) (stride_w layer)));
        EvRegWrite REG_LAYER_KERNEL
          (u32 (Z.lor (Z.shiftl (kernel_h layer) 8) (kernel_w layer)));
        EvRegWrite REG_LAYER_OUT_W (u32 (dim_w (output layer)));
        EvRegWrite REG_LAYER_OUT_H (u32 (dim_h (output layer)));
        EvRegWrite REG_LAYER_IN_W (u32 (dim_w (input layer)));
        EvRegWrite REG_LAYER_IN_H (u32 (dim_h (input layer)));
        EvRegWrite REG_LAYER_OUT_CH (u32 (dim_c (output layer)));
        EvRegWrite REG_LAYER_IN_CH (u32 (dim_c (input layer)));
        EvRegWrite REG_LAYER_TYPE (u32 (layer_type_val (type layer))) ]) m).
Proof. destruct m as [c cfg i d fl]. destruct d. reflexivity. Qed.

Lemma some_pair_fst {A B : Type} (a a' : A) (b b' : B) :
  Some (a, b) = Some (a', b') -> a = a'.
Proof.
  intros H.
  exact (f_equal (fun o => match o with Some (x, _) => x | None => a end) H).
Qed.

(** Reads the status off an equation [Some (st0, _) = Some (st, _)]. *)
Ltac status_eq :=
  let H := fresh "H" in
  intros H; apply some_pair_fst in H; subst.
Ltac status_absurd :=
  let H := fresh "H" in
  intros H; apply some_pair_fst in H; discriminate H.

Lemma fw_load_instructions_not_ready (buf : host_ptr) (count : Z) (m : machine) :
  g_initialized m = false ->
  npu_rt_load_instructions buf count m = Some (FW_ERROR_NOT_READY, m).
Proof.
  intros Hinit. unfold npu_rt_load_instructions.
  unfold bind at 1. unfold gets. rewrite Hinit. reflexivity.
Qed.

Lemma fw_load_instructions_status (buf : host_ptr) (count : Z)
  (m m1 : machine) (st : fw_status_t) :
  npu_rt_load_instructions buf count m = Some (st, m1) ->
  st <> FW_ERROR_TIMEOUT.
Proof.
  unfold npu_rt_load_instructions. unfold bind at 1. unfold gets.
  destruct (g_initialized m); cbn [negb]; [| status_eq; discriminate].
  destruct buf as [b |]; [| status_eq; discriminate].
  destruct (count =? 0); [status_eq; discriminate |].
  destruct (count >? NPU_INST_BUF_ENTRIES); [status_eq; discriminate |].
  unfold bind, modify, REG_WRITE, ret. status_eq. discriminate.
Qed.

Lemma fw_start_status (m m1 : machine) (st : fw_status_t) :
  npu_rt_start m = Some (st, m1) -> st <> FW_ERROR_TIMEOUT.
Proof.
  unfold npu_rt_start. unfold bind at 1. unfold gets at 1.
  destruct (g_initialized m); cbn [negb]; [| status_eq; discriminate].
  unfold bind at 1. unfold gets at 1.
  destruct (is_running (state (g_ctx m))); [status_eq; discriminate |].
  unfold bind, modify, REG_WRITE, REG_SET, ret. status_eq. discriminate.
Qed.

Lemma fw_wait_zero_status (fuel : nat) (m m1 : machine) (st : fw_status_t) :
  npu_rt_wait fuel 0 m = Some (st, m1) -> st <> FW_ERROR_TIMEOUT.
Proof.
  intros Hw ->. destruct (g_initialized m) eqn:Hinit.
  - exact (fw_wait_zero_never_timeout m Hinit fuel m1 Hw).
  - unfold npu_rt_wait in Hw. unfold bind at 1 in Hw. unfold gets in Hw.
    rewrite Hinit in Hw. discriminate.
Qed.

Lemma load_and_execute_status (fuel : nat) (s : emit_state)
  (m m1 : machine) (st : fw_status_t) :
  load_and_execute fuel s m = Some (st, m1) -> st <> FW_ERROR_TIMEOUT.
Proof.
  unfold load_and_execute. unfold bind at 1.
  destruct (npu_rt_load_instructions _ _ m) as [[st1 ma] |] eqn:Hl;
    [| discriminate].
  pose proof (fw_load_instructions_status _ _ _ _ _ Hl) as H1.
  destruct (negb (fw_status_eqb st1 FW_OK)).
  { status_eq. exact H1. }
  unfold bind at 1.
  destruct (npu_rt_start ma) as [[st2 mb] |] eqn:Hs; [| discriminate].
  pose proof (fw_start_status _ _ _ Hs) as H2.
  destruct (negb (fw_status_eqb st2 FW_OK)).
  { status_eq. exact H2. }
  apply fw_wait_zero_status.
Qed.

Lemma exec_conv_status (fuel : nat) (layer : option layer_desc_t)
  (m m1 : machine) (st : fw_status_t) :
  npu_rt_exec_conv fuel layer m = Some (st, m1) -> st <> FW_ERROR_TIMEOUT.
Proof.
  destruct layer as [l |]; [| status_eq; discriminate].
  unfold npu_rt_exec_conv. unfold bind at 1.
  rewrite configure_layer_regs_run. apply load_and_execute_status.
Qed.

Lemma exec_pool_status (fuel : nat) (layer : option layer_desc_t)
  (m m1 : machine) (st : fw_status_t) :
  npu_rt_exec_pool fuel layer m = Some (st, m1) -> st <> FW_ERROR_TIMEOUT.
Proof.
  destruct layer as [l |]; [| status_eq; discriminate].
  unfold npu_rt_exec_pool. unfold bind at 1.
  rewrite configure_layer_regs_run. unfold bind at 1.
  unfold REG_WRITE at 1. unfold modify at 1.
  apply load_and_execute_status.
Qed.

Lemma npu_rt_exec_fc_eq (fuel : nat) (l : layer_desc_t) :
  npu_rt_exec_fc fuel (Some l) = npu_rt_exec_conv fuel (Some (fc_as_conv l)).
Proof. reflexivity. Qed.

(** X9.  Layer execution has no timeout: whatever the layer, the
    machine and the number of polls, [npu_rt_exec_layer] and
    [npu_rt_exec_eltwise] never return [FW_ERROR_TIMEOUT]; layer types
    other than the two convolutions, fully-connected and the three
    poolings (element-wise add included) are answered by
    [npu_rt_exec_layer] with [FW_ERROR_INVALID_OP] and leave the machine
    untouched. *)
Theorem exec_layer_never_times_out (fuel : nat) (m : machine) :
  (forall (layer : option layer_desc_t) (m' : machine),
     npu_rt_exec_layer fuel layer m <> Some (FW_ERROR_TIMEOUT, m')) /\
  (forall (layer : option layer_desc_t) (input2 : option tensor_desc_t)
          (m' : machine),
     npu_rt_exec_eltwise fuel layer input2 m <> Some (FW_ERROR_TIMEOUT, m')) /\
  (forall layer : layer_desc_t,
     In (type layer) [LAYER_ADD; LAYER_CONCAT; LAYER_SOFTMAX;
                      LAYER_BATCHNORM; LAYER_RESHAPE] ->
     npu_rt_exec_layer fuel (Some layer) m = Some (FW_ERROR_INVALID_OP, m)).
Proof.
  split; [| split].
  - intros layer m'.
    destruct layer as [l |]; [| status_absurd].
    unfold npu_rt_exec_layer.
    destruct (type l) eqn:Ht; try status_absurd; intros H.
    + exact (exec_conv_status _ _ _ _ _ H eq_refl).
    + exact (exec_conv_status _ _ _ _ _ H eq_refl).
    + rewrite npu_rt_exec_fc_eq in H.
      exact (exec_conv_status _ _ _ _ _ H eq_refl).
    + exact (exec_pool_status _ _ _ _ _ H eq_refl).
    + exact (exec_pool_status _ _ _ _ _ H eq_refl).
    + exact (exec_pool_status _ _ _ _ _ H eq_refl).
  - intros layer input2 m'.
    destruct layer as [l |]; [| status_absurd].
    destruct input2 as [t |]; [| status_absurd].
    unfold npu_rt_exec_eltwise. unfold bind at 1.
    rewrite configure_layer_regs_run. intros H.
    exact (load_and_execute_status _ _ _ _ _ H eq_refl).
  - intros layer Hin. unfold npu_rt_exec_layer.
    cbn [In] in Hin.
    destruct (type layer);
      solve [ reflexivity
            | exfalso; intuition discriminate ].
Qed.

Lemma exec_layer_never_times_out_witness :
  npu_rt_exec_layer 10
    (Some (mkLayer LAYER_SOFTMAX ACT_NONE
       (mkTensor 0 1 16 8 8 0 0 0 1) (mkTensor 0x8000 1 16 8 8 0 0 0 1)
       (mkTensor 0 0 0 0 0 0 0 0 0) (mkTensor 0 0 0 0 0 0 0 0 0)
       0 0 0 0 0 0 0 0 0 0 0 0 0 0 0 1 0 0 0 0))
    (initialized_machine 0)
  = Some (FW_ERROR_INVALID_OP, initialized_machine 0).
Proof.
  refine (proj2 (proj2 (exec_layer_never_times_out 10 (initialized_machine 0)))
            _ _).
  cbn. right. right. left. reflexivity.
Defined.

(** A wait without timeout whose polls all find the status pending is
    still polling after any number of polls. *)
Lemma wait_status_loop_forever (fuel : nat) (mask expected elapsed : Z)
  (m : machine) :
  (forall j, poll_pending mask expected (status_at m j)) ->
  wait_status_loop fuel mask expected 0 elapsed m = None.
Proof.
  revert elapsed m. induction fuel as [| fuel IH]; intros elapsed m Hp;
    [reflexivity |].
  rewrite wait_status_loop_pending; [| right; reflexivity | apply Hp].
  apply IH. intros j. rewrite status_at_advance. apply Hp.
Qed.

Lemma fw_wait_forever (fuel : nat) (m : machine) :
  g_initialized m = true ->
  (forall j, shows_done (status_at m j) = false /\
             shows_error (status_at m j) = false) ->
  npu_rt_wait fuel 0 m = None.
Proof.
  intros Hinit Hp. unfold npu_rt_wait. unfold bind at 1. unfold gets.
  rewrite Hinit. cbn [negb]. unfold bind at 1. unfold wait_status.
  rewrite wait_status_loop_forever; [reflexivity |].
  intros j. destruct (Hp j). apply pending_of_shows; assumption.
Qed.

Lemma load_and_execute_forever (fuel : nat) (s : emit_state) (m : machine) :
  g_initialized m = true -> is_running (state (g_ctx m)) = false ->
  0 < inst_idx s <= NPU_INST_BUF_ENTRIES ->
  (forall j, shows_done (status_at m (S j)) = false /\
             shows_error (status_at m (S j)) = false) ->
  load_and_execute fuel s m = None.
Proof.
  intros Hinit Hrun Hidx Hp. unfold load_and_execute.
  unfold bind at 1. rewrite fw_load_instructions_ok by assumption.
  cbn [fw_status_eqb negb]. unfold bind at 1.
  rewrite fw_start_ok; [| exact Hinit | exact Hrun].
  cbn [fw_status_eqb negb].
  apply fw_wait_forever; [exact Hinit |].
  intros j. specialize (Hp j). revert Hp. unfold status_at.
  destruct m as [c cfg i d fl]. destruct d as [lg rd ck orc].
  cbn [dev with_dev with_ctx dev_set32 dev_read32 dev_write32 dev_logged
       dev_log dev_reads dev_clock_us dev_oracle].
  rewrite <- plus_n_Sm. cbn [Nat.add]. exact (fun H => H).
Qed.

Lemma conv_build_inst_idx (layer : layer_desc_t) :
  is_u16 (dim_c (input layer)) -> is_u16 (dim_c (output layer)) ->
  inst_idx (conv_build layer) = conv_inst_count layer /\
  2 <= conv_inst_count layer.
Proof.
  intros Hi Ho.
  pose proof (conv_build_count layer) as Hcount.
  pose proof (u16_tiles_le _ Hi) as Hk. pose proof (u16_tiles_le _ Ho) as Hn.
  fold NPU_PE_ROWS in Hk. fold NPU_PE_COLS in Hn.
  change (0 <= conv_ic_tiles layer <= 4096) in Hk.
  change (0 <= conv_oc_tiles layer <= 4096) in Hn.
  assert (Hsmall : 2 <= conv_inst_count layer < 2 ^ 32).
  { unfold conv_inst_count. cbv zeta. nia. }
  split; [| lia].
  rewrite conv_build_emit_all in Hcount |- *.
  rewrite <- (length_map snd) in Hcount.
  fold (emitted (emit_all
    (conv_sequence_spec layer (get_activation_flags (activation layer))
       (Z.to_nat (conv_oc_tiles layer)) (Z.to_nat (conv_ic_tiles layer)))
    emit_init)) in Hcount.
  rewrite emitted_emit_all in Hcount.
  cbn [emitted emit_init stores map app] in Hcount.
  match goal with |- inst_idx (emit_all ?l _) = _ =>
    destruct (store_indices_emit_all l emit_init) as [Hidx _] end.
  - cbn. lia.
  - cbn [emit_init inst_idx]. lia.
  - rewrite Hidx. cbn [emit_init inst_idx]. lia.
Qed.

(** X10.  Layer execution waits without a timeout.  On an initialized
    runtime that is not Running, if the status register never shows done
    or error after the start, [npu_rt_exec_pool] is still polling after
    any number of polls, and so is [npu_rt_exec_conv] for a layer whose
    sequence fits the 256-entry local array: neither ever returns. *)
Theorem exec_waits_forever (layer : layer_desc_t) (m : machine) :
  g_initialized m = true -> state (g_ctx m) <> NPU_STATE_RUNNING ->
  (forall j, shows_done (status_at m (S j)) = false /\
             shows_error (status_at m (S j)) = false) ->
  (forall fuel, npu_rt_exec_pool fuel (Some layer) m = None) /\
  (is_u16 (dim_c (input layer)) -> is_u16 (dim_c (output layer)) ->
   conv_inst_count layer <= CONV_INST_BUF_LEN ->
   forall fuel, npu_rt_exec_conv fuel (Some layer) m = None).
Proof.
  intros Hinit Hst Hp. apply not_running_iff in Hst.
  split.
  - intros fuel. unfold npu_rt_exec_pool. unfold bind at 1.
    rewrite configure_layer_regs_run. unfold bind at 1.
    unfold REG_WRITE at 1. unfold modify at 1.
    apply load_and_execute_forever.
    + exact Hinit.
    + exact Hst.
    + rewrite pool_build_emit_all.
      match goal with |- context [emit_all ?l emit_init] =>
        destruct (emit_all_in_bounds l POOL_INST_BUF_LEN) as [Hidx _];
          [cbn [length]; unfold POOL_INST_BUF_LEN; lia
          | unfold POOL_INST_BUF_LEN; lia |]
      end.
      rewrite Hidx. cbn [length]. unfold NPU_INST_BUF_ENTRIES. lia.
    + intros j. specialize (Hp j). revert Hp. unfold status_at.
      destruct m as [c cfg i d fl]. destruct d as [lg rd ck orc].
      exact (fun H => H).
  - intros Hi Ho Hfit fuel. unfold npu_rt_exec_conv. unfold bind at 1.
    rewrite configure_layer_regs_run.
    destruct (conv_build_inst_idx layer Hi Ho) as [Hidx H2].
    apply load_and_execute_forever.
    + exact Hinit.
    + exact Hst.
    + rewrite Hidx. unfold CONV_INST_BUF_LEN in Hfit.
      unfold NPU_INST_BUF_ENTRIES. lia.
    + intros j. specialize (Hp j). revert Hp. unfold status_at.
      destruct m as [c cfg i d fl]. destruct d as [lg rd ck orc].
      exact (fun H => H).
Qed.

Lemma exec_waits_forever_witness :
  (g_initialized (initialized_machine STATUS_BUSY) = true /\
   state (g_ctx (initialized_machine STATUS_BUSY)) <> NPU_STATE_RUNNING) /\
  npu_rt_exec_conv 1000 (Some conv_32x32_relu) (initialized_machine STATUS_BUSY)
  = None.
Proof.
  assert (Hi : g_initialized (initialized_machine STATUS_BUSY) = true)
    by reflexivity.
  assert (Hs : state (g_ctx (initialized_machine STATUS_BUSY))
               <> NPU_STATE_RUNNING) by discriminate.
  split; [exact (conj Hi Hs) |].
  refine (proj2 (exec_waits_forever conv_32x32_relu
                   (initialized_machine STATUS_BUSY) Hi Hs _) _ _ _ 1000%nat).
  - intros j. split; reflexivity.
  - unfold is_u16. split; now vm_compute.
  - unfold is_u16. split; now vm_compute.
  - now vm_compute.
Defined.

(** X11.  The layer routines configure the hardware before they find out
    that the runtime is not initialized: on an uninitialized runtime
    [npu_rt_exec_conv] (for a layer whose sequence fits the 256-entry
    local array), [npu_rt_exec_pool] and [npu_rt_exec_eltwise] return
    [FW_ERROR_NOT_READY] with the context untouched, but the layer
    registers have been written (13 register writes, 14 for pooling). *)
Theorem exec_before_init_writes_layer_regs (fuel : nat) (layer : layer_desc_t)
  (input2 : tensor_desc_t) (m : machine) :
  g_initialized m = false ->
  exists mc mp,
    configure_layer_regs layer m = Some (tt, mc) /\
    mp = with_dev (dev_write32 REG_LAYER_POOL_TYPE
           match type layer with
           | LAYER_MAXPOOL => POOL_TYPE_MAX
           | LAYER_GLOBAL_AVGPOOL => POOL_TYPE_GLOBAL_AVG
           | _ => POOL_TYPE_AVG
           end) mc /\
    (conv_inst_count layer <= CONV_INST_BUF_LEN ->
     npu_rt_exec_conv fuel (Some layer) m = Some (FW_ERROR_NOT_READY, mc)) /\
    npu_rt_exec_eltwise fuel (Some layer) (Some input2) m
      = Some (FW_ERROR_NOT_READY, mc) /\
    npu_rt_exec_pool fuel (Some layer) m = Some (FW_ERROR_NOT_READY, mp) /\
    g_ctx mc = g_ctx m /\ g_ctx mp = g_ctx m /\
    length (dev_log (dev mc)) = (13 + length (dev_log (dev m)))%nat /\
    length (dev_log (dev mp)) = (14 + length (dev_log (dev m)))%nat.
Proof.
  intros Hinit. eexists. eexists.
  split; [apply configure_layer_regs_run |].
  split; [reflexivity |].
  split; [| split; [| split]].
  - intros _. unfold npu_rt_exec_conv. unfold bind at 1.
    rewrite configure_layer_regs_run. unfold load_and_execute.
    unfold bind at 1. rewrite fw_load_instructions_not_ready; [reflexivity |].
    exact Hinit.
  - unfold npu_rt_exec_eltwise. unfold bind at 1.
    rewrite configure_layer_regs_run. unfold load_and_execute.
    unfold bind at 1. rewrite fw_load_instructions_not_ready; [reflexivity |].
    exact Hinit.
  - unfold npu_rt_exec_pool. unfold bind at 1.
    rewrite configure_layer_regs_run. unfold bind at 1.
    unfold REG_WRITE at 1. unfold modify at 1. unfold load_and_execute.
    unfold bind at 1. rewrite fw_load_instructions_not_ready; [reflexivity |].
    exact Hinit.
  - cbn. split_all; reflexivity.
Qed.

Lemma exec_before_init_writes_layer_regs_witness :
  g_initialized (blank_machine (const_device 0)) = false /\
  option_map fst
    (npu_rt_exec_conv 1 (Some conv_32x32_relu) (blank_machine (const_device 0)))
  = Some FW_ERROR_NOT_READY /\
  last_reg_write REG_LAYER_IN_CH
    (dev_log (dev (after (npu_rt_exec_conv 1 (Some conv_32x32_relu))
                     (blank_machine (const_device 0)))))
  = Some 32.
Proof.
  assert (Hi : g_initialized (blank_machine (const_device 0)) = false)
    by reflexivity.
  split; [exact Hi |].
  destruct (exec_before_init_writes_layer_regs 1 conv_32x32_relu
              (input conv_32x32_relu) (blank_machine (const_device 0)) Hi)
    as [mc [mp [Hc [_ [Hconv _]]]]].
  assert (Hfit : conv_inst_count conv_32x32_relu <= CONV_INST_BUF_LEN)
    by now vm_compute.
  unfold after. rewrite (Hconv Hfit). cbn [option_map fst].
  split; [reflexivity |].
  rewrite configure_layer_regs_run in Hc.
  injection Hc as <-. now vm_compute.
Defined.

(** *** Layer registers *)

Lemma layer_regs_lookup (v1 v2 v3 v4 v5 v6 v7 v8 v9 v10 v11 v12 v13 : Z)
  (l : list dev_event) :
  let log := [ EvRegWrite REG_LAYER_QUANT_ZERO v1;
               EvRegWrite REG_LAYER_QUANT_SCALE v2;
               EvRegWrite REG_LAYER_ACT_TYPE v3;
               EvRegWrite REG_LAYER_PADDING v4;
               EvRegWrite REG_LAYER_STRIDE v5;
               EvRegWrite REG_LAYER_KERNEL v6;
               EvRegWrite REG_LAYER_OUT_W v7;
               EvRegWrite REG_LAYER_OUT_H v8;
               EvRegWrite REG_LAYER_IN_W v9;
               EvRegWrite REG_LAYER_IN_H v10;
               EvRegWrite REG_LAYER_OUT_CH v11;
               EvRegWrite REG_LAYER_IN_CH v12;
               EvRegWrite REG_LAYER_TYPE v13 ] ++ l in
  last_reg_write REG_LAYER_QUANT_ZERO log = Some v1 /\
  last_reg_write REG_LAYER_QUANT_SCALE log = Some v2 /\
  last_reg_write REG_LAYER_ACT_TYPE log = Some v3 /\
  last_reg_write REG_LAYER_PADDING log = Some v4 /\
  last_reg_write REG_LAYER_STRIDE log = Some v5 /\
  last_reg_write REG_LAYER_KERNEL log = Some v6 /\
  last_reg_write REG_LAYER_OUT_W log = Some v7 /\
  last_reg_write REG_LAYER_OUT_H log = Some v8 /\
  last_reg_write REG_LAYER_IN_W log = Some v9 /\
  last_reg_write REG_LAYER_IN_H log = Some v10 /\
  last_reg_write REG_LAYER_OUT_CH log = Some v11 /\
  last_reg_write REG_LAYER_IN_CH log = Some v12 /\
  last_reg_write REG_LAYER_TYPE log = Some v13.
Proof. cbv zeta. split_all; reflexivity. Qed.

Lemma pack2_u8 (hi lo : Z) :
  is_u8 hi -> is_u8 lo ->
  u32 (Z.lor (Z.shiftl hi 8) lo) = hi * 2 ^ 8 + lo.
Proof.
  unfold is_u8. intros Hh Hl. rewrite Z.shiftl_mul_pow2 by lia.
  rewrite lor_shifted_add by lia. apply u32_small. lia.
Qed.

Lemma pack4_u8 (a b c d : Z) :
  is_u8 a -> is_u8 b -> is_u8 c -> is_u8 d ->
  u32 (Z.lor (Z.lor (Z.lor (Z.shiftl a 24) (Z.shiftl b 16)) (Z.shiftl c 8)) d)
  = a * 2 ^ 24 + b * 2 ^ 16 + c * 2 ^ 8 + d.
Proof.
  unfold is_u8. intros Ha Hb Hc Hd. rewrite !Z.shiftl_mul_pow2 by lia.
  rewrite <- !Z.lor_assoc.
  rewrite (lor_shifted_add c d 8) by lia.
  rewrite (lor_shifted_add b _ 16) by lia.
  rewrite (lor_shifted_add a _ 24) by lia.
  rewrite u32_small; lia.
Qed.

(** X12.  For a layer whose fields are in the range of their C types,
    after [configure_layer_regs] (the first step of every layer
    routine) the layer registers hold: the channel counts and shapes as
    they are, the kernel as [kernel_h * 256 + kernel_w], the stride as
    [stride_h * 256 + stride_w], the padding as
    [top * 2^24 + bottom * 2^16 + left * 2^8 + right], the layer type
    and the activation as their enumerator values, and the signed
    output scale and zero point as their 32-bit two's complement. *)
Theorem layer_registers_after_configure (layer : layer_desc_t) (m : machine) :
  layer_wf layer ->
  exists m',
    configure_layer_regs layer m = Some (tt, m') /\
    (let reg r := last_reg_write r (dev_log (dev m')) in
     reg REG_LAYER_TYPE = Some (layer_type_val (type layer)) /\
     reg REG_LAYER_IN_CH = Some (dim_c (input layer)) /\
     reg REG_LAYER_OUT_CH = Some (dim_c (output layer)) /\
     reg REG_LAYER_IN_H = Some (dim_h (input layer)) /\
     reg REG_LAYER_IN_W = Some (dim_w (input layer)) /\
     reg REG_LAYER_OUT_H = Some (dim_h (output layer)) /\
     reg REG_LAYER_OUT_W = Some (dim_w (output layer)) /\
     reg REG_LAYER_KERNEL = Some (kernel_h layer * 2 ^ 8 + kernel_w layer) /\
     reg REG_LAYER_STRIDE = Some (stride_h layer * 2 ^ 8 + stride_w layer) /\
     reg REG_LAYER_PADDING
       = Some (pad_top layer * 2 ^ 24 + pad_bottom layer * 2 ^ 16
               + pad_left layer * 2 ^ 8 + pad_right layer) /\
     reg REG_LAYER_ACT_TYPE = Some (activation_val (activation layer)) /\
     reg REG_LAYER_QUANT_SCALE = Some (output_scale layer mod 2 ^ 32) /\
     reg REG_LAYER_QUANT_ZERO = Some (output_zero_point layer mod 2 ^ 32)) /\
    g_ctx m' = g_ctx m /\ dev_reads (dev m') = dev_reads (dev m).
Proof.
  intros Hwf. eexists. split; [apply configure_layer_regs_run |].
  split; [| split; reflexivity].
  destruct Hwf as [Hin [Hout [_ [_ [Hkh [Hkw [Hsh [Hsw [Hpt [Hpb [Hpl
    [Hpr _]]]]]]]]]]]].
  destruct Hin as [_ [_ [Hic [Hih [Hiw _]]]]].
  destruct Hout as [_ [_ [Hoc [Hoh [How _]]]]].
  cbv zeta.
  cbn [dev with_dev dev_logged dev_log].
  match goal with |- context [?evs ++ dev_log (dev m)] =>
    match evs with
    | [EvRegWrite _ ?v1; EvRegWrite _ ?v2; EvRegWrite _ ?v3; EvRegWrite _ ?v4;
       EvRegWrite _ ?v5; EvRegWrite _ ?v6; EvRegWrite _ ?v7; EvRegWrite _ ?v8;
       EvRegWrite _ ?v9; EvRegWrite _ ?v10; EvRegWrite _ ?v11;
       EvRegWrite _ ?v12; EvRegWrite _ ?v13] =>
        destruct (layer_regs_lookup v1 v2 v3 v4 v5 v6 v7 v8 v9 v10 v11 v12 v13
                    (dev_log (dev m)))
          as [E1 [E2 [E3 [E4 [E5 [E6 [E7 [E8 [E9 [E10 [E11 [E12 E13]]]]]]]]]]]]
    end
  end.
  rewrite E1, E2, E3, E4, E5, E6, E7, E8, E9, E10, E11, E12, E13.
  unfold is_u16 in *.
  rewrite pack2_u8, pack2_u8, pack4_u8 by assumption.
  rewrite (u32_small (dim_c (input layer))), (u32_small (dim_h (input layer))),
    (u32_small (dim_w (input layer))), (u32_small (dim_c (output layer))),
    (u32_small (dim_h (output layer))), (u32_small (dim_w (output layer)))
    by lia.
  rewrite (u32_small (layer_type_val (type layer)))
    by (destruct (type layer); cbn; lia).
  rewrite (u32_small (activation_val (activation layer)))
    by (destruct (activation layer); cbn; lia).
  split_all; reflexivity.
Qed.

Lemma layer_registers_after_configure_witness :
  layer_wf conv_32x32_relu /\
  last_reg_write REG_LAYER_KERNEL
    (dev_log (dev (after (configure_layer_regs conv_32x32_relu)
                     (initialized_machine 0))))
  = Some (3 * 2 ^ 8 + 3).
Proof.
  assert (Hwf : layer_wf conv_32x32_relu)
    by (apply conv_layer_wf; unfold is_u16; lia).
  split; [exact Hwf |].
  destruct (layer_registers_after_configure conv_32x32_relu
              (initialized_machine 0) Hwf)
    as [m' [Hrun [Hregs _]]].
  unfold after. rewrite Hrun.
  exact (proj1 (proj2 (proj2 (proj2 (proj2 (proj2 (proj2 (proj2 Hregs)))))))).
Defined.

(** ** Firmware runtime: stopping and shutting down *)

(** With a non-zero timeout the polling loop of [wait_status] ends
    within [n] polls once [elapsed + 10 * n] reaches the timeout.  It
    touches neither the register log nor, unless it reports a fault,
    the context. *)
Lemma wait_status_loop_total (mask expected timeout_us : Z) (n : nat) :
  forall (fuel : nat) (elapsed : Z) (m : machine),
    0 < timeout_us -> 0 <= elapsed ->
    timeout_us <= elapsed + poll_interval * Z.of_nat n ->
    elapsed + poll_interval * Z.of_nat n < 2 ^ 32 ->
    (n < fuel)%nat ->
    exists st m',
      wait_status_loop fuel mask expected timeout_us elapsed m = Some (st, m') /\
      g_initialized m' = g_initialized m /\ g_config m' = g_config m /\
      dev_log (dev m') = dev_log (dev m) /\
      dev_oracle (dev m') = dev_oracle (dev m) /\
      ((st = FW_OK /\ g_ctx m' = g_ctx m) \/
       (st = FW_ERROR_TIMEOUT /\ g_ctx m' = g_ctx m) \/
       (st = FW_ERROR_HW_FAULT /\
        g_ctx m' = set_state NPU_STATE_ERROR
                     (set_last_error FW_ERROR_HW_FAULT (g_ctx m)))).
Proof.
  induction n as [| n IH]; intros fuel elapsed m Hpos He Hreach Hwrap Hfuel.
  - destruct fuel as [| fuel]; [lia |].
    rewrite wait_status_loop_expired by lia.
    exists FW_ERROR_TIMEOUT, m. split_all; try reflexivity. right. left.
    split; reflexivity.
  - destruct fuel as [| fuel]; [lia |].
    destruct (Z.ltb_spec elapsed timeout_us) as [Hlt | Hge].
    2:{ rewrite wait_status_loop_expired by lia.
        exists FW_ERROR_TIMEOUT, m. split_all; try reflexivity. right. left.
        split; reflexivity. }
    destruct (Z.land (status_at m 0) mask =? expected) eqn:Hexp.
    { rewrite wait_status_loop_match by (try left; assumption).
      exists FW_OK, (after_poll m). split_all; try reflexivity. left.
      split; reflexivity. }
    destruct (Z.land (status_at m 0) STATUS_ERROR =? 0) eqn:Herr.
    2:{ rewrite wait_status_loop_fault by (try left; assumption).
        eexists _, _. split; [reflexivity |]. split_all; try reflexivity.
        right. right. split; reflexivity. }
    rewrite wait_status_loop_pending; [| left; exact Hlt | split; assumption].
    rewrite u32_small by (unfold poll_interval in *; lia).
    destruct (IH fuel (elapsed + poll_interval) (advance 1 m))
      as [st [m' [Hrun [Hi [Hc [Hl [Ho Hcases]]]]]]];
      try (unfold poll_interval in *; lia).
    exists st, m'. split; [exact Hrun |].
    split; [rewrite Hi; reflexivity |]. split; [rewrite Hc; reflexivity |].
    split; [rewrite Hl; reflexivity |]. split; [rewrite Ho; reflexivity |].
    exact Hcases.
Qed.

Lemma fw_stop_runs (fuel : nat) (m : machine) :
  g_initialized m = true ->
  npu_rt_stop fuel m
  = match wait_status fuel STATUS_IDLE STATUS_IDLE 10000
            (with_dev (dev_set32 REG_CTRL CTRL_ABORT) m) with
    | Some (st, m1) =>
        Some (st, with_ctx (set_state NPU_STATE_IDLE)
                    (with_dev (dev_clr32 REG_CTRL CTRL_ABORT) m1))
    | None => None
    end.
Proof.
  intros Hinit. unfold npu_rt_stop. unfold bind at 1. unfold gets at 1.
  rewrite Hinit. cbn [negb]. unfold bind at 1. unfold REG_SET at 1.
  unfold modify at 1. unfold bind at 1.
  destruct (wait_status fuel STATUS_IDLE STATUS_IDLE 10000 _) as [[st m1] |];
    reflexivity.
Qed.

(** X13.  [npu_rt_stop] on an initialized runtime always returns, after
    at most 1000 polls of the status register: it returns [FW_OK],
    [FW_ERROR_HW_FAULT] or [FW_ERROR_TIMEOUT], and in all three cases
    the context is left in state Idle.  After a hardware fault the
    state is Idle too, and only [last_error] keeps the fault. *)
Theorem fw_stop_always_idle (fuel : nat) (m : machine) :
  g_initialized m = true -> (1000 < fuel)%nat ->
  exists st m',
    npu_rt_stop fuel m = Some (st, m') /\
    (st = FW_OK \/ st = FW_ERROR_HW_FAULT \/ st = FW_ERROR_TIMEOUT) /\
    state (g_ctx m') = NPU_STATE_IDLE /\
    g_initialized m' = true /\
    (st = FW_ERROR_HW_FAULT -> last_error (g_ctx m') = FW_ERROR_HW_FAULT) /\
    (st <> FW_ERROR_HW_FAULT -> last_error (g_ctx m') = last_error (g_ctx m)).
Proof.
  intros Hinit Hfuel. rewrite fw_stop_runs by exact Hinit.
  unfold wait_status.
  destruct (wait_status_loop_total STATUS_IDLE STATUS_IDLE 10000 1000 fuel 0
              (with_dev (dev_set32 REG_CTRL CTRL_ABORT) m))
    as [st [m1 [Hrun [Hi [_ [_ [_ Hcases]]]]]]];
    try (unfold poll_interval; lia).
  rewrite Hrun. eexists _, _. split; [reflexivity |].
  cbn [g_ctx with_ctx with_dev g_initialized].
  destruct Hcases as [[-> Hc] | [[-> Hc] | [-> Hc]]]; rewrite Hc.
  - split_all; try reflexivity; try (intros; discriminate).
    + left. reflexivity.
    + rewrite Hi. exact Hinit.
  - split_all; try reflexivity; try (intros; discriminate).
    + right. right. reflexivity.
    + rewrite Hi. exact Hinit.
  - split_all; try reflexivity.
    + right. left. reflexivity.
    + rewrite Hi. exact Hinit.
    + intros H. contradiction.
Qed.

Lemma fw_stop_always_idle_witness :
  (g_initialized (running_machine STATUS_ERROR) = true /\ (1000 < 1001)%nat) /\
  state (g_ctx (running_machine STATUS_ERROR)) = NPU_STATE_RUNNING /\
  exists st m',
    npu_rt_stop 1001 (running_machine STATUS_ERROR) = Some (st, m') /\
    state (g_ctx m') = NPU_STATE_IDLE.
Proof.
  assert (Hi : g_initialized (running_machine STATUS_ERROR) = true)
    by reflexivity.
  assert (Hf : (1000 < 1001)%nat) by lia.
  split; [exact (conj Hi Hf) |]. split; [reflexivity |].
  destruct (fw_stop_always_idle 1001 (running_machine STATUS_ERROR) Hi Hf)
    as [st [m' [Hrun [_ [Hidle _]]]]].
  exists st, m'. split; assumption.
Defined.

(** Every entry point that checks [g_initialized] refuses with
    [FW_ERROR_NOT_READY] and touches nothing. *)
Lemma fw_not_ready (m : machine) :
  g_initialized m = false ->
  (forall buf count,
     npu_rt_load_instructions buf count m = Some (FW_ERROR_NOT_READY, m)) /\
  (forall fuel buf size offset,
     npu_rt_load_weights fuel buf size offset m
       = Some (FW_ERROR_NOT_READY, m)) /\
  (forall fuel buf size,
     npu_rt_load_input fuel buf size m = Some (FW_ERROR_NOT_READY, m)) /\
  (forall fuel data size,
     npu_rt_load_model fuel data size m = Some (FW_ERROR_NOT_READY, m)) /\
  npu_rt_start m = Some (FW_ERROR_NOT_READY, m) /\
  (forall fuel, npu_rt_stop fuel m = Some (FW_ERROR_NOT_READY, m)) /\
  (forall fuel timeout_us,
     npu_rt_wait fuel timeout_us m = Some (FW_ERROR_NOT_READY, m)) /\
  (forall fuel out size,
     npu_rt_read_output fuel out size m = Some (FW_ERROR_NOT_READY, m)) /\
  npu_rt_is_done m = Some (false, m).
Proof.
  intros Hinit. split_all; intros.
  - unfold npu_rt_load_instructions. unfold bind at 1. unfold gets at 1.
    rewrite Hinit. reflexivity.
  - unfold npu_rt_load_weights. unfold bind at 1. unfold gets at 1.
    rewrite Hinit. reflexivity.
  - unfold npu_rt_load_input. unfold bind at 1. unfold gets at 1.
    rewrite Hinit. reflexivity.
  - unfold npu_rt_load_model. unfold bind at 1. unfold gets at 1.
    rewrite Hinit. reflexivity.
  - unfold npu_rt_start. unfold bind at 1. unfold gets at 1.
    rewrite Hinit. reflexivity.
  - unfold npu_rt_stop. unfold bind at 1. unfold gets at 1.
    rewrite Hinit. reflexivity.
  - unfold npu_rt_wait. unfold bind at 1. unfold gets at 1.
    rewrite Hinit. reflexivity.
  - unfold npu_rt_read_output. unfold bind at 1. unfold gets at 1.
    rewrite Hinit. reflexivity.
  - unfold npu_rt_is_done. unfold bind at 1. unfold gets at 1.
    rewrite Hinit. reflexivity.
Qed.

(** X14.  [npu_rt_deinit] on an initialized runtime always returns
    (its stop phase polls at most 1000 times): it disables the
    interrupts, zeroes the context and clears the initialized flag.
    From then on loading, starting, stopping, waiting and reading the
    output are all refused with [FW_ERROR_NOT_READY] without touching
    the device, until the runtime is initialized again.  On a runtime
    that is not initialized [npu_rt_deinit] does nothing. *)
Theorem fw_deinit_then_not_ready (fuel : nat) (m : machine) :
  (g_initialized m = false -> npu_rt_deinit fuel m = Some (tt, m)) /\
  (g_initialized m = true -> (1000 < fuel)%nat ->
   exists m',
     npu_rt_deinit fuel m = Some (tt, m') /\
     g_initialized m' = false /\ g_ctx m' = ctx_zero /\
     g_config m' = g_config m /\
     last_reg_write REG_IRQ_EN (dev_log (dev m')) = Some 0 /\
     (forall buf count,
        npu_rt_load_instructions buf count m' = Some (FW_ERROR_NOT_READY, m')) /\
     (forall fuel' buf size offset,
        npu_rt_load_weights fuel' buf size offset m'
          = Some (FW_ERROR_NOT_READY, m')) /\
     (forall fuel' buf size,
        npu_rt_load_input fuel' buf size m' = Some (FW_ERROR_NOT_READY, m')) /\
     (forall fuel' data size,
        npu_rt_load_model fuel' data size m' = Some (FW_ERROR_NOT_READY, m')) /\
     npu_rt_start m' = Some (FW_ERROR_NOT_READY, m') /\
     (forall fuel', npu_rt_stop fuel' m' = Some (FW_ERROR_NOT_READY, m')) /\
     (forall fuel' timeout_us,
        npu_rt_wait fuel' timeout_us m' = Some (FW_ERROR_NOT_READY, m')) /\
     (forall fuel' out size,
        npu_rt_read_output fuel' out size m' = Some (FW_ERROR_NOT_READY, m'))).
Proof.
  split.
  - intros Hinit. unfold npu_rt_deinit. unfold bind at 1. unfold gets at 1.
    rewrite Hinit. reflexivity.
  - intros Hinit Hfuel. unfold npu_rt_deinit. unfold bind at 1.
    unfold gets at 1. rewrite Hinit. cbn [negb]. unfold bind at 1.
    rewrite fw_stop_runs by exact Hinit. unfold wait_status.
    destruct (wait_status_loop_total STATUS_IDLE STATUS_IDLE 10000 1000 fuel 0
                (with_dev (dev_set32 REG_CTRL CTRL_ABORT) m))
      as [st [m1 [Hrun [Hi [Hcfg _]]]]];
      try (unfold poll_interval; lia).
    rewrite Hrun.
    eexists. split; [reflexivity |].
    split; [reflexivity |]. split; [reflexivity |].
    split; [cbn; rewrite Hcfg; reflexivity |].
    split; [reflexivity |].
    match goal with |- context [npu_rt_start ?m'] =>
      destruct (fw_not_ready m' eq_refl)
        as [H1 [H2 [H3 [H4 [H5 [H6 [H7 [H8 _]]]]]]]]
    end.
    split_all; assumption.
Qed.

Lemma fw_deinit_then_not_ready_witness :
  (g_initialized (running_machine STATUS_IDLE) = true /\ (1000 < 1001)%nat) /\
  exists m',
    npu_rt_deinit 1001 (running_machine STATUS_IDLE) = Some (tt, m') /\
    npu_rt_start m' = Some (FW_ERROR_NOT_READY, m').
Proof.
  assert (Hi : g_initialized (running_machine STATUS_IDLE) = true)
    by reflexivity.
  assert (Hf : (1000 < 1001)%nat) by lia.
  split; [exact (conj Hi Hf) |].
  destruct (proj2 (fw_deinit_then_not_ready 1001 (running_machine STATUS_IDLE))
              Hi Hf)
    as [m' [Hrun [_ [_ [_ [_ [_ [_ [_ [_ [Hstart _]]]]]]]]]]].
  exists m'. split; assumption.
Defined.

(** ** Firmware runtime: DMA *)

(** The polling loop of [npu_rt_dma_wait] ends within [n] polls once
    [elapsed + 10 * n] reaches a non-zero timeout; it only reads the
    DMA status, and leaves the register log and the context alone. *)
Lemma dma_wait_loop_total (timeout_us : Z) (n : nat) :
  forall (fuel : nat) (elapsed : Z) (m : machine),
    0 < timeout_us -> 0 <= elapsed ->
    timeout_us <= elapsed + poll_interval * Z.of_nat n ->
    elapsed + poll_interval * Z.of_nat n < 2 ^ 32 ->
    (n < fuel)%nat ->
    exists st m',
      dma_wait_loop fuel timeout_us elapsed m = Some (st, m') /\
      (st = FW_OK \/ st = FW_ERROR_DMA \/ st = FW_ERROR_TIMEOUT) /\
      g_ctx m' = g_ctx m /\ g_config m' = g_config m /\
      g_initialized m' = g_initialized m /\
      dev_log (dev m') = dev_log (dev m).
Proof.
  induction n as [| n IH]; intros fuel elapsed m Hpos He Hreach Hwrap Hfuel.
  - destruct fuel as [| fuel]; [lia |]. cbn [dma_wait_loop].
    replace ((elapsed <? timeout_us) || (timeout_us =? 0)) with false.
    + exists FW_ERROR_TIMEOUT, m. split_all; try reflexivity. right. right.
      reflexivity.
    + symmetry. apply orb_false_iff.
      split; [apply Z.ltb_ge; lia | apply Z.eqb_neq; lia].
  - destruct fuel as [| fuel]; [lia |]. cbn [dma_wait_loop].
    destruct (Z.ltb_spec elapsed timeout_us) as [Hlt | Hge].
    2:{ replace (timeout_us =? 0) with false
          by (symmetry; apply Z.eqb_neq; lia).
        cbn [orb]. exists FW_ERROR_TIMEOUT, m. split_all; try reflexivity.
        right. right. reflexivity. }
    cbn [orb]. unfold bind at 1. unfold REG_READ at 1. cbn [dev_read32].
    destruct (Z.land _ DMA_STATUS_DONE =? 0); cbn [negb].
    2:{ eexists _, _. split; [reflexivity |]. split_all; try reflexivity.
        left. reflexivity. }
    destruct (Z.land _ DMA_STATUS_ERROR =? 0); cbn [negb].
    2:{ eexists _, _. split; [reflexivity |]. split_all; try reflexivity.
        right. left. reflexivity. }
    unfold bind at 1. unfold delay_us at 1. unfold modify at 1.
    rewrite u32_small by (unfold poll_interval in *; lia).
    match goal with |- context [dma_wait_loop fuel timeout_us _ ?m1] =>
      destruct (IH fuel (elapsed + poll_interval) m1)
        as [st [m' [Hrun [Hst [Hc [Hcfg [Hi Hl]]]]]]];
        try (unfold poll_interval in *; lia)
    end.
    exists st, m'. split; [exact Hrun |]. split; [exact Hst |].
    split; [rewrite Hc; reflexivity |]. split; [rewrite Hcfg; reflexivity |].
    split; [rewrite Hi; reflexivity |]. rewrite Hl. reflexivity.
Qed.

(** The control word [npu_rt_dma_start] writes. *)
Lemma dma_ctrl_word (ch : Z) (f2d firq : bool) :
  is_u8 ch ->
  (let ctrl1 := Z.lor DMA_CTRL_START (shl32 ch DMA_CTRL_CH_SEL_SHIFT) in
   let ctrl2 := if f2d then Z.lor ctrl1 DMA_CTRL_2D_MODE else ctrl1 in
   let ctrl3 := if firq then Z.lor ctrl2 DMA_CTRL_IRQ_EN else ctrl2 in
   u32 ctrl3)
  = 1 + 16 * ch + (if f2d then 8 else 0) + (if firq then 4 else 0).
Proof.
  unfold is_u8. intros Hch. cbv zeta.
  change DMA_CTRL_START with 1. change DMA_CTRL_2D_MODE with 8.
  change DMA_CTRL_IRQ_EN with 4. change DMA_CTRL_CH_SEL_SHIFT with 4.
  unfold shl32. rewrite Z.shiftl_mul_pow2 by lia.
  rewrite (u32_small (ch * 2 ^ 4)) by lia.
  rewrite (Z.lor_comm 1).
  destruct f2d, firq; rewrite <- ?Z.lor_assoc.
  - change (Z.lor 1 (Z.lor 8 4)) with 13.
    rewrite lor_shifted_add by lia. rewrite u32_small; lia.
  - change (Z.lor 1 8) with 9.
    rewrite lor_shifted_add by lia. rewrite u32_small; lia.
  - change (Z.lor 1 4) with 5.
    rewrite lor_shifted_add by lia. rewrite u32_small; lia.
  - rewrite lor_shifted_add by lia. rewrite u32_small; lia.
Qed.

(** [npu_rt_dma_start] when the engine is not busy. *)
Lemma fw_dma_start_idle (fuel : nat) (desc : dma_desc_t) (m : machine) :
  Z.land (u32 (dev_oracle (dev m) (dev_reads (dev m)) REG_DMA_STATUS))
         DMA_STATUS_BUSY = 0 ->
  npu_rt_dma_start fuel (Some desc) m
  = Some (FW_OK,
      with_ctx (fun c =>
          set_perf (set_dma_transfers (u32 (dma_transfers (perf c) + 1))
                                      (perf c)) c)
        (with_dev (dev_logged
           ([EvRegWrite REG_DMA_CTRL
               (let ctrl1 := Z.lor DMA_CTRL_START
                               (shl32 (channel desc) DMA_CTRL_CH_SEL_SHIFT) in
                let ctrl2 := if negb (Z.land (flags desc) DMA_FLAG_2D =? 0)
                             then Z.lor ctrl1 DMA_CTRL_2D_MODE else ctrl1 in
                let ctrl3 := if negb (Z.land (flags desc) DMA_FLAG_IRQ =? 0)
                             then Z.lor ctrl2 DMA_CTRL_IRQ_EN else ctrl2 in
                u32 ctrl3)]
            ++ (if negb (Z.land (flags desc) DMA_FLAG_2D =? 0)
                then [EvRegWrite REG_DMA_DST_STRIDE (u32 (dst_stride desc));
                      EvRegWrite REG_DMA_SRC_STRIDE (u32 (src_stride desc))]
                else [])
            ++ [EvRegWrite REG_DMA_LEN (u32 (xfer_length desc));
                EvRegWrite REG_DMA_DST (u32 (dst_addr desc));
                EvRegWrite REG_DMA_SRC (u32 (src_addr desc))]))
           (after_poll m))).
Proof.
  intros Hidle. unfold npu_rt_dma_start.
  unfold bind at 1. unfold npu_rt_dma_is_busy.
  unfold bind at 1. unfold REG_READ at 1. cbn [dev_read32].
  rewrite Hidle. cbn [Z.eqb negb ret]. unfold bind at 1.
  unfold ret at 1. cbn [fw_status_eqb negb].
  destruct m as [c cfg i d fl]. destruct d as [lg rd ck orc].
  destruct (negb (Z.land (flags desc) DMA_FLAG_2D =? 0)); reflexivity.
Qed.

Lemma dma_regs_lookup_1d (vc vl vd vs : Z) (l : list dev_event) :
  let log := ([EvRegWrite REG_DMA_CTRL vc] ++ []
              ++ [EvRegWrite REG_DMA_LEN vl; EvRegWrite REG_DMA_DST vd;
                  EvRegWrite REG_DMA_SRC vs]) ++ l in
  last_reg_write REG_DMA_CTRL log = Some vc /\
  last_reg_write REG_DMA_LEN log = Some vl /\
  last_reg_write REG_DMA_DST log = Some vd /\
  last_reg_write REG_DMA_SRC log = Some vs /\
  last_reg_write REG_DMA_SRC_STRIDE log = last_reg_write REG_DMA_SRC_STRIDE l /\
  last_reg_write REG_DMA_DST_STRIDE log = last_reg_write REG_DMA_DST_STRIDE l.
Proof. cbv zeta. split_all; reflexivity. Qed.

Lemma dma_regs_lookup_2d (vc vds vss vl vd vs : Z) (l : list dev_event) :
  let log := ([EvRegWrite REG_DMA_CTRL vc]
              ++ [EvRegWrite REG_DMA_DST_STRIDE vds;
                  EvRegWrite REG_DMA_SRC_STRIDE vss]
              ++ [EvRegWrite REG_DMA_LEN vl; EvRegWrite REG_DMA_DST vd;
                  EvRegWrite REG_DMA_SRC vs]) ++ l in
  last_reg_write REG_DMA_CTRL log = Some vc /\
  last_reg_write REG_DMA_LEN log = Some vl /\
  last_reg_write REG_DMA_DST log = Some vd /\
  last_reg_write REG_DMA_SRC log = Some vs /\
  last_reg_write REG_DMA_SRC_STRIDE log = Some vss /\
  last_reg_write REG_DMA_DST_STRIDE log = Some vds.
Proof. cbv zeta. split_all; reflexivity. Qed.

(** X15.  [npu_rt_dma_start] with a null descriptor returns
    [FW_ERROR_INVALID_PARAM] and does nothing.  With a descriptor, on
    an engine that does not report busy, it returns [FW_OK] after
    programming source, destination and length, and a control word
    made of the start bit, the channel number from bit 4, bit 3 when
    the descriptor has the 2D flag and bit 2 when it has the IRQ flag.
    The two stride registers are written exactly when the 2D flag is
    set, the chain flag changes nothing, and the transfer counter of
    the statistics goes up by one. *)
Theorem fw_dma_start_programs_engine (fuel : nat) (desc : dma_desc_t)
  (m : machine) :
  is_u8 (channel desc) ->
  Z.land (u32 (dev_oracle (dev m) (dev_reads (dev m)) REG_DMA_STATUS))
         DMA_STATUS_BUSY = 0 ->
  npu_rt_dma_start fuel None m = Some (FW_ERROR_INVALID_PARAM, m) /\
  exists m',
    npu_rt_dma_start fuel (Some desc) m = Some (FW_OK, m') /\
    (let reg r := last_reg_write r (dev_log (dev m')) in
     let old r := last_reg_write r (dev_log (dev m)) in
     reg REG_DMA_SRC = Some (u32 (src_addr desc)) /\
     reg REG_DMA_DST = Some (u32 (dst_addr desc)) /\
     reg REG_DMA_LEN = Some (u32 (xfer_length desc)) /\
     reg REG_DMA_CTRL
       = Some (1 + 16 * channel desc
               + (if Z.testbit (flags desc) 0 then 8 else 0)
               + (if Z.testbit (flags desc) 1 then 4 else 0)) /\
     reg REG_DMA_SRC_STRIDE
       = (if Z.testbit (flags desc) 0 then Some (u32 (src_stride desc))
          else old REG_DMA_SRC_STRIDE) /\
     reg REG_DMA_DST_STRIDE
       = (if Z.testbit (flags desc) 0 then Some (u32 (dst_stride desc))
          else old REG_DMA_DST_STRIDE)) /\
    dma_transfers (perf (g_ctx m'))
      = u32 (dma_transfers (perf (g_ctx m)) + 1) /\
    state (g_ctx m') = state (g_ctx m).
Proof.
  intros Hch Hidle. split; [reflexivity |].
  eexists. split; [apply fw_dma_start_idle; exact Hidle |].
  split; [| split; reflexivity].
  cbv zeta. cbn [dev with_ctx with_dev dev_logged dev_log after_poll].
  rewrite dma_ctrl_word by exact Hch.
  change DMA_FLAG_2D with (2 ^ 0). change DMA_FLAG_IRQ with (2 ^ 1).
  rewrite !land_pow2_eqb, !negb_involutive by lia.
  destruct (Z.testbit (flags desc) 0).
  - match goal with |- context [[EvRegWrite REG_DMA_CTRL ?vc] ++ _] =>
      destruct (dma_regs_lookup_2d vc (u32 (dst_stride desc))
                  (u32 (src_stride desc)) (u32 (xfer_length desc))
                  (u32 (dst_addr desc)) (u32 (src_addr desc))
                  (dev_log (dev m)))
        as [E1 [E2 [E3 [E4 [E5 E6]]]]]
    end.
    rewrite E1, E2, E3, E4, E5, E6. split_all; reflexivity.
  - match goal with |- context [[EvRegWrite REG_DMA_CTRL ?vc] ++ _] =>
      destruct (dma_regs_lookup_1d vc (u32 (xfer_length desc))
                  (u32 (dst_addr desc)) (u32 (src_addr desc))
                  (dev_log (dev m)))
        as [E1 [E2 [E3 [E4 [E5 E6]]]]]
    end.
    rewrite E1, E2, E3, E4, E5, E6. split_all; reflexivity.
Qed.

Lemma fw_dma_start_programs_engine_witness :
  (is_u8 DMA_CH_ACT_IN /\
   Z.land (u32 (dev_oracle (dev (initialized_machine 0))
                  (dev_reads (dev (initialized_machine 0))) REG_DMA_STATUS))
          DMA_STATUS_BUSY = 0) /\
  exists m',
    npu_rt_dma_start 1
      (Some (mkDma 0x20000000 NPU_ACT_BUF_BASE 4096 0 0 0 0 DMA_CH_ACT_IN
                   DMA_FLAG_IRQ))
      (initialized_machine 0) = Some (FW_OK, m') /\
    last_reg_write REG_DMA_CTRL (dev_log (dev m')) = Some 21.
Proof.
  assert (Hc : is_u8 DMA_CH_ACT_IN) by u8_const.
  assert (Hb : Z.land (u32 (dev_oracle (dev (initialized_machine 0))
                  (dev_reads (dev (initialized_machine 0))) REG_DMA_STATUS))
          DMA_STATUS_BUSY = 0) by reflexivity.
  split; [exact (conj Hc Hb) |].
  destruct (proj2 (fw_dma_start_programs_engine 1
              (mkDma 0x20000000 NPU_ACT_BUF_BASE 4096 0 0 0 0 DMA_CH_ACT_IN
                     DMA_FLAG_IRQ)
              (initialized_machine 0) Hc Hb))
    as [m' [Hrun [[_ [_ [_ [Hctrl _]]]] _]]].
  exists m'. split; [exact Hrun | exact Hctrl].
Defined.

(** ** Firmware runtime: weights and input *)

Lemma fw_load_weights_checks (fuel : nat) (buf : host_buf) (size offset : Z)
  (m : machine) :
  g_initialized m = true -> size <> 0 ->
  0 <= offset + size < 2 ^ 32 ->
  offset + size <= weight_buf_size (g_config m) ->
  npu_rt_load_weights fuel (Some buf) size offset m
  = (if size >? 1024 then
       let desc := mkDma (u32 (hb_addr buf))
                         (u32 (NPU_WEIGHT_BUF_BASE + offset))
                         size 0 0 0 0 DMA_CH_WEIGHT 0 in
       bind (npu_rt_dma_start fuel (Some desc)) (fun status =>
         if negb (fw_status_eqb status FW_OK) then ret status
         else npu_rt_dma_wait fuel 1000000)
     else
       let dst := u32 (NPU_WEIGHT_BUF_BASE + offset) in
       bind (modify (for_loop size (fun i =>
               with_dev (dev_store8 (dst + i) (hb_elem buf i)))))
            (fun _ => bind (REG_WRITE REG_WEIGHT_SIZE size)
                           (fun _ => ret FW_OK))) m.
Proof.
  intros Hinit Hsz Hsum Hfit. unfold npu_rt_load_weights.
  unfold bind at 1. unfold gets at 1. rewrite Hinit. cbn [negb].
  unfold bind at 1. unfold gets at 1.
  apply Z.eqb_neq in Hsz. rewrite Hsz.
  rewrite (u32_small (offset + size)) by lia.
  replace (offset + size >? weight_buf_size (g_config m)) with false
    by (symmetry; rewrite Z.gtb_ltb; apply Z.ltb_ge; lia).
  reflexivity.
Qed.


(** X16.  Up to 1024 bytes of weights are copied by the processor: on
    an initialized runtime, [npu_rt_load_weights] with [size] between 1
    and 1024 and [offset + size] within the configured weight buffer
    stores the first [size] bytes of the array to consecutive addresses
    from [NPU_WEIGHT_BUF_BASE + offset], then writes [size] to
    [REG_WEIGHT_SIZE] and returns [FW_OK].  It reads no register and
    leaves the context alone. *)
Theorem fw_load_weights_small_copy (fuel : nat) (buf : host_buf)
  (size offset : Z) (m : machine) :
  g_initialized m = true -> 0 < size <= 1024 -> 0 <= offset ->
  offset + size < 2 ^ 32 ->
  offset + size <= weight_buf_size (g_config m) ->
  exists m',
    npu_rt_load_weights fuel (Some buf) size offset m = Some (FW_OK, m') /\
    dev_log (dev m')
    = EvRegWrite REG_WEIGHT_SIZE size
      :: byte_copy_events (u32 (NPU_WEIGHT_BUF_BASE + offset))
                          (hb_elem buf) size
      ++ dev_log (dev m) /\
    g_ctx m' = g_ctx m /\
    dev_reads (dev m') = dev_reads (dev m).
Proof.
  intros Hinit Hsz Hoff Hsum Hfit.
  rewrite (fw_load_weights_checks fuel buf size offset m)
    by (try assumption; lia).
  replace (size >? 1024) with false
    by (symmetry; rewrite Z.gtb_ltb; apply Z.ltb_ge; lia).
  cbv zeta. unfold bind, modify, REG_WRITE, ret.
  rewrite for_loop_with_dev.
  eexists. split; [reflexivity |].
  cbn [dev with_dev g_ctx dev_write32 dev_log dev_reads].
  rewrite byte_copy_loop. cbn [dev_logged dev_log dev_reads].
  rewrite (u32_small size) by lia.
  split_all; reflexivity.
Qed.

Lemma fw_load_weights_small_copy_witness :
  (g_initialized (initialized_machine 0) = true /\ 0 < 3 <= 1024 /\
   0 <= 16 /\ 16 + 3 < 2 ^ 32 /\
   16 + 3 <= weight_buf_size (g_config (initialized_machine 0))) /\
  exists m',
    npu_rt_load_weights 1 (Some (buf_of_list 0x20000000 [7; 8; 9])) 3 16
      (initialized_machine 0) = Some (FW_OK, m') /\
    dev_log (dev m')
    = [ EvRegWrite REG_WEIGHT_SIZE 3;
        EvStore8 (NPU_WEIGHT_BUF_BASE + 18) 9;
        EvStore8 (NPU_WEIGHT_BUF_BASE + 17) 8;
        EvStore8 (NPU_WEIGHT_BUF_BASE + 16) 7 ]
      ++ dev_log (dev (initialized_machine 0)).
Proof.
  assert (H1 : g_initialized (initialized_machine 0) = true) by reflexivity.
  assert (H2 : 0 < 3 <= 1024) by lia.
  assert (H3 : 0 <= 16) by lia.
  assert (H4 : 16 + 3 < 2 ^ 32) by lia.
  assert (H5 : 16 + 3 <= weight_buf_size (g_config (initialized_machine 0)))
    by now vm_compute.
  split; [exact (conj H1 (conj H2 (conj H3 (conj H4 H5)))) |].
  destruct (fw_load_weights_small_copy 1 (buf_of_list 0x20000000 [7; 8; 9])
              3 16 (initialized_machine 0) H1 H2 H3 H4 H5)
    as [m' [Hrun [Hlog _]]].
  exists m'. split; [exact Hrun |]. rewrite Hlog. reflexivity.
Defined.

(** The register writes of a one-dimensional transfer without
    interrupt on channel [ch]. *)
Lemma plain_dma_events (src dst len ch : Z) (l : list dev_event) :
  ([EvRegWrite REG_DMA_CTRL
      (let ctrl1 := Z.lor DMA_CTRL_START (shl32 ch DMA_CTRL_CH_SEL_SHIFT) in
       let ctrl2 := if negb (Z.land 0 DMA_FLAG_2D =? 0)
                    then Z.lor ctrl1 DMA_CTRL_2D_MODE else ctrl1 in
       let ctrl3 := if negb (Z.land 0 DMA_FLAG_IRQ =? 0)
                    then Z.lor ctrl2 DMA_CTRL_IRQ_EN else ctrl2 in
       u32 ctrl3)]
   ++ (if negb (Z.land 0 DMA_FLAG_2D =? 0)
       then [EvRegWrite REG_DMA_DST_STRIDE (u32 0);
             EvRegWrite REG_DMA_SRC_STRIDE (u32 0)]
       else [])
   ++ [EvRegWrite REG_DMA_LEN len; EvRegWrite REG_DMA_DST dst;
       EvRegWrite REG_DMA_SRC src]) ++ l
  = [ EvRegWrite REG_DMA_CTRL
        (u32 (Z.lor DMA_CTRL_START (shl32 ch DMA_CTRL_CH_SEL_SHIFT)));
      EvRegWrite REG_DMA_LEN len; EvRegWrite REG_DMA_DST dst;
      EvRegWrite REG_DMA_SRC src ] ++ l.
Proof. reflexivity. Qed.

(** X17.  More than 1024 bytes of weights go through the DMA engine:
    on an initialized runtime whose DMA engine does not report busy,
    [npu_rt_load_weights] with [size > 1024] and [offset + size] within
    the weight buffer programs one transfer on the weight channel
    (source: the caller's array, destination: weight buffer plus
    offset, length [size], control word 1) and waits up to one second
    for it.  Given more than 100000 polls it always returns, with [FW_OK],
    [FW_ERROR_DMA] or [FW_ERROR_TIMEOUT]; in no case does it store a
    byte itself or write [REG_WEIGHT_SIZE]. *)
Theorem fw_load_weights_by_dma (fuel : nat) (buf : host_buf)
  (size offset : Z) (m : machine) :
  g_initialized m = true -> 1024 < size -> 0 <= offset ->
  offset + size < 2 ^ 32 ->
  offset + size <= weight_buf_size (g_config m) ->
  Z.land (u32 (dev_oracle (dev m) (dev_reads (dev m)) REG_DMA_STATUS))
         DMA_STATUS_BUSY = 0 ->
  (Z.to_nat 100000 < fuel)%nat ->
  exists st m',
    npu_rt_load_weights fuel (Some buf) size offset m = Some (st, m') /\
    (st = FW_OK \/ st = FW_ERROR_DMA \/ st = FW_ERROR_TIMEOUT) /\
    dev_log (dev m')
    = [ EvRegWrite REG_DMA_CTRL 1;
        EvRegWrite REG_DMA_LEN size;
        EvRegWrite REG_DMA_DST (u32 (NPU_WEIGHT_BUF_BASE + offset));
        EvRegWrite REG_DMA_SRC (u32 (hb_addr buf)) ]
      ++ dev_log (dev m) /\
    dma_transfers (perf (g_ctx m'))
      = u32 (dma_transfers (perf (g_ctx m)) + 1).
Proof.
  intros Hinit Hsz Hoff Hsum Hfit Hidle Hfuel.
  rewrite (fw_load_weights_checks fuel buf size offset m)
    by (try assumption; lia).
  replace (size >? 1024) with true
    by (symmetry; apply Z.gtb_lt; lia).
  cbv zeta. unfold bind at 1.
  rewrite fw_dma_start_idle by exact Hidle.
  cbn [fw_status_eqb negb]. unfold npu_rt_dma_wait.
  match goal with |- context [dma_wait_loop fuel 1000000 0 ?m1] =>
    destruct (dma_wait_loop_total 1000000 (Z.to_nat 100000) fuel 0 m1)
      as [st [m' [Hrun [Hst [Hc [_ [_ Hl]]]]]]];
      try (rewrite ?Z2Nat.id by lia; unfold poll_interval; lia)
  end.
  exists st, m'. split; [exact Hrun |]. split; [exact Hst |].
  rewrite Hl, Hc.
  cbn [dev g_ctx with_ctx with_dev dev_logged dev_log after_poll
       perf set_perf set_dma_transfers dma_transfers
       src_addr dst_addr xfer_length channel flags].
  rewrite plain_dma_events.
  rewrite u32_idem, u32_idem, (u32_small size) by lia.
  split; reflexivity.
Qed.

Lemma fw_load_weights_by_dma_witness :
  (g_initialized (initialized_machine DMA_STATUS_DONE) = true /\
   1024 < 4096 /\ 0 <= 0 /\ 0 + 4096 < 2 ^ 32 /\
   0 + 4096 <= weight_buf_size (g_config (initialized_machine DMA_STATUS_DONE))) /\
  exists st m',
    npu_rt_load_weights (S (Z.to_nat 100000))
      (Some (buf_of_list 0x20000000 [])) 4096 0
      (initialized_machine DMA_STATUS_DONE) = Some (st, m') /\
    last_reg_write REG_WEIGHT_SIZE (dev_log (dev m')) = None.
Proof.
  assert (H1 : g_initialized (initialized_machine DMA_STATUS_DONE) = true)
    by reflexivity.
  assert (H2 : 1024 < 4096) by lia.
  assert (H3 : 0 <= 0) by lia.
  assert (H4 : 0 + 4096 < 2 ^ 32) by lia.
  assert (H5 : 0 + 4096
               <= weight_buf_size (g_config (initialized_machine DMA_STATUS_DONE)))
    by now vm_compute.
  assert (H6 : Z.land (u32 (dev_oracle (dev (initialized_machine DMA_STATUS_DONE))
                  (dev_reads (dev (initialized_machine DMA_STATUS_DONE)))
                  REG_DMA_STATUS)) DMA_STATUS_BUSY = 0) by reflexivity.
  assert (H7 : (Z.to_nat 100000 < S (Z.to_nat 100000))%nat) by lia.
  split; [exact (conj H1 (conj H2 (conj H3 (conj H4 H5)))) |].
  destruct (fw_load_weights_by_dma (S (Z.to_nat 100000))
              (buf_of_list 0x20000000 []) 4096 0
              (initialized_machine DMA_STATUS_DONE) H1 H2 H3 H4 H5 H6 H7)
    as [st [m' [Hrun [_ [Hlog _]]]]].
  exists st, m'. split; [exact Hrun |]. rewrite Hlog. reflexivity.
Defined.

(** X18.  The firmware loaders refuse what does not fit, before
    touching anything: on an initialized runtime
    [npu_rt_load_weights] returns [FW_ERROR_OVERFLOW] when
    [offset + size] (below [2^32]) exceeds the configured weight buffer
    size, and [npu_rt_load_input] returns [FW_ERROR_OVERFLOW] when the
    size exceeds half of the configured activation buffer; a null
    pointer or a zero size is refused with [FW_ERROR_INVALID_PARAM].
    In each case the machine is unchanged. *)
Theorem fw_load_overflow_guards (fuel : nat) (m : machine) :
  g_initialized m = true ->
  (forall (buf : host_buf) (size offset : Z),
     size <> 0 -> 0 <= offset + size < 2 ^ 32 ->
     offset + size > weight_buf_size (g_config m) ->
     npu_rt_load_weights fuel (Some buf) size offset m
       = Some (FW_ERROR_OVERFLOW, m)) /\
  (forall (buf : host_buf) (size : Z),
     size <> 0 -> size > act_buf_size (g_config m) / 2 ->
     npu_rt_load_input fuel (Some buf) size m = Some (FW_ERROR_OVERFLOW, m)) /\
  (forall (buf : host_ptr) (size offset : Z),
     buf = None \/ size = 0 ->
     npu_rt_load_weights fuel buf size offset m
       = Some (FW_ERROR_INVALID_PARAM, m) /\
     npu_rt_load_input fuel buf size m = Some (FW_ERROR_INVALID_PARAM, m)).
Proof.
  intros Hinit. split_all.
  - intros buf size offset Hsz Hsum Hbig. unfold npu_rt_load_weights.
    unfold bind at 1. unfold gets at 1. rewrite Hinit. cbn [negb].
    unfold bind at 1. unfold gets at 1.
    apply Z.eqb_neq in Hsz. rewrite Hsz.
    rewrite (u32_small (offset + size)) by lia.
    replace (offset + size >? weight_buf_size (g_config m)) with true
      by (symmetry; apply Z.gtb_lt; lia).
    reflexivity.
  - intros buf size Hsz Hbig. unfold npu_rt_load_input.
    unfold bind at 1. unfold gets at 1. rewrite Hinit. cbn [negb].
    unfold bind at 1. unfold gets at 1.
    apply Z.eqb_neq in Hsz. rewrite Hsz.
    replace (size >? act_buf_size (g_config m) / 2) with true
      by (symmetry; apply Z.gtb_lt; lia).
    reflexivity.
  - intros buf size offset Hbad. split.
    + unfold npu_rt_load_weights.
      unfold bind at 1. unfold gets at 1. rewrite Hinit. cbn [negb].
      destruct buf as [b |]; [| reflexivity].
      destruct Hbad as [Hb | ->]; [discriminate | reflexivity].
    + unfold npu_rt_load_input.
      unfold bind at 1. unfold gets at 1. rewrite Hinit. cbn [negb].
      destruct buf as [b |]; [| reflexivity].
      destruct Hbad as [Hb | ->]; [discriminate | reflexivity].
Qed.

Lemma fw_load_overflow_guards_witness :
  g_initialized (initialized_machine 0) = true /\
  npu_rt_load_input 1 (Some (buf_of_list 0x20000000 [])) 131073
    (initialized_machine 0)
  = Some (FW_ERROR_OVERFLOW, initialized_machine 0).
Proof.
  assert (Hi : g_initialized (initialized_machine 0) = true) by reflexivity.
  split; [exact Hi |].
  apply (proj1 (proj2 (fw_load_overflow_guards 1 (initialized_machine 0) Hi))).
  - discriminate.
  - now vm_compute.
Defined.

(** ** Firmware runtime: reading the output *)

(** X19.  [npu_rt_read_output] never asks for more than the hardware
    reports: on an initialized runtime, with a non-null buffer, a
    non-zero [size] and a DMA engine that does not report busy, it
    reads the output size and the output base, programs one transfer
    on the output channel (control word 33) from that base to the
    caller's buffer with length [min size out_size], and waits up to
    one second for it.  Given more than 100000 polls it always
    returns, with [FW_OK], [FW_ERROR_DMA] or [FW_ERROR_TIMEOUT]. *)
Theorem fw_read_output_clamps (fuel : nat) (out : host_buf) (size : Z)
  (m : machine) :
  g_initialized m = true -> 0 < size < 2 ^ 32 ->
  Z.land (u32 (dev_oracle (dev m) (S (S (dev_reads (dev m)))) REG_DMA_STATUS))
         DMA_STATUS_BUSY = 0 ->
  (Z.to_nat 100000 < fuel)%nat ->
  let out_size := u32 (dev_oracle (dev m) (dev_reads (dev m))
                         REG_ACT_OUT_SIZE) in
  let out_base := u32 (dev_oracle (dev m) (S (dev_reads (dev m)))
                         REG_ACT_OUT_BASE) in
  exists st m',
    npu_rt_read_output fuel (Some out) size m = Some (st, m') /\
    (st = FW_OK \/ st = FW_ERROR_DMA \/ st = FW_ERROR_TIMEOUT) /\
    dev_log (dev m')
    = [ EvRegWrite REG_DMA_CTRL 33;
        EvRegWrite REG_DMA_LEN (Z.min size out_size);
        EvRegWrite REG_DMA_DST (u32 (hb_addr out));
        EvRegWrite REG_DMA_SRC out_base ]
      ++ dev_log (dev m).
Proof.
  intros Hinit Hsz Hidle Hfuel out_size out_base.
  unfold npu_rt_read_output.
  unfold bind at 1. unfold gets at 1. rewrite Hinit. cbn [negb].
  replace (size =? 0) with false by (symmetry; apply Z.eqb_neq; lia).
  unfold bind at 1. unfold REG_READ at 1. cbn [dev_read32].
  fold out_size.
  unfold bind at 1. unfold REG_READ at 1.
  cbn [dev with_dev dev_read32 dev_reads dev_oracle].
  fold out_base.
  unfold bind at 1.
  rewrite fw_dma_start_idle.
  2:{ destruct m as [c cfg i d fl]. destruct d as [lg rd ck orc].
      exact Hidle. }
  cbn [fw_status_eqb negb]. unfold npu_rt_dma_wait.
  match goal with |- context [dma_wait_loop fuel 1000000 0 ?m1] =>
    destruct (dma_wait_loop_total 1000000 (Z.to_nat 100000) fuel 0 m1)
      as [st [m' [Hrun [Hst [Hc [_ [_ Hl]]]]]]];
      try (rewrite ?Z2Nat.id by lia; unfold poll_interval; lia)
  end.
  exists st, m'. split; [exact Hrun |]. split; [exact Hst |].
  rewrite Hl.
  cbn [dev g_ctx with_ctx with_dev dev_logged dev_log after_poll
       src_addr dst_addr xfer_length channel flags].
  rewrite plain_dma_events.
  assert (Hos : 0 <= out_size < 2 ^ 32) by (subst out_size; apply u32_range).
  assert (Hob : 0 <= out_base < 2 ^ 32) by (subst out_base; apply u32_range).
  rewrite u32_idem, (u32_small out_base) by lia.
  assert (Hmin : (if size >? out_size then out_size else size)
                 = Z.min size out_size).
  { destruct (Z.gtb_spec size out_size); lia. }
  rewrite Hmin, (u32_small (Z.min size out_size)) by lia.
  reflexivity.
Qed.

Lemma fw_read_output_clamps_witness :
  (g_initialized (initialized_machine 64) = true /\ 0 < 1000 < 2 ^ 32) /\
  exists st m',
    npu_rt_read_output (S (Z.to_nat 100000))
      (Some (buf_of_list 0x20000000 [])) 1000 (initialized_machine 64)
    = Some (st, m') /\
    last_reg_write REG_DMA_LEN (dev_log (dev m')) = Some 64.
Proof.
  assert (H1 : g_initialized (initialized_machine 64) = true) by reflexivity.
  assert (H2 : 0 < 1000 < 2 ^ 32) by lia.
  assert (H3 : Z.land (u32 (dev_oracle (dev (initialized_machine 64))
                  (S (S (dev_reads (dev (initialized_machine 64)))))
                  REG_DMA_STATUS)) DMA_STATUS_BUSY = 0) by reflexivity.
  assert (H4 : (Z.to_nat 100000 < S (Z.to_nat 100000))%nat) by lia.
  split; [exact (conj H1 H2) |].
  destruct (fw_read_output_clamps (S (Z.to_nat 100000))
              (buf_of_list 0x20000000 []) 1000 (initialized_machine 64)
              H1 H2 H3 H4)
    as [st [m' [Hrun [_ Hlog]]]].
  exists st, m'. split; [exact Hrun |]. rewrite Hlog. reflexivity.
Defined.

(** ** Firmware runtime: loading a model image *)






(** X22.  The firmware and the host runtime use different magic
    numbers for their model images, both read from the first four
    bytes, so no image is accepted by both loaders: whatever its size,
    an image that passes the magic check of [npu_model_load_memory] is
    refused by [npu_rt_load_model] with [FW_ERROR_INVALID_PARAM], and
    an image that passes the firmware's magic check makes
    [npu_model_load_memory] return [NULL]; nothing is loaded in either
    case. *)
Theorem model_formats_are_disjoint (data : host_buf) (size : Z) :
  (forall (fuel : nat) (m : machine),
     g_initialized m = true ->
     Rt.magic (Rt.read_header (hb_elem data)) = Rt.NPU_MODEL_MAGIC ->
     npu_rt_load_model fuel (Some data) size m
       = Some (FW_ERROR_INVALID_PARAM, m)) /\
  (forall w : Rt.world,
     magic (read_model_header (hb_elem data)) = MODEL_MAGIC ->
     fst (Rt.npu_model_load_memory (Some tt) (Some data) size w) = None /\
     Rt.models (snd (Rt.npu_model_load_memory (Some tt) (Some data) size w))
       = Rt.models w).
Proof.
  split.
  - intros fuel m Hinit Hm.
    rewrite fw_load_model_rejects; [rewrite Hinit; reflexivity |].
    left. change (magic (read_model_header (hb_elem data)))
      with (Rt.magic (Rt.read_header (hb_elem data))).
    rewrite Hm. discriminate.
  - intros w Hm.
    destruct (rt_load_memory_rejects_magic data size w) as [w' [Hrun [Hmod _]]].
    + change (Rt.magic (Rt.read_header (hb_elem data)))
        with (magic (read_model_header (hb_elem data))).
      rewrite Hm. discriminate.
    + rewrite Hrun. split; [reflexivity | exact Hmod].
Qed.

Lemma model_formats_are_disjoint_witness :
  (g_initialized (initialized_machine 0) = true /\
   Rt.magic (Rt.read_header
               (hb_elem (Rt.model_image Rt.NPU_MODEL_MAGIC Rt.NPU_MODEL_VERSION)))
     = Rt.NPU_MODEL_MAGIC) /\
  npu_rt_load_model 1
    (Some (Rt.model_image Rt.NPU_MODEL_MAGIC Rt.NPU_MODEL_VERSION))
    Rt.model_image_size (initialized_machine 0)
  = Some (FW_ERROR_INVALID_PARAM, initialized_machine 0).
Proof.
  assert (H1 : g_initialized (initialized_machine 0) = true) by reflexivity.
  assert (H2 : Rt.magic (Rt.read_header
               (hb_elem (Rt.model_image Rt.NPU_MODEL_MAGIC Rt.NPU_MODEL_VERSION)))
               = Rt.NPU_MODEL_MAGIC) by now vm_compute.
  split; [exact (conj H1 H2) |].
  exact (proj1 (model_formats_are_disjoint
                  (Rt.model_image Rt.NPU_MODEL_MAGIC Rt.NPU_MODEL_VERSION)
                  Rt.model_image_size) 1%nat (initialized_machine 0) H1 H2).
Defined.

(** ** Host driver: loading *)

Lemma drv_for_loop_with_dev (n : Z) (f : Z -> device -> device)
  (m : Drv.machine) :
  for_loop n (fun i => Drv.with_dev (f i)) m = Drv.with_dev (for_loop n f) m.
Proof.
  unfold for_loop. generalize (seq 0 (Z.to_nat n)) as l.
  intros l. revert m. induction l as [| i l IH]; intros m.
  - destruct m; reflexivity.
  - cbn [fold_left]. rewrite IH. destruct m; reflexivity.
Qed.

Lemma drv_not_running_iff (s : Drv.npu_state_t) :
  s <> Drv.NPU_STATE_RUNNING <-> Drv.is_running s = false.
Proof. destruct s; cbn; split; try congruence; intros; discriminate. Qed.

(** X23.  While the driver context is not Running, each loader copies
    what it is given and then points the hardware at it.
    [npu_load_instructions] stores the [count] instruction words to
    consecutive 8-byte slots from the configured instruction buffer
    address and writes that address, the count and a zero instruction
    pointer to the instruction registers; [npu_load_weights] and
    [npu_load_input] copy [size] bytes in one block to the configured
    weight (resp. activation) buffer and write its address and the
    size to the two registers of that buffer.  All three return
    [NPU_OK], read no register and leave the context as it is. *)
Theorem drv_loads_copy (m : Drv.machine) :
  Drv.state (Drv.ctx_obj m) <> Drv.NPU_STATE_RUNNING ->
  let cfg := Drv.config (Drv.ctx_obj m) in
  let reg off := u32 (Drv.base_addr cfg + off) in
  (forall (buf : host_buf) (count : Z),
     0 < count -> count * 8 < 2 ^ 32 -> count * 8 <= Drv.inst_buf_size cfg ->
     exists m',
       Drv.npu_load_instructions (Some tt) (Some buf) count m
         = Some (Drv.NPU_OK, m') /\
       Drv.ctx_obj m' = Drv.ctx_obj m /\
       dev_reads (Drv.dev m') = dev_reads (Drv.dev m) /\
       dev_log (Drv.dev m')
       = [ EvRegWrite (reg Drv.NPU_REG_INST_PTR) 0;
           EvRegWrite (reg Drv.NPU_REG_INST_SIZE) count;
           EvRegWrite (reg Drv.NPU_REG_INST_BASE) (u32 (Drv.inst_buf_addr cfg)) ]
         ++ word_copy_events (Drv.inst_buf_addr cfg) (hb_elem buf) count
         ++ dev_log (Drv.dev m)) /\
  (forall (buf : host_buf) (size : Z),
     0 < size < 2 ^ 32 -> size <= Drv.weight_buf_size cfg ->
     exists m',
       Drv.npu_load_weights (Some tt) (Some buf) size m
         = Some (Drv.NPU_OK, m') /\
       Drv.ctx_obj m' = Drv.ctx_obj m /\
       dev_reads (Drv.dev m') = dev_reads (Drv.dev m) /\
       dev_log (Drv.dev m')
       = [ EvRegWrite (reg Drv.NPU_REG_WEIGHT_SIZE) size;
           EvRegWrite (reg Drv.NPU_REG_WEIGHT_BASE)
                      (u32 (Drv.weight_buf_addr cfg));
           EvMemcpy (Drv.weight_buf_addr cfg) (Drv.host_bytes buf size) ]
         ++ dev_log (Drv.dev m)) /\
  (forall (buf : host_buf) (size : Z),
     0 < size < 2 ^ 32 -> size <= Drv.act_buf_size cfg ->
     exists m',
       Drv.npu_load_input (Some tt) (Some buf) size m
         = Some (Drv.NPU_OK, m') /\
       Drv.ctx_obj m' = Drv.ctx_obj m /\
       dev_reads (Drv.dev m') = dev_reads (Drv.dev m) /\
       dev_log (Drv.dev m')
       = [ EvRegWrite (reg Drv.NPU_REG_ACT_IN_SIZE) size;
           EvRegWrite (reg Drv.NPU_REG_ACT_IN_BASE)
                      (u32 (Drv.act_buf_addr cfg));
           EvMemcpy (Drv.act_buf_addr cfg) (Drv.host_bytes buf size) ]
         ++ dev_log (Drv.dev m)).
Proof.
  intros Hst cfg reg. apply drv_not_running_iff in Hst.
  split; [| split].
  - intros buf count Hpos Hfit Hle.
    unfold Drv.npu_load_instructions.
    replace (count =? 0) with false by (symmetry; apply Z.eqb_neq; lia).
    unfold Drv.bind at 1. unfold Drv.gets at 1. rewrite Hst.
    rewrite (u32_small (count * 8)) by lia.
    replace (count * 8 >? Drv.inst_buf_size (Drv.config (Drv.ctx_obj m)))
      with false
      by (symmetry; rewrite Z.gtb_ltb; apply Z.ltb_ge; exact Hle).
    unfold Drv.bind, Drv.modify, Drv.reg_write, Drv.gets, Drv.ret.
    rewrite drv_for_loop_with_dev.
    unfold Drv.with_dev. cbn [Drv.ctx_obj Drv.dev Drv.fdiv_log].
    rewrite word_copy_loop.
    eexists. split; [reflexivity |].
    cbn [Drv.ctx_obj Drv.dev dev_write32 dev_logged dev_log dev_reads].
    rewrite (u32_small count) by lia.
    split_all; reflexivity.
  - intros buf size Hsz Hle.
    unfold Drv.npu_load_weights.
    replace (size =? 0) with false by (symmetry; apply Z.eqb_neq; lia).
    unfold Drv.bind at 1. unfold Drv.gets at 1. rewrite Hst.
    replace (size >? Drv.weight_buf_size (Drv.config (Drv.ctx_obj m)))
      with false
      by (symmetry; rewrite Z.gtb_ltb; apply Z.ltb_ge; exact Hle).
    eexists. split; [reflexivity |].
    destruct m as [c d fl].
    cbn [Drv.ctx_obj Drv.dev Drv.with_dev dev_write32 dev_memcpy
         dev_log dev_reads].
    rewrite (u32_small size) by lia.
    split_all; reflexivity.
  - intros buf size Hsz Hle.
    unfold Drv.npu_load_input.
    replace (size =? 0) with false by (symmetry; apply Z.eqb_neq; lia).
    unfold Drv.bind at 1. unfold Drv.gets at 1. rewrite Hst.
    replace (size >? Drv.act_buf_size (Drv.config (Drv.ctx_obj m)))
      with false
      by (symmetry; rewrite Z.gtb_ltb; apply Z.ltb_ge; exact Hle).
    eexists. split; [reflexivity |].
    destruct m as [c d fl].
    cbn [Drv.ctx_obj Drv.dev Drv.with_dev dev_write32 dev_memcpy
         dev_log dev_reads].
    rewrite (u32_small size) by lia.
    split_all; reflexivity.
Qed.

Lemma drv_loads_copy_witness :
  Drv.state (Drv.ctx_obj (Drv.initialized_machine 0))
    <> Drv.NPU_STATE_RUNNING /\
  exists m',
    Drv.npu_load_weights (Some tt) (Some (buf_of_list 0x20000000 [5; 6])) 2
      (Drv.initialized_machine 0) = Some (Drv.NPU_OK, m') /\
    dev_log (Drv.dev m')
    = [ EvRegWrite 0x40000204 2; EvRegWrite 0x40000200 0x40200000;
        EvMemcpy 0x40200000 [5; 6] ]
      ++ dev_log (Drv.dev (Drv.initialized_machine 0)).
Proof.
  assert (Hs : Drv.state (Drv.ctx_obj (Drv.initialized_machine 0))
               <> Drv.NPU_STATE_RUNNING) by discriminate.
  split; [exact Hs |].
  destruct (proj1 (proj2 (drv_loads_copy (Drv.initialized_machine 0) Hs))
              (buf_of_list 0x20000000 [5; 6]) 2)
    as [m' [Hrun [_ [_ Hlog]]]]; [lia | now vm_compute |].
  exists m'. split; [exact Hrun |]. rewrite Hlog. reflexivity.
Defined.

(** ** Host driver: running *)

(** The part of [npu_run] that follows the wait: the counter reads and
    the utilization.  It changes the statistics only. *)
Lemma drv_run_epilogue (st : Drv.npu_status_t) (m : Drv.machine) :
  exists m',
    Drv.bind Drv.read_perf_counters (fun _ =>
      Drv.bind (Drv.gets (fun m => Drv.perf_stats (Drv.ctx_obj m))) (fun p =>
        Drv.bind
          (if Drv.total_cycles p >? 0 then
             Drv.bind
               (Drv.modify (Drv.log_fdiv
                  (u64 (Drv.total_cycles p - Drv.stall_cycles p))
                  (Drv.total_cycles p)))
               (fun _ => Drv.set_perf_field (Drv.set_utilization
                  (f32_mul
                     (f32_div
                        (f32_of_Z (u64 (Drv.total_cycles p - Drv.stall_cycles p)))
                        (f32_of_Z (Drv.total_cycles p)))
                     (f32_of_Z 100))))
           else Drv.ret tt)
          (fun _ => Drv.ret st))) m
    = Some (st, m') /\
    Drv.state (Drv.ctx_obj m') = Drv.state (Drv.ctx_obj m) /\
    Drv.config (Drv.ctx_obj m') = Drv.config (Drv.ctx_obj m) /\
    dev_log (Drv.dev m') = dev_log (Drv.dev m).
Proof.
  destruct m as [c d fl]. destruct c as [cf s hw cb cbd p dbg]. destruct d.
  unfold Drv.read_perf_counters, Drv.bind, Drv.reg_read, Drv.gets,
    Drv.set_perf_field, Drv.modify, Drv.ret.
  cbn -[u32 u64 f32_mul f32_div f32_of_Z Z.gtb Z.add Z.sub].
  match goal with |- context [if ?c then _ else _] => destruct c end;
    eexists; split_all; reflexivity.
Qed.

Lemma drv_run_eq (fuel : nat) (timeout_ms : Z) (m : Drv.machine) :
  Drv.is_running (Drv.state (Drv.ctx_obj m)) = false ->
  Drv.npu_run fuel (Some tt) timeout_ms m
  = Drv.bind (Drv.wait_for_idle fuel timeout_ms) (fun status =>
      Drv.bind Drv.read_perf_counters (fun _ =>
      Drv.bind (Drv.gets (fun m => Drv.perf_stats (Drv.ctx_obj m))) (fun p =>
        Drv.bind
          (if Drv.total_cycles p >? 0 then
             Drv.bind
               (Drv.modify (Drv.log_fdiv
                  (u64 (Drv.total_cycles p - Drv.stall_cycles p))
                  (Drv.total_cycles p)))
               (fun _ => Drv.set_perf_field (Drv.set_utilization
                  (f32_mul
                     (f32_div
                        (f32_of_Z (u64 (Drv.total_cycles p - Drv.stall_cycles p)))
                        (f32_of_Z (Drv.total_cycles p)))
                     (f32_of_Z 100))))
           else Drv.ret tt)
          (fun _ => Drv.ret status))))
      (Drv.with_dev
         (dev_logged
            (let reg off := u32 (Drv.base_addr (Drv.config (Drv.ctx_obj m))
                                 + off) in
             [ EvRegWrite (reg Drv.NPU_REG_CTRL)
                 (u32 (Z.lor Drv.NPU_CTRL_ENABLE Drv.NPU_CTRL_START));
               EvRegWrite (reg Drv.NPU_REG_PERF_STALL) 0;
               EvRegWrite (reg Drv.NPU_REG_PERF_MAC) 0;
               EvRegWrite (reg Drv.NPU_REG_PERF_INST) 0;
               EvRegWrite (reg Drv.NPU_REG_PERF_CYCLES) 0 ]))
         (Drv.with_ctx (fun c =>
            Drv.set_state Drv.NPU_STATE_RUNNING
              (Drv.set_perf_stats Drv.perf_zero c)) m)).
Proof.
  intros Hst. unfold Drv.npu_run.
  unfold Drv.bind at 1. unfold Drv.gets at 1. rewrite Hst.
  destruct m as [c d fl]. destruct c as [cf s hw cb cbd p dbg]. destruct d.
  reflexivity.
Qed.

(** X24.  A run that times out leaves the driver stuck in Running.  For
    a timeout of at least 1 ms whose value in microseconds, [timeout_ms
    * 1000], is at most 4294967290 (so that neither it nor the elapsed
    time wraps in 32 bits), from a context that is not Running: if the
    status register shows neither error, done nor idle during the [100 *
    timeout_ms] polls of the wait, [npu_run] returns [NPU_ERROR_TIMEOUT]
    and the context stays in state Running; a following [npu_run] or
    load is refused with [NPU_ERROR_BUSY], until [npu_abort] (a reset)
    brings the context back to Idle. *)
Theorem drv_run_timeout_stays_running (fuel : nat) (timeout_ms : Z)
  (m : Drv.machine) :
  Drv.state (Drv.ctx_obj m) <> Drv.NPU_STATE_RUNNING ->
  0 < timeout_ms -> timeout_ms * 1000 <= 4294967290 ->
  Drv.first_polls_pending m (Z.to_nat (100 * timeout_ms)) ->
  exists m',
    Drv.npu_run (Z.to_nat (100 * timeout_ms) + S fuel) (Some tt) timeout_ms m
      = Some (Drv.NPU_ERROR_TIMEOUT, m') /\
    Drv.state (Drv.ctx_obj m') = Drv.NPU_STATE_RUNNING /\
    (forall fuel' t, Drv.npu_run fuel' (Some tt) t m'
                     = Some (Drv.NPU_ERROR_BUSY, m')) /\
    (forall buf n, n <> 0 ->
       Drv.npu_load_instructions (Some tt) (Some buf) n m'
         = Some (Drv.NPU_ERROR_BUSY, m') /\
       Drv.npu_load_weights (Some tt) (Some buf) n m'
         = Some (Drv.NPU_ERROR_BUSY, m') /\
       Drv.npu_load_input (Some tt) (Some buf) n m'
         = Some (Drv.NPU_ERROR_BUSY, m')) /\
    exists m'',
      Drv.npu_abort (Some tt) m' = Some (Drv.NPU_OK, m'') /\
      Drv.state (Drv.ctx_obj m'') = Drv.NPU_STATE_IDLE.
Proof.
  intros Hst Hpos Hfit Hp. apply drv_not_running_iff in Hst.
  rewrite drv_run_eq by exact Hst.
  match goal with |- context [Drv.bind _ _ ?m1] => set (ms := m1) end.
  assert (Hw : Drv.wait_for_idle (Z.to_nat (100 * timeout_ms) + S fuel)
                 timeout_ms ms
               = Some (Drv.NPU_ERROR_TIMEOUT,
                       Drv.advance (Z.to_nat (100 * timeout_ms)) ms)).
  { apply (drv_wait_timeout ms fuel timeout_ms Hpos Hfit).
    intros j Hj. specialize (Hp j Hj). revert Hp.
    unfold Drv.status_at. subst ms.
    destruct m as [c d fl]. destruct c as [cf s hw cb cbd p dbg]. destruct d.
    exact (fun H => H). }
  unfold Drv.bind at 1. rewrite Hw.
  destruct (drv_run_epilogue Drv.NPU_ERROR_TIMEOUT
              (Drv.advance (Z.to_nat (100 * timeout_ms)) ms))
    as [m' [Hrun [Hs' [_ _]]]].
  exists m'. split; [exact Hrun |].
  assert (Hrunning : Drv.state (Drv.ctx_obj m') = Drv.NPU_STATE_RUNNING).
  { rewrite Hs'. subst ms. destruct m as [c d fl]. reflexivity. }
  split; [exact Hrunning |]. split; [| split].
  - intros fuel' t. unfold Drv.npu_run.
    unfold Drv.bind at 1. unfold Drv.gets at 1. rewrite Hrunning. reflexivity.
  - intros buf n Hn. split_all.
    + apply drv_load_instructions_running; assumption.
    + apply drv_load_weights_running; assumption.
    + apply drv_load_input_running; assumption.
  - eexists. split; [reflexivity |]. reflexivity.
Qed.

Lemma drv_run_timeout_stays_running_witness :
  (Drv.state (Drv.ctx_obj (Drv.initialized_machine Drv.NPU_STATUS_RUNNING))
     <> Drv.NPU_STATE_RUNNING /\ 0 < 1 /\ 1 * 1000 <= 4294967290) /\
  exists m',
    Drv.npu_run (Z.to_nat (100 * 1) + 1) (Some tt) 1
      (Drv.initialized_machine Drv.NPU_STATUS_RUNNING)
    = Some (Drv.NPU_ERROR_TIMEOUT, m') /\
    Drv.state (Drv.ctx_obj m') = Drv.NPU_STATE_RUNNING.
Proof.
  assert (H1 : Drv.state (Drv.ctx_obj
                 (Drv.initialized_machine Drv.NPU_STATUS_RUNNING))
               <> Drv.NPU_STATE_RUNNING) by discriminate.
  assert (H2 : 0 < 1) by lia.
  assert (H3 : 1 * 1000 <= 4294967290) by lia.
  split; [exact (conj H1 (conj H2 H3)) |].
  destruct (drv_run_timeout_stays_running 0 1
              (Drv.initialized_machine Drv.NPU_STATUS_RUNNING) H1 H2 H3)
    as [m' [Hrun [Hs _]]].
  - intros j _. split_all; reflexivity.
  - exists m'. split; assumption.
Defined.

(** ** Host driver: DMA *)

Lemma drv_after_dma_polls_zero (m : Drv.machine) : Drv.after_dma_polls 0 m = m.
Proof.
  unfold Drv.after_dma_polls, Drv.with_dev. destruct m as [c d fl]. destruct d.
  cbn. rewrite Nat.add_0_r, Z.add_0_r. reflexivity.
Qed.

(** One poll of [npu_dma_transfer]. *)
Lemma drv_dma_poll (remaining : nat) (m : Drv.machine) :
  Drv.dma_poll_loop (S remaining) m
  = if Drv.dma_done (Drv.dma_status_at m 0)
    then Some (Drv.NPU_OK, Drv.after_poll m)
    else Drv.dma_poll_loop remaining (Drv.after_dma_polls 1 m).
Proof.
  cbn [Drv.dma_poll_loop].
  unfold Drv.bind at 1. unfold Drv.reg_read at 1.
  unfold Drv.bind at 1. unfold Drv.gets at 1. cbn [dev_read32].
  unfold Drv.dma_done, Drv.dma_status_at. rewrite Nat.add_0_r.
  destruct (Z.land _ 1 =? 0); cbn [negb]; [| reflexivity].
  unfold Drv.bind at 1. unfold Drv.npu_delay_us, Drv.modify.
  f_equal. unfold Drv.after_dma_polls, Drv.with_dev, dev_delay_us.
  destruct m as [c d fl]. destruct d. cbn. f_equal. f_equal; lia.
Qed.

Lemma drv_dma_poll_loop_spec (n : nat) :
  forall (m : Drv.machine),
    ((forall j, (j < n)%nat -> Drv.dma_done (Drv.dma_status_at m j) = false) ->
     Drv.dma_poll_loop n m
       = Some (Drv.NPU_ERROR_TIMEOUT, Drv.after_dma_polls n m)) /\
    (forall k, (k < n)%nat ->
       (forall j, (j < k)%nat -> Drv.dma_done (Drv.dma_status_at m j) = false) ->
       Drv.dma_done (Drv.dma_status_at m k) = true ->
       Drv.dma_poll_loop n m
         = Some (Drv.NPU_OK, Drv.after_poll (Drv.after_dma_polls k m))).
Proof.
  induction n as [| n IH]; intros m.
  - split; [| intros k Hk; lia].
    intros _. rewrite drv_after_dma_polls_zero. reflexivity.
  - assert (Hshift : forall j,
              Drv.dma_status_at (Drv.after_dma_polls 1 m) j
              = Drv.dma_status_at m (S j)).
    { intros j. unfold Drv.dma_status_at, Drv.after_dma_polls, Drv.with_dev.
      destruct m as [c d fl]. destruct d. cbn.
      rewrite <- Nat.add_assoc. reflexivity. }
    assert (Hcomp : forall k,
              Drv.after_dma_polls k (Drv.after_dma_polls 1 m)
              = Drv.after_dma_polls (S k) m).
    { intros k. unfold Drv.after_dma_polls, Drv.with_dev.
      destruct m as [c d fl]. destruct d. cbn. f_equal. f_equal; lia. }
    split.
    + intros Hp. rewrite drv_dma_poll, (Hp 0%nat) by lia.
      destruct (IH (Drv.after_dma_polls 1 m)) as [IH1 _].
      rewrite IH1, Hcomp; [reflexivity |].
      intros j Hj. rewrite Hshift. apply Hp. lia.
    + intros k Hk Hp Hd. rewrite drv_dma_poll.
      destruct k as [| k].
      * rewrite Hd, drv_after_dma_polls_zero. reflexivity.
      * rewrite (Hp 0%nat) by lia.
        destruct (IH (Drv.after_dma_polls 1 m)) as [_ IH2].
        rewrite (IH2 k), Hcomp; [reflexivity | lia | |].
        -- intros j Hj. rewrite Hshift. apply Hp. lia.
        -- rewrite Hshift. exact Hd.
Qed.

(** X25.  [npu_dma_transfer] always returns.  With a context that has
    DMA and a non-zero size it programs source, destination and size,
    writes 1 to the DMA control register and polls the DMA status
    register at most 10000 times, a microsecond apart: it returns
    [NPU_OK] at the first poll that shows bit 0, and
    [NPU_ERROR_TIMEOUT] after 10000 polls that did not.  It does not
    look at the execution state and never changes the context.  A zero
    size, a null context or a context without DMA is refused with
    [NPU_ERROR_INVALID_PARAM] and nothing is written. *)
Theorem drv_dma_transfer_bounded (src dst size : Z) (m : Drv.machine) :
  let started :=
    Drv.with_dev (dev_logged
      (let reg off := u32 (Drv.base_addr (Drv.config (Drv.ctx_obj m)) + off) in
       [ EvRegWrite (reg Drv.NPU_REG_DMA_CTRL) 1;
         EvRegWrite (reg Drv.NPU_REG_DMA_SIZE) (u32 size);
         EvRegWrite (reg Drv.NPU_REG_DMA_DST) (u32 dst);
         EvRegWrite (reg Drv.NPU_REG_DMA_SRC) (u32 src) ])) m in
  Drv.npu_dma_transfer None src dst size m
    = Some (Drv.NPU_ERROR_INVALID_PARAM, m) /\
  Drv.npu_dma_transfer (Some tt) src dst 0 m
    = Some (Drv.NPU_ERROR_INVALID_PARAM, m) /\
  (Drv.has_dma (Drv.hw_info (Drv.ctx_obj m)) = false ->
   Drv.npu_dma_transfer (Some tt) src dst size m
     = Some (Drv.NPU_ERROR_INVALID_PARAM, m)) /\
  (Drv.has_dma (Drv.hw_info (Drv.ctx_obj m)) = true -> size <> 0 ->
   ((forall j, (j < Z.to_nat Drv.DMA_POLLS)%nat ->
       Drv.dma_done (Drv.dma_status_at m j) = false) ->
    Drv.npu_dma_transfer (Some tt) src dst size m
      = Some (Drv.NPU_ERROR_TIMEOUT,
              Drv.after_dma_polls (Z.to_nat Drv.DMA_POLLS) started)) /\
   (forall k, (k < Z.to_nat Drv.DMA_POLLS)%nat ->
      (forall j, (j < k)%nat -> Drv.dma_done (Drv.dma_status_at m j) = false) ->
      Drv.dma_done (Drv.dma_status_at m k) = true ->
      Drv.npu_dma_transfer (Some tt) src dst size m
        = Some (Drv.NPU_OK,
                Drv.after_poll (Drv.after_dma_polls k started)))).
Proof.
  intros started. split; [reflexivity |]. split; [reflexivity |].
  assert (Heq : Drv.has_dma (Drv.hw_info (Drv.ctx_obj m)) = true ->
                size <> 0 ->
                Drv.npu_dma_transfer (Some tt) src dst size m
                = Drv.dma_poll_loop (Z.to_nat Drv.DMA_POLLS) started).
  { intros Hdma Hsz. unfold Drv.npu_dma_transfer.
    apply Z.eqb_neq in Hsz. rewrite Hsz.
    unfold Drv.bind at 1. unfold Drv.gets at 1. rewrite Hdma. cbn [negb].
    subst started. destruct m as [c d fl]. destruct d. reflexivity. }
  assert (Hsame : forall j, Drv.dma_status_at started j = Drv.dma_status_at m j).
  { intros j. subst started. unfold Drv.dma_status_at.
    destruct m as [c d fl]. destruct d. reflexivity. }
  split.
  - intros Hdma. unfold Drv.npu_dma_transfer.
    destruct (size =? 0); [reflexivity |].
    unfold Drv.bind at 1. unfold Drv.gets at 1. rewrite Hdma. reflexivity.
  - intros Hdma Hsz. rewrite (Heq Hdma Hsz).
    destruct (drv_dma_poll_loop_spec (Z.to_nat Drv.DMA_POLLS) started)
      as [Ht Hok].
    split.
    + intros Hp. apply Ht. intros j Hj. rewrite Hsame. apply Hp, Hj.
    + intros k Hk Hp Hd. apply Hok; [exact Hk | | rewrite Hsame; exact Hd].
      intros j Hj. rewrite Hsame. apply Hp, Hj.
Qed.

Lemma drv_dma_transfer_bounded_witness :
  (Drv.has_dma (Drv.hw_info (Drv.ctx_obj (Drv.initialized_machine 1))) = true /\
   64 <> 0) /\
  option_map fst
    (Drv.npu_dma_transfer (Some tt) 0x1000 0x2000 64 (Drv.initialized_machine 1))
  = Some Drv.NPU_OK.
Proof.
  assert (H1 : Drv.has_dma (Drv.hw_info (Drv.ctx_obj (Drv.initialized_machine 1)))
               = true) by reflexivity.
  assert (H2 : 64 <> 0) by discriminate.
  split; [exact (conj H1 H2) |].
  rewrite (proj2 (proj2 (proj2 (proj2
             (drv_dma_transfer_bounded 0x1000 0x2000 64
                (Drv.initialized_machine 1)))) H1 H2) 0%nat).
  - reflexivity.
  - apply Nat2Z.inj_lt. rewrite Z2Nat.id by (unfold Drv.DMA_POLLS; lia).
    unfold Drv.DMA_POLLS. lia.
  - intros j Hj. lia.
  - reflexivity.
Defined.

(** ** Host driver: statistics and reset *)

(** ** Host runtime: model slots *)

Lemma first_free_spec (l : list (option Rt.npu_model)) (k i : nat) :
  Rt.first_free l k = Some i ->
  (k <= i)%nat /\ (i - k < length l)%nat /\ nth (i - k) l None = None.
Proof.
  revert k. induction l as [| x l IH]; intros k H; [discriminate |].
  cbn [Rt.first_free] in H. destruct x as [mdl |].
  - apply IH in H. destruct H as [H1 [H2 H3]].
    split; [lia |]. cbn [length]. split; [lia |].
    replace (i - k)%nat with (S (i - S k)) by lia. exact H3.
  - injection H as <-. rewrite Nat.sub_diag. cbn. split_all; [lia | lia | reflexivity].
Qed.

Lemma set_slot_nth_same (i : nat) (v : option Rt.npu_model)
  (l : list (option Rt.npu_model)) :
  (i < length l)%nat -> nth i (Rt.set_slot i v l) None = v.
Proof.
  revert i. induction l as [| x l IH]; intros i Hi; [cbn in Hi; lia |].
  destruct i as [| i]; [reflexivity |].
  cbn [Rt.set_slot nth]. apply IH. cbn in Hi. lia.
Qed.


Lemma set_slot_twice (i : nat) (u v : option Rt.npu_model)
  (l : list (option Rt.npu_model)) :
  Rt.set_slot i v (Rt.set_slot i u l) = Rt.set_slot i v l.
Proof.
  revert i. induction l as [| x l IH]; intros i; [destruct i; reflexivity |].
  destruct i as [| i]; [reflexivity |].
  cbn [Rt.set_slot]. rewrite IH. reflexivity.
Qed.

Lemma set_slot_unchanged (i : nat) (l : list (option Rt.npu_model)) :
  nth i l None = None -> Rt.set_slot i None l = l.
Proof.
  revert i. induction l as [| x l IH]; intros i H; [destruct i; reflexivity |].
  destruct i as [| i].
  - cbn in H. subst x. reflexivity.
  - cbn [Rt.set_slot]. rewrite IH; [reflexivity | exact H].
Qed.


(** An update of the model in slot [i], once the slot is known to hold
    [mdl]. *)
Lemma update_slot_at (i : nat) (f : Rt.npu_model -> Rt.npu_model)
  (mdl : Rt.npu_model) (cfg : Rt.npu_runtime_config_t)
  (l : list (option Rt.npu_model)) (n : Z) (a : nat) (ok : nat -> bool)
  (out : list Rt.debug_msg) :
  (i < length l)%nat ->
  Rt.update_slot i f
    (Rt.mkWorld cfg (Rt.set_slot i (Some mdl) l) n a ok out)
  = Rt.mkWorld cfg (Rt.set_slot i (Some (f mdl)) l) n a ok out.
Proof.
  intros Hi. unfold Rt.update_slot. cbn [Rt.models].
  rewrite set_slot_nth_same by exact Hi.
  unfold Rt.with_models. cbn [Rt.models Rt.config Rt.num_models Rt.allocs
                             Rt.alloc_ok Rt.stdout].
  rewrite set_slot_twice. reflexivity.
Qed.

Lemma unload_slot_at (i : nat) (mdl : Rt.npu_model)
  (cfg : Rt.npu_runtime_config_t) (l : list (option Rt.npu_model)) (n : Z)
  (a : nat) (ok : nat -> bool) (out : list Rt.debug_msg) :
  nth i l None = None -> 0 <= n < 2 ^ 32 ->
  Rt.npu_model_unload i
    (Rt.mkWorld cfg (Rt.set_slot i (Some mdl) l) (u32 (n + 1)) a ok out)
  = Rt.mkWorld cfg l n a ok out.
Proof.
  intros Hfree Hn. unfold Rt.npu_model_unload, Rt.with_models.
  cbn [Rt.models Rt.config Rt.num_models Rt.allocs Rt.alloc_ok Rt.stdout].
  rewrite set_slot_twice, set_slot_unchanged by exact Hfree.
  f_equal. unfold u32.
  rewrite Zminus_mod_idemp_l. replace (n + 1 - 1) with n by lia.
  apply Z.mod_small, Hn.
Qed.

(** The model a successful [npu_model_load_memory] leaves in its slot. *)
Lemma rt_load_memory_spec (runtime : option unit) (data : host_ptr) (size : Z)
  (w : Rt.world) :
  0 <= Rt.num_models w < 2 ^ 32 ->
  match Rt.npu_model_load_memory runtime data size w with
  | (None, w') =>
      Rt.models w' = Rt.models w /\ Rt.num_models w' = Rt.num_models w
  | (Some i, w') =>
      exists image,
        data = Some image /\
        Rt.first_free (Rt.models w) 0 = Some i /\
        Rt.models w' = Rt.set_slot i (Some (Rt.loaded_model image)) (Rt.models w) /\
        Rt.num_models w' = u32 (Rt.num_models w + 1) /\
        Rt.models (Rt.npu_model_unload i w') = Rt.models w /\
        Rt.num_models (Rt.npu_model_unload i w') = Rt.num_models w
  end.
Proof.
  intros Hn. destruct w as [cfg l n a ok out].
  cbn [Rt.models Rt.num_models] in *.
  unfold Rt.npu_model_load_memory.
  destruct runtime as [[] |]; [| split; reflexivity].
  destruct data as [image |]; [| split; reflexivity].
  destruct (size <? Rt.sizeof_npu_model_header_t); [split; reflexivity |].
  destruct (negb _).
  { cbn [Rt.config Rt.enable_debug]. destruct (Rt.enable_debug cfg); split; reflexivity. }
  unfold Rt.allocate_model_slot. cbn [Rt.models].
  destruct (Rt.first_free l 0) as [i |] eqn:Hff; [| split; reflexivity].
  pose proof (first_free_spec _ _ _ Hff) as [_ [Hi Hfree]].
  rewrite Nat.sub_0_r in Hi, Hfree.
  unfold Rt.malloc at 1.
  cbn [Rt.alloc_ok Rt.allocs Rt.config Rt.models Rt.num_models Rt.stdout].
  destruct (ok a); [| split; reflexivity].
  unfold Rt.with_models at 1.
  cbn [Rt.alloc_ok Rt.allocs Rt.config Rt.models Rt.num_models Rt.stdout].
  rewrite update_slot_at by exact Hi.
  unfold Rt.malloc at 1.
  cbn [Rt.alloc_ok Rt.allocs Rt.config Rt.models Rt.num_models Rt.stdout].
  destruct (ok (S a)); cbn [negb].
  2:{ rewrite unload_slot_at by assumption. split; reflexivity. }
  rewrite update_slot_at by exact Hi.
  destruct (Rt.weights_size (Rt.read_header (hb_elem image)) >? 0) eqn:Hws.
  - unfold Rt.malloc at 1.
    cbn [Rt.alloc_ok Rt.allocs Rt.config Rt.models Rt.num_models Rt.stdout].
    destruct (ok (S (S a))); cbn [negb].
    2:{ unfold Rt.malloc. cbn [snd Rt.alloc_ok Rt.allocs Rt.config Rt.models
                               Rt.num_models Rt.stdout].
        rewrite unload_slot_at by assumption. split; reflexivity. }
    rewrite update_slot_at by exact Hi.
    destruct (Rt.bias_size (Rt.read_header (hb_elem image)) >? 0) eqn:Hbs.
    + unfold Rt.malloc at 1.
      cbn [Rt.alloc_ok Rt.allocs Rt.config Rt.models Rt.num_models Rt.stdout].
      destruct (ok (S (S (S a)))); cbn [negb].
      2:{ unfold Rt.malloc. cbn [snd Rt.alloc_ok Rt.allocs Rt.config Rt.models
                                 Rt.num_models Rt.stdout].
          rewrite unload_slot_at by assumption. split; reflexivity. }
      rewrite !update_slot_at by exact Hi.
      cbn [Rt.config Rt.enable_debug].
      exists image. unfold Rt.loaded_model. rewrite Hws, Hbs.
      destruct (Rt.enable_debug cfg); unfold Rt.print;
        cbn [Rt.alloc_ok Rt.allocs Rt.config Rt.models Rt.num_models Rt.stdout
             Rt.info_num_instructions Rt.info_weights_size Rt.info_input_size
             Rt.info_output_size Rt.instructions Rt.weights Rt.bias];
        rewrite unload_slot_at by assumption;
        cbn [Rt.models Rt.num_models]; split_all; reflexivity.
    + rewrite !update_slot_at by exact Hi.
      cbn [Rt.config Rt.enable_debug].
      exists image. unfold Rt.loaded_model. rewrite Hws, Hbs.
      destruct (Rt.enable_debug cfg); unfold Rt.print;
        cbn [Rt.alloc_ok Rt.allocs Rt.config Rt.models Rt.num_models Rt.stdout
             Rt.info_num_instructions Rt.info_weights_size Rt.info_input_size
             Rt.info_output_size Rt.instructions Rt.weights Rt.bias];
        rewrite unload_slot_at by assumption;
        cbn [Rt.models Rt.num_models]; split_all; reflexivity.
  - destruct (Rt.bias_size (Rt.read_header (hb_elem image)) >? 0) eqn:Hbs.
    + unfold Rt.malloc at 1.
      cbn [Rt.alloc_ok Rt.allocs Rt.config Rt.models Rt.num_models Rt.stdout].
      destruct (ok (S (S a))); cbn [negb].
      2:{ unfold Rt.malloc. cbn [snd Rt.alloc_ok Rt.allocs Rt.config Rt.models
                                 Rt.num_models Rt.stdout].
          rewrite unload_slot_at by assumption. split; reflexivity. }
      rewrite !update_slot_at by exact Hi.
      cbn [Rt.config Rt.enable_debug].
      exists image. unfold Rt.loaded_model. rewrite Hws, Hbs.
      destruct (Rt.enable_debug cfg); unfold Rt.print;
        cbn [Rt.alloc_ok Rt.allocs Rt.config Rt.models Rt.num_models Rt.stdout
             Rt.info_num_instructions Rt.info_weights_size Rt.info_input_size
             Rt.info_output_size Rt.instructions Rt.weights Rt.bias];
        rewrite unload_slot_at by assumption;
        cbn [Rt.models Rt.num_models]; split_all; reflexivity.
    + rewrite !update_slot_at by exact Hi.
      cbn [Rt.config Rt.enable_debug].
      exists image. unfold Rt.loaded_model. rewrite Hws, Hbs.
      destruct (Rt.enable_debug cfg); unfold Rt.print;
        cbn [Rt.alloc_ok Rt.allocs Rt.config Rt.models Rt.num_models Rt.stdout
             Rt.info_num_instructions Rt.info_weights_size Rt.info_input_size
             Rt.info_output_size Rt.instructions Rt.weights Rt.bias];
        rewrite unload_slot_at by assumption;
        cbn [Rt.models Rt.num_models]; split_all; reflexivity.
Qed.


(** X26.  A load that returns [NULL] leaves the runtime's model table as
    it found it: whatever made it fail (a null argument, a short or
    foreign image, no free slot, or an allocation that fails at any
    point, after which the half-built model is unloaded again), the
    slots and the model count are those from before the call. *)
Theorem rt_load_failure_keeps_slots (runtime : option unit) (data : host_ptr)
  (size : Z) (w : Rt.world) :
  0 <= Rt.num_models w < 2 ^ 32 ->
  fst (Rt.npu_model_load_memory runtime data size w) = None ->
  Rt.models (snd (Rt.npu_model_load_memory runtime data size w)) = Rt.models w /\
  Rt.num_models (snd (Rt.npu_model_load_memory runtime data size w))
    = Rt.num_models w.
Proof.
  intros Hn Hnone. pose proof (rt_load_memory_spec runtime data size w Hn) as H.
  destruct (Rt.npu_model_load_memory runtime data size w) as [[i |] w'];
    [discriminate | exact H].
Qed.

Lemma rt_load_failure_keeps_slots_witness :
  let w := Rt.mkWorld (Rt.mkRtConfig 2 1048576 false false) [None; None] 0 0
             (fun n => (n =? 0)%nat) [] in
  let image := Some (Rt.model_image Rt.NPU_MODEL_MAGIC Rt.NPU_MODEL_VERSION) in
  fst (Rt.npu_model_load_memory (Some tt) image Rt.model_image_size w) = None /\
  Rt.allocs (snd (Rt.npu_model_load_memory (Some tt) image Rt.model_image_size w))
    = 2%nat /\
  Rt.models (snd (Rt.npu_model_load_memory (Some tt) image Rt.model_image_size w))
    = [None; None].
Proof.
  split; [vm_compute; reflexivity |]. split; [vm_compute; reflexivity |].
  refine (proj1 (rt_load_failure_keeps_slots (Some tt) _ _ _ _ _)).
  - cbn. lia.
  - vm_compute. reflexivity.
Defined.



(** ** Boot code *)

Lemma boot_status_at_after_loads (s : Boot.boot_state) (k j : nat) :
  Boot.status_at (Boot.after_loads k s) j = Boot.status_at s (k + j).
Proof.
  unfold Boot.status_at, Boot.after_loads. cbn.
  rewrite Nat.add_assoc. reflexivity.
Qed.

Lemma boot_after_loads_zero (s : Boot.boot_state) : Boot.after_loads 0 s = s.
Proof.
  destruct s as [[log reads clk orc] n]. unfold Boot.after_loads. cbn.
  rewrite Nat.add_0_r. reflexivity.
Qed.

Lemma boot_after_loads_succ (s : Boot.boot_state) (k : nat) :
  Boot.after_loads k (Boot.after_loads 1 s) = Boot.after_loads (S k) s.
Proof.
  unfold Boot.after_loads. cbn. do 2 f_equal. lia.
Qed.

(** One poll of [wait_for_idle]. *)
Lemma boot_wait_loop_step (n : nat) (s : Boot.boot_state) :
  Boot.wait_for_idle_loop (S n) s
  = if Boot.shows_idle (Boot.status_at s 0) then (FW_OK, Boot.after_loads 1 s)
    else if Boot.shows_error (Boot.status_at s 0)
         then (FW_ERROR_HW_FAULT, Boot.after_loads 1 s)
         else Boot.wait_for_idle_loop n (Boot.after_loads 1 s).
Proof.
  destruct s as [[log reads clk orc] nn].
  cbn [Boot.wait_for_idle_loop]. unfold Boot.bind, Boot.REG_READ, dev_read32.
  cbn [Boot.bdev Boot.nops dev_log dev_reads dev_clock_us dev_oracle].
  unfold Boot.shows_idle, Boot.shows_error, Boot.status_at, Boot.after_loads.
  cbn [Boot.bdev Boot.nops dev_log dev_reads dev_clock_us dev_oracle].
  rewrite Nat.add_0_r, Nat.add_1_r.
  destruct (negb (Z.land _ STATUS_IDLE =? 0)); [reflexivity |].
  destruct (negb (Z.land _ STATUS_ERROR =? 0)); reflexivity.
Qed.

Lemma boot_wait_loop_skip (k n : nat) (s : Boot.boot_state) :
  (forall j, (j < k)%nat ->
     Boot.shows_idle (Boot.status_at s j) = false /\
     Boot.shows_error (Boot.status_at s j) = false) ->
  Boot.wait_for_idle_loop (k + n) s
  = Boot.wait_for_idle_loop n (Boot.after_loads k s).
Proof.
  revert s. induction k as [| k IH]; intros s Hq.
  - rewrite boot_after_loads_zero. reflexivity.
  - cbn [Nat.add]. rewrite boot_wait_loop_step.
    destruct (Hq 0%nat ltac:(lia)) as [-> ->].
    rewrite IH.
    + rewrite boot_after_loads_succ. reflexivity.
    + intros j Hj. rewrite !boot_status_at_after_loads.
      apply (Hq (S j)). lia.
Qed.

(** X28.  [wait_for_idle] reads the status register until one value
    shows the idle or the error bit, and at most [timeout] times.  If the
    first such value is the [k+1]-th one read and [k < timeout], the
    result is [FW_OK] when the idle bit is set (whether or not the error
    bit is set as well) and [FW_ERROR_HW_FAULT] otherwise, after exactly
    [k+1] reads; if none of the first [timeout] values shows either bit
    the result is [FW_ERROR_TIMEOUT] after exactly [timeout] reads, so
    with a timeout of zero the register is not read at all. *)
Theorem boot_wait_for_idle_outcome (timeout : Z) (s : Boot.boot_state) (k : nat) :
  (forall j, (j < k)%nat ->
     Boot.shows_idle (Boot.status_at s j) = false /\
     Boot.shows_error (Boot.status_at s j) = false) ->
  (Z.of_nat k < timeout ->
   Boot.shows_idle (Boot.status_at s k) = true ->
   Boot.wait_for_idle timeout s = (FW_OK, Boot.after_loads (S k) s)) /\
  (Z.of_nat k < timeout ->
   Boot.shows_idle (Boot.status_at s k) = false ->
   Boot.shows_error (Boot.status_at s k) = true ->
   Boot.wait_for_idle timeout s = (FW_ERROR_HW_FAULT, Boot.after_loads (S k) s)) /\
  (k = Z.to_nat timeout ->
   Boot.wait_for_idle timeout s = (FW_ERROR_TIMEOUT, Boot.after_loads k s)).
Proof.
  intros Hq. unfold Boot.wait_for_idle. split_all.
  - intros Hk Hidle.
    replace (Z.to_nat timeout) with (k + S (Z.to_nat timeout - S k))%nat by lia.
    rewrite boot_wait_loop_skip by exact Hq.
    rewrite boot_wait_loop_step, boot_status_at_after_loads, Nat.add_0_r, Hidle.
    rewrite <- (boot_after_loads_succ s k).
    unfold Boot.after_loads. cbn. do 3 f_equal. lia.
  - intros Hk Hidle Herr.
    replace (Z.to_nat timeout) with (k + S (Z.to_nat timeout - S k))%nat by lia.
    rewrite boot_wait_loop_skip by exact Hq.
    rewrite boot_wait_loop_step, boot_status_at_after_loads, Nat.add_0_r,
      Hidle, Herr.
    rewrite <- (boot_after_loads_succ s k).
    unfold Boot.after_loads. cbn. do 3 f_equal. lia.
  - intros ->.
    replace (Z.to_nat timeout) with (Z.to_nat timeout + 0)%nat at 1 by lia.
    rewrite boot_wait_loop_skip by exact Hq. reflexivity.
Qed.

Lemma boot_wait_for_idle_outcome_witness :
  Boot.wait_for_idle 5
    (Boot.power_on (fun n a => if (2 <=? n)%nat then STATUS_IDLE else 0))
  = (FW_OK,
     Boot.after_loads 3
       (Boot.power_on (fun n a => if (2 <=? n)%nat then STATUS_IDLE else 0))).
Proof.
  refine (proj1 (boot_wait_for_idle_outcome 5 _ 2 _) _ _).
  - intros j Hj.
    destruct j as [| [| j]]; [split; reflexivity | split; reflexivity | lia].
  - lia.
  - reflexivity.
Defined.

(** X29.  [verify_hardware] reads the version and then the configuration
    register, and accepts exactly when the version is neither [0] nor
    [0xFFFFFFFF] and both halves of the configuration word, the rows in
    the upper and the columns in the lower 16 bits, are between 1 and 64;
    every other hardware is an [FW_ERROR_HW_FAULT]. *)
Theorem boot_verify_hardware_accepts (s : Boot.boot_state) :
  let version :=
    u32 (dev_oracle (Boot.bdev s) (dev_reads (Boot.bdev s)) REG_VERSION) in
  let config :=
    u32 (dev_oracle (Boot.bdev s) (S (dev_reads (Boot.bdev s))) REG_CONFIG) in
  snd (Boot.verify_hardware s) = Boot.after_loads 2 s /\
  (fst (Boot.verify_hardware s) = FW_OK <->
   version <> 0 /\ version <> 0xFFFFFFFF /\
   1 <= config / 2 ^ 16 <= 64 /\ 1 <= config mod 2 ^ 16 <= 64) /\
  (fst (Boot.verify_hardware s) = FW_OK \/
   fst (Boot.verify_hardware s) = FW_ERROR_HW_FAULT).
Proof.
  destruct s as [[log reads clk orc] nn].
  cbn [Boot.bdev dev_reads dev_oracle].
  set (version := u32 (orc reads REG_VERSION)).
  set (config := u32 (orc (S reads) REG_CONFIG)).
  assert (Hc : 0 <= config < 2 ^ 32) by (apply Z.mod_pos_bound; lia).
  assert (Hrows : u16 (Z.land (Z.shiftr config 16) 0xFFFF) = config / 2 ^ 16).
  { change 0xFFFF with (Z.ones 16).
    rewrite Z.land_ones, Z.shiftr_div_pow2 by lia. unfold u16.
    rewrite Z.mod_mod by lia. apply Z.mod_small.
    split; [apply Z.div_pos; lia |].
    apply Z.div_lt_upper_bound; lia. }
  assert (Hcols : u16 (Z.land config 0xFFFF) = config mod 2 ^ 16).
  { change 0xFFFF with (Z.ones 16).
    rewrite Z.land_ones by lia. unfold u16. apply Z.mod_mod. lia. }
  unfold Boot.verify_hardware, Boot.bind, Boot.REG_READ, dev_read32, Boot.ret.
  cbn [Boot.bdev Boot.nops dev_log dev_reads dev_clock_us dev_oracle].
  fold version. fold config. rewrite Hrows, Hcols.
  split_all.
  - unfold Boot.after_loads.
    cbn [Boot.bdev Boot.nops dev_log dev_reads dev_clock_us dev_oracle].
    rewrite Nat.add_comm. cbn [Nat.add].
    destruct (_ || _); [reflexivity |].
    destruct (_ || _); [reflexivity |].
    destruct (_ || _); reflexivity.
  - destruct (version =? 0) eqn:Hv0; cbn [orb].
    { apply Z.eqb_eq in Hv0. split; [discriminate | intros [H _]; contradiction]. }
    destruct (version =? 0xFFFFFFFF) eqn:Hv1; cbn [orb].
    { apply Z.eqb_eq in Hv1.
      split; [discriminate | intros [_ [H _]]; contradiction]. }
    apply Z.eqb_neq in Hv0, Hv1.
    destruct (config / 2 ^ 16 =? 0) eqn:Hr0; cbn [orb].
    { apply Z.eqb_eq in Hr0. split; [discriminate | lia]. }
    destruct (config mod 2 ^ 16 =? 0) eqn:Hc0; cbn [orb].
    { apply Z.eqb_eq in Hc0. split; [discriminate | lia]. }
    apply Z.eqb_neq in Hr0, Hc0.
    assert (0 <= config / 2 ^ 16) by (apply Z.div_pos; lia).
    assert (0 <= config mod 2 ^ 16) by (apply Z.mod_pos_bound; lia).
    destruct (config / 2 ^ 16 >? 64) eqn:Hr1; cbn [orb].
    { apply Z.gtb_lt in Hr1. split; [discriminate | lia]. }
    destruct (config mod 2 ^ 16 >? 64) eqn:Hc1; cbn [orb].
    { apply Z.gtb_lt in Hc1. split; [discriminate | lia]. }
    assert (~ config / 2 ^ 16 > 64)
      by (intros Hgt; apply Z.gt_lt, Z.gtb_lt in Hgt; congruence).
    assert (~ config mod 2 ^ 16 > 64)
      by (intros Hgt; apply Z.gt_lt, Z.gtb_lt in Hgt; congruence).
    split; [intros _; split_all; try assumption; lia | reflexivity].
  - destruct (_ || _); [right; reflexivity |].
    destruct (_ || _); [right; reflexivity |].
    destruct (_ || _); [right | left]; reflexivity.
Qed.

Lemma boot_verify_hardware_accepts_witness :
  fst (Boot.verify_hardware
         (Boot.power_on (fun _ a => if a =? REG_CONFIG then 0x00100010 else 8)))
  = FW_OK.
Proof.
  apply (proj2 (proj1 (proj2 (boot_verify_hardware_accepts
           (Boot.power_on
              (fun _ a => if a =? REG_CONFIG then 0x00100010 else 8)))))).
  repeat split; vm_compute; discriminate.
Defined.

Lemma boot_wait_loop_frame (n : nat) (log : list dev_event) (reads : nat)
  (clk : Z) (orc : nat -> Z -> Z) (nn : Z) :
  exists (k : nat) (st : fw_status_t),
    Boot.wait_for_idle_loop n (Boot.mkBoot (mkDevice log reads clk orc) nn)
    = (st, Boot.mkBoot (mkDevice log (reads + k) clk orc) nn) /\
    (k <= n)%nat /\
    (st = FW_OK \/ st = FW_ERROR_HW_FAULT \/ st = FW_ERROR_TIMEOUT).
Proof.
  revert reads. induction n as [| n IH]; intros reads.
  - exists 0%nat, FW_ERROR_TIMEOUT. rewrite Nat.add_0_r.
    split_all; [reflexivity | lia | auto].
  - rewrite boot_wait_loop_step. unfold Boot.after_loads.
    cbn [Boot.bdev Boot.nops dev_log dev_reads dev_clock_us dev_oracle].
    destruct (Boot.shows_idle _).
    { exists 1%nat, FW_OK. split_all; [reflexivity | lia | auto]. }
    destruct (Boot.shows_error _).
    { exists 1%nat, FW_ERROR_HW_FAULT. split_all; [reflexivity | lia | auto]. }
    destruct (IH (reads + 1)%nat) as [k [st [Hrun [Hk Hst]]]].
    exists (S k), st. rewrite Hrun.
    split_all; [do 3 f_equal; lia | lia | exact Hst].
Qed.

Lemma boot_verify_frame (log : list dev_event) (reads : nat) (clk : Z)
  (orc : nat -> Z -> Z) (nn : Z) :
  exists st : fw_status_t,
    Boot.verify_hardware (Boot.mkBoot (mkDevice log reads clk orc) nn)
    = (st, Boot.mkBoot (mkDevice log (S (S reads)) clk orc) nn) /\
    (st = FW_OK \/ st = FW_ERROR_HW_FAULT).
Proof.
  unfold Boot.verify_hardware, Boot.bind, Boot.REG_READ, dev_read32, Boot.ret.
  cbn [Boot.bdev Boot.nops dev_log dev_reads dev_clock_us dev_oracle].
  destruct (_ || _); [eexists; split; [reflexivity | auto] |].
  destruct (_ || _); [eexists; split; [reflexivity | auto] |].
  destruct (_ || _); eexists; split; try reflexivity; auto.
Qed.

Lemma lor_bit0 (v : Z) : Z.testbit (u32 (Z.lor v CTRL_ENABLE)) 0 = true.
Proof.
  unfold u32. rewrite Z.mod_pow2_bits_low by lia.
  rewrite Z.lor_spec. apply orb_true_r.
Qed.

Lemma boot_init_run (log : list dev_event) (reads : nat) (clk : Z)
  (orc : nat -> Z -> Z) (nn : Z) :
  exists (st : fw_status_t) (s' : Boot.boot_state),
    Boot.npu_boot_init (Boot.mkBoot (mkDevice log reads clk orc) nn) = (st, s') /\
    (((st = FW_ERROR_TIMEOUT \/ st = FW_ERROR_HW_FAULT) /\
      dev_log (Boot.bdev s')
      = [ EvRegWrite REG_CTRL
            (u32 (Z.land (u32 (orc (reads + 1)%nat REG_CTRL)) (Z.lnot CTRL_RESET)));
          EvRegWrite REG_CTRL
            (u32 (Z.lor (u32 (orc (reads + 0)%nat REG_CTRL)) CTRL_RESET)) ] ++ log)
     \/
     (st = FW_OK /\
      (exists v older,
         dev_log (Boot.bdev s') = EvRegWrite REG_CTRL v :: older /\
         Z.testbit v 0 = true) /\
      last_reg_write REG_IRQ_EN (dev_log (Boot.bdev s')) = Some 0 /\
      last_reg_write REG_IRQ_STATUS (dev_log (Boot.bdev s')) = Some 0xFFFFFFFF /\
      last_reg_write REG_PERF_CTRL (dev_log (Boot.bdev s')) = Some PERF_CTRL_ENABLE /\
      (forall r,
         In r [REG_DMA_CTRL; REG_DMA_SRC; REG_DMA_DST; REG_DMA_LEN;
               REG_DMA_SRC_STRIDE; REG_DMA_DST_STRIDE;
               REG_INST_BASE; REG_INST_SIZE; REG_INST_PTR;
               REG_WEIGHT_BASE; REG_WEIGHT_SIZE;
               REG_ACT_IN_BASE; REG_ACT_IN_SIZE;
               REG_ACT_OUT_BASE; REG_ACT_OUT_SIZE] ->
         last_reg_write r (dev_log (Boot.bdev s')) = Some 0) /\
      Boot.nops s' = nn + 2210)).
Proof.
  rewrite Nat.add_0_r, Nat.add_1_r.
  set (c1 := u32 (Z.lor (u32 (orc reads REG_CTRL)) CTRL_RESET)).
  set (c2 := u32 (Z.land (u32 (orc (S reads) REG_CTRL)) (Z.lnot CTRL_RESET))).
  destruct (boot_wait_loop_frame (Z.to_nat Boot.BOOT_TIMEOUT_CYCLES)
              (EvRegWrite REG_CTRL c2 :: EvRegWrite REG_CTRL c1 :: log)
              (S (S reads)) clk orc
              (nn + Boot.RESET_DELAY_CYCLES + Boot.RESET_DELAY_CYCLES))
    as [k [st [Hrun [_ Hst]]]].
  destruct (boot_verify_frame
              (EvRegWrite REG_CTRL c2 :: EvRegWrite REG_CTRL c1 :: log)
              (S (S reads) + k)%nat clk orc
              (nn + Boot.RESET_DELAY_CYCLES + Boot.RESET_DELAY_CYCLES))
    as [st2 [Hver Hst2]].
  assert (Hreset :
    Boot.npu_hw_reset (Boot.mkBoot (mkDevice log reads clk orc) nn)
    = (st, Boot.mkBoot
             (mkDevice (EvRegWrite REG_CTRL c2 :: EvRegWrite REG_CTRL c1 :: log)
                       (S (S reads) + k) clk orc)
             (nn + Boot.RESET_DELAY_CYCLES + Boot.RESET_DELAY_CYCLES))).
  { unfold Boot.npu_hw_reset, Boot.wait_for_idle, Boot.bind, Boot.REG_SET,
      Boot.REG_CLR, Boot.delay_cycles, dev_set32, dev_clr32, dev_read32,
      dev_write32.
    cbn [Boot.bdev Boot.nops dev_log dev_reads dev_clock_us dev_oracle].
    exact Hrun. }
  unfold Boot.npu_boot_init. unfold Boot.bind at 1. rewrite Hreset.
  destruct Hst as [-> | [-> | ->]].
  2,3: (cbn [fw_status_eqb negb]; unfold Boot.ret; eexists; eexists;
        split; [reflexivity |]; left; split; [auto | reflexivity]).
  cbn [fw_status_eqb negb]. unfold Boot.bind at 1. rewrite Hver.
  destruct Hst2 as [-> | ->].
  2: (cbn [fw_status_eqb negb]; unfold Boot.ret; eexists; eexists;
      split; [reflexivity |]; left; split; [auto | reflexivity]).
  cbn [fw_status_eqb negb].
  eexists. eexists. split.
  { lazy beta iota zeta delta
      [Boot.clear_interrupts Boot.init_dma Boot.init_pe_array
       Boot.clear_buffers Boot.init_perf_counters
       Boot.bind Boot.REG_WRITE Boot.REG_SET Boot.REG_CLR
       Boot.delay_cycles Boot.ret dev_set32 dev_clr32 dev_read32 dev_write32
       Boot.bdev Boot.nops dev_log dev_reads dev_clock_us dev_oracle].
    reflexivity. }
  right. cbn [Boot.bdev Boot.nops dev_log].
  split_all.
  - reflexivity.
  - eexists. eexists. split; [reflexivity | apply lor_bit0].
  - reflexivity.
  - reflexivity.
  - reflexivity.
  - intros r Hr. cbn [In] in Hr.
    repeat (destruct Hr as [<- | Hr]; [reflexivity |]). contradiction.
  - unfold Boot.RESET_DELAY_CYCLES. lia.
Qed.

(** X30.  [npu_boot_init] fails only with [FW_ERROR_TIMEOUT] or
    [FW_ERROR_HW_FAULT], and a failed initialization has stored nothing
    but the two values of the reset pulse in the control register: the
    enable bit is not set and no other register is written.  A
    successful one ends with the store that sets the enable bit in the
    control register, after it has disabled and acknowledged all
    interrupts, left zero in the DMA control and descriptor registers and
    in the buffer registers, and enabled the performance counters. *)
Theorem boot_init_enables_last (s : Boot.boot_state) :
  let ctrl k := u32 (dev_oracle (Boot.bdev s) (dev_reads (Boot.bdev s) + k)%nat
                       REG_CTRL) in
  let pulse :=
    [ EvRegWrite REG_CTRL (u32 (Z.land (ctrl 1%nat) (Z.lnot CTRL_RESET)));
      EvRegWrite REG_CTRL (u32 (Z.lor (ctrl 0%nat) CTRL_RESET)) ] in
  let log' := dev_log (Boot.bdev (snd (Boot.npu_boot_init s))) in
  (fst (Boot.npu_boot_init s) <> FW_OK ->
   (fst (Boot.npu_boot_init s) = FW_ERROR_TIMEOUT \/
    fst (Boot.npu_boot_init s) = FW_ERROR_HW_FAULT) /\
   log' = pulse ++ dev_log (Boot.bdev s)) /\
  (fst (Boot.npu_boot_init s) = FW_OK ->
   (exists v older,
      log' = EvRegWrite REG_CTRL v :: older /\ Z.testbit v 0 = true) /\
   last_reg_write REG_IRQ_EN log' = Some 0 /\
   last_reg_write REG_IRQ_STATUS log' = Some 0xFFFFFFFF /\
   last_reg_write REG_PERF_CTRL log' = Some PERF_CTRL_ENABLE /\
   (forall r,
      In r [REG_DMA_CTRL; REG_DMA_SRC; REG_DMA_DST; REG_DMA_LEN;
            REG_DMA_SRC_STRIDE; REG_DMA_DST_STRIDE;
            REG_INST_BASE; REG_INST_SIZE; REG_INST_PTR;
            REG_WEIGHT_BASE; REG_WEIGHT_SIZE;
            REG_ACT_IN_BASE; REG_ACT_IN_SIZE;
            REG_ACT_OUT_BASE; REG_ACT_OUT_SIZE] ->
      last_reg_write r log' = Some 0) /\
   Boot.nops (snd (Boot.npu_boot_init s)) = Boot.nops s + 2210).
Proof.
  destruct s as [[log reads clk orc] nn].
  cbn [Boot.bdev Boot.nops dev_log dev_reads dev_clock_us dev_oracle].
  destruct (boot_init_run log reads clk orc nn) as [st [s' [Hrun Hcases]]].
  rewrite Hrun. cbn [fst snd].
  destruct Hcases as [[Hst Hlog] | [-> Hok]].
  - split; [intros _; split; assumption |].
    intros ->. destruct Hst; discriminate.
  - split; [intros H; exfalso; apply H; reflexivity |].
    intros _. exact Hok.
Qed.

Lemma boot_init_enables_last_witness :
  fst (Boot.npu_boot_init
         (Boot.power_on (fun _ a => if a =? REG_CONFIG then 0x00100010 else 8)))
    = FW_OK /\
  Boot.nops (snd (Boot.npu_boot_init
         (Boot.power_on (fun _ a => if a =? REG_CONFIG then 0x00100010 else 8))))
    = 2210.
Proof.
  split; [vm_compute; reflexivity |].
  refine (proj2 (proj2 (proj2 (proj2 (proj2 (proj2
    (boot_init_enables_last
       (Boot.power_on (fun _ a => if a =? REG_CONFIG then 0x00100010 else 8)))
    _)))))).
  vm_compute. reflexivity.
Defined.
